(** * Stencil: configuration validation and transpile options

    A shallow embedding of [src/compiler/config/validate-config.ts]
    ([validateConfig]) and of the transpile-option helpers
    ([getTranspileResults], [getTranspileConfig], [getTranspileCssConfig],
    [getTranspileConfigOpt]) over a small model of JavaScript values and of
    the object heap, followed by the properties the specification states
    about them. *)

From Stdlib Require Import ZArith QArith Lqa String Ascii List Bool.
From stdpp Require Import gmap strings list pretty.

Open Scope string_scope.
Open Scope list_scope.

(* ================================================================== *)
(** * JavaScript values and the object heap *)
(* ================================================================== *)

Module Js.

(** Object identities. *)
Abbreviation loc := positive.

(** A JavaScript number: the three non-finite doubles and the finite ones,
    read as the rational they denote (the sign of zero is not kept; no
    operation of the code observes it). *)
Inductive number : Type :=
  | NaN
  | PosInf
  | NegInf
  | Fin (q : Q).

(** Values.  Objects, arrays and regular expressions live in the heap and
    are denoted by their identity.  Functions, symbols and big integers are
    not part of the model. *)
Inductive value : Type :=
  | VUndef
  | VNull
  | VBool (b : bool)
  | VNum (n : number)
  | VStr (s : string)
  | VObj (l : loc).

(** The class of a heap object. *)
Inductive obj_kind : Type := KPlain | KArray | KRegExp.

(** A heap object: its class, its own enumerable string-keyed properties
    and, for an array, its elements (arrays without holes). *)
Record object : Type := mkObject {
  kind : obj_kind;
  props : gmap string value;
  elems : list value
}.

Abbreviation heap := (gmap loc object).

Definition empty_object : object := mkObject KPlain ∅ [].
Definition plain (ps : gmap string value) : object := mkObject KPlain ps [].
Definition array (xs : list value) : object := mkObject KArray ∅ xs.

(** The outcome of running code: a value, or a thrown exception. *)
Inductive result (A : Type) : Type :=
  | Ok (a : A)
  | Throw (e : string).
Arguments Ok {A} a.
Arguments Throw {A} e.

(** ** Numbers *)

Definition num_of_Z (z : Z) : number := Fin (inject_Z z).

(** [a < b] on numbers; every comparison with [NaN] is false. *)
Definition num_lt (a b : number) : bool :=
  match a, b with
  | NaN, _ | _, NaN => false
  | _, NegInf => false
  | NegInf, _ => true
  | PosInf, _ => false
  | Fin _, PosInf => true
  | Fin x, Fin y => negb (Qle_bool y x)
  end.

(** [a > b] is [b < a]. *)
Definition num_gt (a b : number) : bool := num_lt b a.

Definition num_eq (a b : number) : bool :=
  match a, b with
  | PosInf, PosInf | NegInf, NegInf => true
  | Fin x, Fin y => Qeq_bool x y
  | _, _ => false
  end.

(** ** Equality and truthiness *)

Definition same_kind_eq (num : number → number → bool) (a b : value) : bool :=
  match a, b with
  | VUndef, VUndef | VNull, VNull => true
  | VBool x, VBool y => Bool.eqb x y
  | VNum x, VNum y => num x y
  | VStr x, VStr y => String.eqb x y
  | VObj x, VObj y => Pos.eqb x y
  | _, _ => false
  end.

(** [a === b]. *)
Definition strict_eq : value → value → bool := same_kind_eq num_eq.

(** SameValueZero, the comparison of [Set.prototype.has]: as [===] but
    [NaN] equals itself. *)
Definition same_value_zero : value → value → bool :=
  same_kind_eq (λ x y, match x, y with NaN, NaN => true | _, _ => num_eq x y end).

(** [v == null]. *)
Definition is_nullish (v : value) : bool :=
  match v with VUndef | VNull => true | _ => false end.

(** ToBoolean. *)
Definition truthy (v : value) : bool :=
  match v with
  | VUndef | VNull => false
  | VBool b => b
  | VNum NaN => false
  | VNum (Fin q) => negb (Qeq_bool q 0)
  | VNum _ => true
  | VStr s => negb (String.eqb s "")
  | VObj _ => true
  end.

(** [a || b]. *)
Definition or_else (a b : value) : value := if truthy a then a else b.

(** [a ?? b]. *)
Definition nullish_else (a b : value) : value := if is_nullish a then b else a.

(** [new Set([...]).has(v)]. *)
Definition Set_has (s : list value) (v : value) : bool :=
  existsb (same_value_zero v) s.

(** ** Strings

    Strings are sequences of code units below 256; [toLowerCase] and [trim]
    are the restrictions of the JavaScript ones to that range. *)

Definition lower_unit (c : ascii) : ascii :=
  let n := N_of_ascii c in
  if ((65 <=? n) && (n <=? 90))%N
     || ((192 <=? n) && (n <=? 222) && negb (n =? 215))%N
  then ascii_of_N (n + 32) else c.

Fixpoint toLowerCase (s : string) : string :=
  match s with
  | EmptyString => EmptyString
  | String c s' => String (lower_unit c) (toLowerCase s')
  end.

(** White space and line terminators below 256: TAB, LF, VT, FF, CR, SP and
    NBSP. *)
Definition is_space (c : ascii) : bool :=
  let n := N_of_ascii c in
  ((9 <=? n) && (n <=? 13))%N || (n =? 32)%N || (n =? 160)%N.

Fixpoint trimStart (s : string) : string :=
  match s with
  | EmptyString => EmptyString
  | String c s' => if is_space c then trimStart s' else s
  end.

Fixpoint trimEnd (s : string) : string :=
  match s with
  | EmptyString => EmptyString
  | String c s' =>
      match trimEnd s' with
      | EmptyString => if is_space c then EmptyString else String c EmptyString
      | t => String c t
      end
  end.

Definition trim (s : string) : string := trimEnd (trimStart s).

(** ** Heap access *)

(** The object at a location; a location outside the heap reads as the
    empty object. *)
Definition obj_at (h : heap) (l : loc) : object := default empty_object (h !! l).

Definition prop (o : object) (k : string) : value := default VUndef (props o !! k).

(** [o.k] for an object [o] known by its identity. *)
Definition field (h : heap) (l : loc) (k : string) : value := prop (obj_at h l) k.

Definition set_prop (k : string) (v : value) (o : object) : object :=
  mkObject (kind o) (<[k := v]> (props o)) (elems o).

(** [o.k = v] for an object [o] known by its identity. *)
Definition set_field (l : loc) (k : string) (v : value) (h : heap) : heap :=
  <[l := set_prop k v (obj_at h l)]> h.

(** Allocation of a new object. *)
Definition alloc (o : object) (h : heap) : loc * heap :=
  let l := fresh (dom h) in (l, <[l := o]> h).

(** [v.k].  Reading a property of [null] or [undefined] throws; the
    primitives have no property under any of the names the code reads
    (the code never reads [length] through this function). *)
Definition get (h : heap) (v : value) (k : string) : result value :=
  match v with
  | VUndef | VNull => Throw "TypeError: cannot read properties of null or undefined"
  | VObj l => Ok (field h l k)
  | _ => Ok VUndef
  end.

(** [v.k = x] in strict mode (the code is an ES module): assigning to a
    property of a primitive throws, as does assigning to one of [null] or
    [undefined]. *)
Definition put (v : value) (k : string) (x : value) (h : heap) : result heap :=
  match v with
  | VObj l => Ok (set_field l k x h)
  | VUndef | VNull => Throw "TypeError: cannot set properties of null or undefined"
  | _ => Throw "TypeError: cannot create property on a primitive"
  end.

Definition kind_of (h : heap) (v : value) : option obj_kind :=
  match v with VObj l => Some (kind (obj_at h l)) | _ => None end.

(** [Array.isArray(v)]. *)
Definition isArray (h : heap) (v : value) : bool :=
  match kind_of h v with Some KArray => true | _ => false end.

(** [v instanceof RegExp]. *)
Definition isRegExp (h : heap) (v : value) : bool :=
  match kind_of h v with Some KRegExp => true | _ => false end.

(** The elements of an array value. *)
Definition elems_of (h : heap) (v : value) : list value :=
  match v with VObj l => elems (obj_at h l) | _ => [] end.

(** The index keys and elements of a list, as properties. *)
Definition indexed (xs : list value) : gmap string value :=
  list_to_map (imap (λ i x, (pretty i, x)) xs).

Definition units (s : string) : list value :=
  (λ c, VStr (String c EmptyString)) <$> list_ascii_of_string s.

(** The own enumerable properties of a value, as copied by [Object.assign]
    and by object spread: none for [null], [undefined], booleans and
    numbers; the code units of a string; the properties (and, for an array,
    the elements) of an object. *)
Definition own_enumerable (h : heap) (v : value) : gmap string value :=
  match v with
  | VObj l => props (obj_at h l) ∪ indexed (elems (obj_at h l))
  | VStr s => indexed (units s)
  | _ => ∅
  end.

(** ** JSON

    [JSON.parse(JSON.stringify(v))] goes through the tree that the text
    denotes. *)

#[warnings="-register-all"]
Inductive json : Type :=
  | JNull
  | JBool (b : bool)
  | JNum (q : Q)
  | JStr (s : string)
  | JArr (xs : list json)
  | JObj (ps : list (string * json)).

(** Serialisation of a value to the tree of its JSON text: [Ok None] where
    [JSON.stringify] gives [undefined].  The depth of the traversal is
    bounded by [fuel]; see [JSON_stringify]. *)
Fixpoint stringify (fuel : nat) (h : heap) (v : value) : result (option json) :=
  match v with
  | VUndef => Ok None
  | VNull => Ok (Some JNull)
  | VBool b => Ok (Some (JBool b))
  | VNum (Fin q) => Ok (Some (JNum q))
  | VNum _ => Ok (Some JNull)
  | VStr s => Ok (Some (JStr s))
  | VObj l =>
      match fuel with
      | O => Throw "TypeError: converting circular structure to JSON"
      | S fuel' =>
          let o := obj_at h l in
          match kind o with
          | KArray =>
              match
                foldr (λ x acc,
                         match stringify fuel' h x, acc with
                         | Ok j, Ok js => Ok (default JNull j :: js)
                         | Throw e, _ | _, Throw e => Throw e
                         end) (Ok []) (elems o)
              with
              | Ok js => Ok (Some (JArr js))
              | Throw e => Throw e
              end
          | _ =>
              match
                foldr (λ kx acc,
                         match stringify fuel' h kx.2, acc with
                         | Ok (Some j), Ok ps => Ok ((kx.1, j) :: ps)
                         | Ok None, Ok ps => Ok ps
                         | Throw e, _ | _, Throw e => Throw e
                         end) (Ok []) (map_to_list (props o))
              with
              | Ok ps => Ok (Some (JObj ps))
              | Throw e => Throw e
              end
          end
      end
  end.

(** [JSON.stringify(v)].  A path of more than [size h] nested objects
    visits some object twice, so the structure is circular and
    [JSON.stringify] throws; a circular structure has paths of every
    length.  Bounding the depth by [size h] is therefore exact. *)
Definition JSON_stringify (h : heap) (v : value) : result (option json) :=
  stringify (S (size h)) h v.

(** [JSON.parse] of the text of a tree: fresh objects and arrays. *)
Fixpoint parse (j : json) (h : heap) : value * heap :=
  match j with
  | JNull => (VNull, h)
  | JBool b => (VBool b, h)
  | JNum q => (VNum (Fin q), h)
  | JStr s => (VStr s, h)
  | JArr xs =>
      let '(vs, h1) :=
        foldr (λ x acc, let '(v, h') := parse x acc.2 in (v :: acc.1, h')) ([], h) xs in
      let '(l, h2) := alloc (array vs) h1 in
      (VObj l, h2)
  | JObj ps =>
      let '(m, h1) :=
        foldr (λ kx acc, let '(v, h') := parse kx.2 acc.2 in (<[kx.1 := v]> acc.1, h'))
              (∅, h) ps in
      let '(l, h2) := alloc (plain m) h1 in
      (VObj l, h2)
  end.

(** [JSON.parse(JSON.stringify(v))]; [JSON.parse(undefined)] throws. *)
Definition JSON_roundtrip (v : value) (h : heap) : result (value * heap) :=
  match JSON_stringify h v with
  | Ok (Some j) => Ok (parse j h)
  | Ok None => Throw "SyntaxError: undefined is not valid JSON"
  | Throw e => Throw e
  end.

End Js.

Import Js.

(* ================================================================== *)
(** * Code that runs on a state and may throw *)
(* ================================================================== *)

Module Run.

(** A computation over a state [S]: it returns a value and the new state,
    or throws. *)
Definition M (S A : Type) : Type := S → result (A * S).

Definition ret {S A} (a : A) : M S A := λ s, Ok (a, s).

Definition bind {S A B} (m : M S A) (k : A → M S B) : M S B :=
  λ s, match m s with
       | Ok (a, s') => k a s'
       | Throw e => Throw e
       end.

Definition throw {S A} (e : string) : M S A := λ _, Throw e.

(** A step that never throws. *)
Definition total {S A} (f : S → A * S) : M S A := λ s, Ok (f s).

(** A step that reads the state. *)
Definition reading {S A} (f : S → result A) : M S A :=
  λ s, match f s with Ok a => Ok (a, s) | Throw e => Throw e end.

(** A step that only changes the state. *)
Definition writing {S} (f : S → result S) : M S unit :=
  λ s, match f s with Ok s' => Ok (tt, s') | Throw e => Throw e end.

(** [if (b) { m }]. *)
Definition when {S} (b : bool) (m : M S unit) : M S unit :=
  if b then m else ret tt.

End Run.

Import Run.

Declare Scope run_scope.
Delimit Scope run_scope with run.
Notation "'let*' x ':=' m 'in' k" :=
  (bind m (λ x, k))
  (at level 10, x pattern, m at level 100, k at level 200) : run_scope.
Notation "m ';;' k" :=
  (bind m (λ _, k))
  (at level 100, k at level 200, right associativity) : run_scope.

(* ================================================================== *)
(** * Helpers of [@utils] *)
(* ================================================================== *)

Module Utils.

(** Modelled from the spec: [isString], [isBoolean] and [isNumber] of
    [@utils] are not under [src/]; the spec calls their arguments "a string",
    "a genuine boolean" and "numeric", the [typeof] tests. *)
Definition isString (v : value) : bool :=
  match v with VStr _ => true | _ => false end.

Definition isBoolean (v : value) : bool :=
  match v with VBool _ => true | _ => false end.

Definition isNumber (v : value) : bool :=
  match v with VNum _ => true | _ => false end.

(** Modelled from the spec: the [Diagnostic] declaration is not under
    [src/]; the spec gives it a severity and a message. *)
Record Diagnostic : Type := mkDiagnostic {
  level : string;
  messageText : string
}.

(** Modelled from the spec: [buildError] of [@utils] is not under [src/];
    it appends an error-severity diagnostic to the list it is given and
    returns it, and the caller then assigns the message text.  The pair is
    modelled as one step. *)
Definition buildError (diagnostics : list Diagnostic) (message : string) : list Diagnostic :=
  diagnostics ++ [mkDiagnostic "error" message].

End Utils.

Import Utils.

(* ================================================================== *)
(** * Transpile options *)
(* ================================================================== *)

Module Transpile.

(** The state the transpile helpers run on: the heap and the module-level
    [transpileCtx = { sys: null }]. *)
Record state : Type := mkState {
  heap_of : heap;
  transpileCtx_sys : value
}.

Definition on_heap (f : heap → heap) (s : state) : state :=
  mkState (f (heap_of s)) (transpileCtx_sys s).

(** [v.k] and [v.k = x] on the state. *)
Definition read (v : value) (k : string) : M state value :=
  reading (λ s, get (heap_of s) v k).

Definition assign (v : value) (k : string) (x : value) : M state unit :=
  writing (λ s, match put v k x (heap_of s) with
                | Ok h => Ok (mkState h (transpileCtx_sys s))
                | Throw e => Throw e
                end).

Definition new_object (o : object) : M state value :=
  total (λ s, let '(l, h) := alloc o (heap_of s) in
              (VObj l, mkState h (transpileCtx_sys s))).

(** What [parseImportPath] returns, as far as the code reads it. *)
Record ParsedImport : Type := mkParsedImport {
  ext : value;
  data : value
}.

(** The collaborators of the transpile helpers that are not under [src/]:
    the import-path parser, the constant [STENCIL_INTERNAL_CLIENT_ID], the
    factory of the default system and the working-directory query of a
    system. *)
Record Collaborators : Type := mkCollaborators {
  parseImportPath : value → ParsedImport;
  STENCIL_INTERNAL_CLIENT_ID : string;
  createNodeSys : heap → value * heap;
  getCurrentDirectory : value → value
}.

Module TranspileResults.
Record t : Type := mk {
  code : string;
  data : list value;
  diagnostics : list Diagnostic;
  inputFileExtension : value;
  inputFilePath : value;
  imports : list value;
  map : value;
  outputFilePath : value
}.
End TranspileResults.

Module TranspileOptions.
Record t : Type := mk {
  componentExport : value;
  componentMetadata : value;
  coreImportPath : value;
  currentDirectory : value;
  file : value;
  proxy : value;
  module : value;
  sourceMap : value;
  style : value;
  styleImportData : value;
  target : value;
  baseUrl : value;
  paths : value
}.
End TranspileOptions.

Module CompilerOptions.
Record t : Type := mk {
  allowSyntheticDefaultImports : bool;
  esModuleInterop : bool;
  sourceMap : bool;
  isolatedModules : bool;
  suppressOutputPathCheck : bool;
  allowNonTsExtensions : bool;
  noLib : bool;
  noResolve : bool;
  baseUrl : value;
  paths : value
}.
End CompilerOptions.

Module TransformOptions.
Record t : Type := mk {
  coreImportPath : value;
  componentExport : value;
  componentMetadata : value;
  currentDirectory : value;
  isolatedModules : bool;
  module : value;
  proxy : value;
  file : value;
  style : value;
  styleImportData : value;
  target : value
}.
End TransformOptions.

Module Config.
Record t : Type := mk {
  _isTesting : bool;
  devMode : bool;
  enableCache : bool;
  minifyCss : bool;
  minifyJs : bool;
  rootDir : value;
  srcDir : value;
  sys : value;
  transformAliasedImportPaths : value;
  tsCompilerOptions : CompilerOptions.t;
  validateTypes : bool
}.
End Config.

Module TranspileConfig.
Record t : Type := mk {
  compileOpts : TranspileOptions.t;
  config : Config.t;
  transformOpts : TransformOptions.t
}.
End TranspileConfig.

Module TransformCssToEsmInput.
Record t : Type := mk {
  file : value;
  input : string;
  tag : value;
  encapsulation : value;
  mode : value;
  sourceMap : bool;
  commentOriginalSelector : bool;
  minify : bool;
  autoprefixer : bool;
  module : value;
  styleImportData : value
}.
End TransformCssToEsmInput.

Definition VALID_EXPORT : list value := [VStr "customelement"; VStr "module"].
Definition VALID_METADATA : list value := [VStr "compilerstatic"; VNull].
Definition VALID_MODULE : list value := [VStr "cjs"; VStr "esm"].
Definition VALID_PROXY : list value := [VStr "defineproperty"; VNull].
Definition VALID_STYLE : list value := [VStr "static"].
Definition VALID_STYLE_IMPORT_DATA : list value := [VStr "queryparams"].
Definition VALID_TARGET : list value :=
  [VStr "latest"; VStr "esnext"; VStr "es2020"; VStr "es2019"; VStr "es2018";
   VStr "es2017"; VStr "es2016"; VStr "es2015"; VStr "es5"].

(** [value.toLowerCase().trim()] for a string [value]. *)
Definition toLowerCase_trim (value : value) : Js.value :=
  match value with
  | VStr s => VStr (trim (toLowerCase s))
  | _ => value
  end.

Definition getTranspileConfigOpt (value : value) (validValues : list Js.value)
    (defaultValue : Js.value) : Js.value :=
  if strict_eq value VNull || strict_eq value (VStr "null") then VNull
  else
    let value := if isString value then toLowerCase_trim value else VNull in
    if Set_has validValues value then value else defaultValue.

Section WithCollaborators.

Variable E : Collaborators.

Local Open Scope run_scope.

Definition getTranspileResults (code input : value)
    : M state (value * TranspileResults.t) :=
  let* file := read input "file" in
  when (negb (isString file)) (assign input "file" (VStr "module.tsx")) ;;
  let* file := read input "file" in
  let parsedImport := parseImportPath E file in
  let* file := read input "file" in
  let results :=
    TranspileResults.mk
      (match code with VStr c => c | _ => "" end)
      []
      []
      (ext parsedImport)
      file
      []
      VNull
      VNull in
  ret (data parsedImport, results).

Definition getTranspileConfig (input : value) : M state TranspileConfig.t :=
  let* input_sys := read input "sys" in
  (if truthy input_sys then
     writing (λ s, Ok (mkState (heap_of s) input_sys))
   else
     let* memo := reading (λ s, Ok (transpileCtx_sys s)) in
     when (negb (truthy memo))
          (writing (λ s, let '(sys, h) := createNodeSys E (heap_of s) in
                         Ok (mkState h sys)))) ;;
  let* componentExport := read input "componentExport" in
  let* componentMetadata := read input "componentMetadata" in
  let* coreImportPath := read input "coreImportPath" in
  let* currentDirectory := read input "currentDirectory" in
  let* memo := reading (λ s, Ok (transpileCtx_sys s)) in
  let* file := read input "file" in
  let* proxy := read input "proxy" in
  let* module := read input "module" in
  let* sourceMap := read input "sourceMap" in
  let* style := read input "style" in
  let* styleImportData := read input "styleImportData" in
  let* target := read input "target" in
  let compileOpts :=
    TranspileOptions.mk
      (getTranspileConfigOpt componentExport VALID_EXPORT (VStr "customelement"))
      (getTranspileConfigOpt componentMetadata VALID_METADATA VNull)
      (if isString coreImportPath then coreImportPath
       else VStr (STENCIL_INTERNAL_CLIENT_ID E))
      (if isString currentDirectory then currentDirectory
       else getCurrentDirectory E memo)
      file
      (getTranspileConfigOpt proxy VALID_PROXY (VStr "defineproperty"))
      (getTranspileConfigOpt module VALID_MODULE (VStr "esm"))
      (if strict_eq sourceMap (VStr "inline") then VStr "inline"
       else VBool (negb (strict_eq sourceMap (VBool false))))
      (getTranspileConfigOpt style VALID_STYLE (VStr "static"))
      (getTranspileConfigOpt styleImportData VALID_STYLE_IMPORT_DATA (VStr "queryparams"))
      (getTranspileConfigOpt target VALID_TARGET (VStr "latest"))
      VUndef
      VUndef in
  let tsCompilerOptions :=
    CompilerOptions.mk
      true
      true
      (negb (strict_eq (TranspileOptions.sourceMap compileOpts) (VBool false)))
      true
      true
      true
      true
      true
      VUndef
      VUndef in
  let* input_baseUrl := read input "baseUrl" in
  let compileOpts_baseUrl :=
    if isString input_baseUrl then input_baseUrl else VUndef in
  let* input_paths := read input "paths" in
  let* compileOpts_paths :=
    if truthy input_paths then
      let* copied := reading (λ s, Ok (own_enumerable (heap_of s) input_paths)) in
      new_object (plain copied)
    else ret VUndef in
  let* tsCompilerOptions_paths :=
    if truthy input_paths then
      let* copied := reading (λ s, Ok (own_enumerable (heap_of s) compileOpts_paths)) in
      new_object (plain copied)
    else ret VUndef in
  let compileOpts :=
    TranspileOptions.mk
      (TranspileOptions.componentExport compileOpts)
      (TranspileOptions.componentMetadata compileOpts)
      (TranspileOptions.coreImportPath compileOpts)
      (TranspileOptions.currentDirectory compileOpts)
      (TranspileOptions.file compileOpts)
      (TranspileOptions.proxy compileOpts)
      (TranspileOptions.module compileOpts)
      (TranspileOptions.sourceMap compileOpts)
      (TranspileOptions.style compileOpts)
      (TranspileOptions.styleImportData compileOpts)
      (TranspileOptions.target compileOpts)
      compileOpts_baseUrl
      compileOpts_paths in
  let tsCompilerOptions :=
    CompilerOptions.mk
      (CompilerOptions.allowSyntheticDefaultImports tsCompilerOptions)
      (CompilerOptions.esModuleInterop tsCompilerOptions)
      (CompilerOptions.sourceMap tsCompilerOptions)
      (CompilerOptions.isolatedModules tsCompilerOptions)
      (CompilerOptions.suppressOutputPathCheck tsCompilerOptions)
      (CompilerOptions.allowNonTsExtensions tsCompilerOptions)
      (CompilerOptions.noLib tsCompilerOptions)
      (CompilerOptions.noResolve tsCompilerOptions)
      compileOpts_baseUrl
      tsCompilerOptions_paths in
  let transformOpts :=
    TransformOptions.mk
      (TranspileOptions.coreImportPath compileOpts)
      (TranspileOptions.componentExport compileOpts)
      (TranspileOptions.componentMetadata compileOpts)
      (TranspileOptions.currentDirectory compileOpts)
      true
      (TranspileOptions.module compileOpts)
      (TranspileOptions.proxy compileOpts)
      (TranspileOptions.file compileOpts)
      (TranspileOptions.style compileOpts)
      (TranspileOptions.styleImportData compileOpts)
      (TranspileOptions.target compileOpts) in
  let* memo := reading (λ s, Ok (transpileCtx_sys s)) in
  let* input_transformAliasedImportPaths := read input "transformAliasedImportPaths" in
  let config :=
    Config.mk
      true
      true
      false
      true
      false
      (TranspileOptions.currentDirectory compileOpts)
      (TranspileOptions.currentDirectory compileOpts)
      memo
      input_transformAliasedImportPaths
      tsCompilerOptions
      false in
  ret (TranspileConfig.mk compileOpts config transformOpts).

(** [importData && importData.k]. *)
Definition and_get (h : heap) (importData : value) (k : string) : result value :=
  if truthy importData then get h importData k else Ok importData.

Definition getTranspileCssConfig (compileOpts : TranspileOptions.t) (importData : value)
    (results : TranspileResults.t) : M state TransformCssToEsmInput.t :=
  let* tag := reading (λ s, and_get (heap_of s) importData "tag") in
  let* encapsulation := reading (λ s, and_get (heap_of s) importData "encapsulation") in
  let* mode := reading (λ s, and_get (heap_of s) importData "mode") in
  ret (TransformCssToEsmInput.mk
         (TranspileResults.inputFilePath results)
         (TranspileResults.code results)
         tag
         encapsulation
         mode
         (negb (strict_eq (TranspileOptions.sourceMap compileOpts) (VBool false)))
         false
         false
         false
         (TranspileOptions.module compileOpts)
         (TranspileOptions.styleImportData compileOpts)).

End WithCollaborators.

End Transpile.

(* ================================================================== *)
(** * The enum-like transpile options *)
(* ================================================================== *)

Module EnumOptions.

Import Transpile.

(** The seven options [getTranspileConfig] resolves through
    [getTranspileConfigOpt], each with the property of the input it reads,
    the allow-list and the default of its call, and the field of
    [compileOpts] that receives the result (see
    [getTranspileConfig_resolves]). *)
Inductive EnumOption : Type :=
  | componentExport
  | componentMetadata
  | proxy
  | module
  | style
  | styleImportData
  | target.

Definition all : list EnumOption :=
  [componentExport; componentMetadata; proxy; module; style; styleImportData; target].

Definition key (f : EnumOption) : string :=
  match f with
  | componentExport => "componentExport"
  | componentMetadata => "componentMetadata"
  | proxy => "proxy"
  | module => "module"
  | style => "style"
  | styleImportData => "styleImportData"
  | target => "target"
  end.

Definition validValues (f : EnumOption) : list value :=
  match f with
  | componentExport => VALID_EXPORT
  | componentMetadata => VALID_METADATA
  | proxy => VALID_PROXY
  | module => VALID_MODULE
  | style => VALID_STYLE
  | styleImportData => VALID_STYLE_IMPORT_DATA
  | target => VALID_TARGET
  end.

Definition defaultValue (f : EnumOption) : value :=
  match f with
  | componentExport => VStr "customelement"
  | componentMetadata => VNull
  | proxy => VStr "defineproperty"
  | module => VStr "esm"
  | style => VStr "static"
  | styleImportData => VStr "queryparams"
  | target => VStr "latest"
  end.

Definition resolved (f : EnumOption) (o : TranspileOptions.t) : value :=
  match f with
  | componentExport => TranspileOptions.componentExport o
  | componentMetadata => TranspileOptions.componentMetadata o
  | proxy => TranspileOptions.proxy o
  | module => TranspileOptions.module o
  | style => TranspileOptions.style o
  | styleImportData => TranspileOptions.styleImportData o
  | target => TranspileOptions.target o
  end.

(** What the option normalizer does with a raw option. *)
Definition normalize (f : EnumOption) (v : value) : value :=
  getTranspileConfigOpt v (validValues f) (defaultValue f).



End EnumOptions.

(* ================================================================== *)
(** * What runs between two calls of [getTranspileConfig] *)
(* ================================================================== *)

Module Session.

Import Transpile.

(** The states a process can reach from [s] without calling
    [getTranspileConfig] with a system: other code changes the heap but
    cannot reach the module-level [transpileCtx], and calls of
    [getTranspileConfig] whose input has no (truthy) [sys] run to their
    end. *)
Inductive without_sys (E : Collaborators) (s : state) : state → Prop :=
  | ws_here : without_sys E s s
  | ws_other_code (s1 : state) (h : heap) :
      without_sys E s s1 →
      without_sys E s (mkState h (transpileCtx_sys s1))
  | ws_call (s1 s2 : state) (l : loc) (r : TranspileConfig.t) :
      without_sys E s s1 →
      truthy (field (heap_of s1) l "sys") = false →
      getTranspileConfig E (VObj l) s1 = Ok (r, s2) →
      without_sys E s s2.

(** The collaborators with another factory of the default system. *)
Definition with_createNodeSys (f : heap → value * heap) (E : Collaborators) : Collaborators :=
  mkCollaborators (parseImportPath E) (STENCIL_INTERNAL_CLIENT_ID E) f (getCurrentDirectory E).

End Session.

(* ================================================================== *)
(** * Validation of a configuration *)
(* ================================================================== *)

Module ValidateConfig.

(** The state [validateConfig] runs on: the heap and the module-level
    [CACHED_VALIDATED_CONFIG]. *)
Record state : Type := mkState {
  heap_of : heap;
  CACHED_VALIDATED_CONFIG : value
}.

(** [v.k], [v.k = x], an object or array literal, and a call of a
    collaborator, on the state. *)
Definition read (v : value) (k : string) : M state value :=
  reading (λ s, get (heap_of s) v k).

Definition assign (v : value) (k : string) (x : value) : M state unit :=
  writing (λ s, match put v k x (heap_of s) with
                | Ok h => Ok (mkState h (CACHED_VALIDATED_CONFIG s))
                | Throw e => Throw e
                end).

Definition new_loc (o : object) : M state loc :=
  total (λ s, let '(l, h) := alloc o (heap_of s) in
              (l, mkState h (CACHED_VALIDATED_CONFIG s))).

Definition new_object (o : object) : M state value :=
  bind (new_loc o) (λ l, ret (VObj l)).

Definition call {A} (f : heap → A * heap) : M state A :=
  total (λ s, let '(a, h) := f (heap_of s) in (a, mkState h (CACHED_VALIDATED_CONFIG s))).

Definition on_heap {A} (f : heap → A) : M state A :=
  reading (λ s, Ok (f (heap_of s))).

(** The collaborators of [validateConfig] that are not under [src/]: the
    factories of the default logger and system and the field validators.
    Each runs on the heap; those that report problems take the diagnostics
    collected so far and give back the list they leave. *)
Record Collaborators : Type := mkCollaborators {
  createNodeLogger : heap → value * heap;
  createNodeSys : value → heap → value * heap;
  validateHydrated : value → heap → value * heap;
  validateRollupConfig : value → heap → value * heap;
  validatePaths : value → heap → value * heap;
  validateNamespace : value → list Diagnostic → heap → list Diagnostic * heap;
  validateOutputTargets : value → list Diagnostic → heap → list Diagnostic * heap;
  validatePlugins : value → list Diagnostic → heap → list Diagnostic * heap;
  validateDevServer : value → list Diagnostic → heap → (value * list Diagnostic) * heap;
  validateTesting : value → list Diagnostic → heap → list Diagnostic * heap;
  validateWorkers : value → heap → unit * heap;
  validateDistNamespace : value → list Diagnostic → heap → list Diagnostic * heap
}.

Definition DEFAULT_DEV_MODE : bool := false.
Definition DEFAULT_HASHED_FILENAME_LENTH : number := num_of_Z 8.
Definition MIN_HASHED_FILENAME_LENTH : number := num_of_Z 4.
Definition MAX_HASHED_FILENAME_LENTH : number := num_of_Z 32.

(** The number a value of type number is; the two comparisons of
    [validateConfig] apply it to [hashedFileNameLength] after the statement
    that makes it a number. *)
Definition number_of (v : value) : number :=
  match v with VNum n => n | _ => NaN end.

Local Open Scope run_scope.

(** Modelled from the spec: [setBooleanConfig] of [./config-utils] is not
    under [src/].  If the field already holds a boolean it is left; else if
    a flag name is given and the flags object holds a boolean under it, that
    is used; else the default.  Exactly one field is assigned; it does not
    throw. *)
Definition setBooleanConfig (config : loc) (configName : string)
    (flagName : option string) (defaultValue : value) : M state unit :=
  let* current := read (VObj config) configName in
  if isBoolean current then ret tt
  else
    let* flags := read (VObj config) "flags" in
    let* flagValue :=
      match flagName with
      | Some name => on_heap (λ h, match get h flags name with Ok v => v | Throw _ => VUndef end)
      | None => ret VUndef
      end in
    if isBoolean flagValue then assign (VObj config) configName flagValue
    else assign (VObj config) configName defaultValue.

(** [.length] of a value: the number of elements of an array, of code
    units of a string, the property of another object. *)
Definition get_length (h : heap) (v : value) : result value :=
  match v with
  | VUndef | VNull => Throw "TypeError: cannot read properties of null or undefined"
  | VStr s => Ok (VNum (num_of_Z (Z.of_nat (String.length s))))
  | VObj l =>
      match kind (obj_at h l) with
      | KArray => Ok (VNum (num_of_Z (Z.of_nat (length (elems (obj_at h l))))))
      | _ => Ok (field h l "length")
      end
  | _ => Ok VUndef
  end.

(** [(a: ConfigBundle) => a.components.length]. *)
Definition components_length (h : heap) (a : value) : result value :=
  match get h a "components" with
  | Ok components => get_length h components
  | Throw e => Throw e
  end.

Fixpoint insert_by_key (x : number * value) (sorted : list (number * value))
    : list (number * value) :=
  match sorted with
  | [] => [x]
  | y :: rest => if num_lt x.1 y.1 then x :: sorted else y :: insert_by_key x rest
  end.

(** Modelled from the spec: [sortBy] of [@utils] is not under [src/].  It
    gives a new sequence, ascending by the key the function computes, ties
    in their original order.  The key function is not called on a sequence
    of fewer than two elements and is called on every element of a longer
    one; a key that is not a number is unordered with every key. *)
Definition sortBy (xs : list value) (key : value → result value) : result (list value) :=
  match xs with
  | [] | [_] => Ok xs
  | _ =>
      match
        foldr (λ x acc,
                 match key x, acc with
                 | Ok k, Ok kxs => Ok ((number_of k, x) :: kxs)
                 | Throw e, _ | _, Throw e => Throw e
                 end) (Ok []) xs
      with
      | Ok kxs => Ok (snd <$> foldl (λ sorted kx, insert_by_key kx sorted) [] kxs)
      | Throw e => Throw e
      end
  end.

Section WithCollaborators.

Variable E : Collaborators.

(** [bootstrapConfig.logger || config.logger || createNodeLogger()]. *)
Definition resolveLogger (bootstrapConfig config : value) : M state value :=
  let* bootstrap_logger := read bootstrapConfig "logger" in
  if truthy bootstrap_logger then ret bootstrap_logger
  else
    let* config_logger := read config "logger" in
    if truthy config_logger then ret config_logger
    else call (createNodeLogger E).

(** [JSON.parse(JSON.stringify(config.flags || {}))]. *)
Definition cloneFlags (config : value) : M state value :=
  let* config_flags := read config "flags" in
  let* flags_or_empty :=
    if truthy config_flags then ret config_flags else new_object (plain ∅) in
  λ s, match JSON_roundtrip flags_or_empty (heap_of s) with
       | Ok (v, h) => Ok (v, mkState h (CACHED_VALIDATED_CONFIG s))
       | Throw e => Throw e
       end.

(** [config.sys ?? bootstrapConfig.sys ?? createNodeSys({ logger })]. *)
Definition resolveSys (bootstrapConfig config logger : value) : M state value :=
  let* config_sys := read config "sys" in
  if negb (is_nullish config_sys) then ret config_sys
  else
    let* bootstrap_sys := read bootstrapConfig "sys" in
    if negb (is_nullish bootstrap_sys) then ret bootstrap_sys
    else
      let* options := new_object (plain {[ "logger" := logger ]}) in
      call (createNodeSys E options).

(** [v ?? <literal>] for an empty object or array literal. *)
Definition nullish_else_new (v : value) (literal : object) : M state value :=
  if is_nullish v then new_object literal else ret v.

(** Lines 75-95: the shallow copy, the logger and the object literal. *)
Definition assemble (userConfig bootstrapConfig : value) : M state loc :=
  let* copied := on_heap (λ h, own_enumerable h userConfig) in
  let* config := new_object (plain copied) in
  let* logger := resolveLogger bootstrapConfig config in
  let* devServer := new_object (plain ∅) in
  let* spread_config := on_heap (λ h, own_enumerable h config) in
  let* flags := cloneFlags config in
  let* hydratedFlag := call (validateHydrated E config) in
  let* config_outputTargets := read config "outputTargets" in
  let* outputTargets := nullish_else_new config_outputTargets (array []) in
  let* rollupConfig := call (validateRollupConfig E config) in
  let* sys := resolveSys bootstrapConfig config logger in
  let* config_testing := read config "testing" in
  let* testing := nullish_else_new config_testing (plain ∅) in
  let* user_transformAliasedImportPaths := read userConfig "transformAliasedImportPaths" in
  let transformAliasedImportPaths :=
    if isBoolean user_transformAliasedImportPaths then user_transformAliasedImportPaths
    else VBool true in
  let* user_validatePrimaryPackageOutputTarget :=
    read userConfig "validatePrimaryPackageOutputTarget" in
  let validatePrimaryPackageOutputTarget :=
    nullish_else user_validatePrimaryPackageOutputTarget (VBool false) in
  let* paths := call (validatePaths E config) in
  let* spread_paths := on_heap (λ h, own_enumerable h paths) in
  let literal : gmap string value := {[ "devServer" := devServer ]} in
  let literal := spread_config ∪ literal in
  let literal := <["flags" := flags]> literal in
  let literal := <["hydratedFlag" := hydratedFlag]> literal in
  let literal := <["logger" := logger]> literal in
  let literal := <["outputTargets" := outputTargets]> literal in
  let literal := <["rollupConfig" := rollupConfig]> literal in
  let literal := <["sys" := sys]> literal in
  let literal := <["testing" := testing]> literal in
  let literal := <["transformAliasedImportPaths" := transformAliasedImportPaths]> literal in
  let literal :=
    <["validatePrimaryPackageOutputTarget" := validatePrimaryPackageOutputTarget]> literal in
  let literal := spread_paths ∪ literal in
  new_loc (plain literal).

(** Lines 97-104. *)
Definition resolveDevMode (validatedConfig : value) : M state unit :=
  let* flags := read validatedConfig "flags" in
  let* prod := read flags "prod" in
  if truthy prod then assign validatedConfig "devMode" (VBool false)
  else
    let* flags := read validatedConfig "flags" in
    let* dev := read flags "dev" in
    if truthy dev then assign validatedConfig "devMode" (VBool true)
    else
      let* devMode := read validatedConfig "devMode" in
      when (negb (isBoolean devMode))
           (assign validatedConfig "devMode" (VBool DEFAULT_DEV_MODE)).

(** [validatedConfig.extras.name = !!validatedConfig.extras.name]. *)
Definition coerceExtra (validatedConfig : value) (name : string) : M state unit :=
  let* target := read validatedConfig "extras" in
  let* extras := read validatedConfig "extras" in
  let* current := read extras name in
  assign target name (VBool (truthy current)).

(** [validatedConfig.extras.name = true]. *)
Definition forceExtra (validatedConfig : value) (name : string) : M state unit :=
  let* target := read validatedConfig "extras" in
  assign target name (VBool true).

(** Lines 106-125. *)
Definition normalizeExtras (validatedConfig : value) : M state unit :=
  let* extras := read validatedConfig "extras" in
  let* extras := if truthy extras then ret extras else new_object (plain ∅) in
  assign validatedConfig "extras" extras ;;
  coerceExtra validatedConfig "appendChildSlotFix" ;;
  coerceExtra validatedConfig "cloneNodeFix" ;;
  coerceExtra validatedConfig "lifecycleDOMEvents" ;;
  coerceExtra validatedConfig "scriptDataOpts" ;;
  coerceExtra validatedConfig "slotChildNodesFix" ;;
  coerceExtra validatedConfig "initializeNextTick" ;;
  coerceExtra validatedConfig "tagNameTransform" ;;
  coerceExtra validatedConfig "experimentalSlotFixes" ;;
  let* extras := read validatedConfig "extras" in
  let* experimentalSlotFixes := read extras "experimentalSlotFixes" in
  when (truthy experimentalSlotFixes)
       (forceExtra validatedConfig "appendChildSlotFix" ;;
        forceExtra validatedConfig "cloneNodeFix" ;;
        forceExtra validatedConfig "slotChildNodesFix" ;;
        forceExtra validatedConfig "scopedSlotTextContentFix").

(** Lines 127-146. *)
Definition resolveBooleans (validatedConfig : loc) : M state unit :=
  let vc := VObj validatedConfig in
  let* buildEs5 := read vc "buildEs5" in
  let* devMode := read vc "devMode" in
  assign vc "buildEs5"
    (VBool (strict_eq buildEs5 (VBool true)
            || (negb (truthy devMode) && strict_eq buildEs5 (VStr "prod")))) ;;
  let* devMode := read vc "devMode" in
  setBooleanConfig validatedConfig "minifyCss" None (VBool (negb (truthy devMode))) ;;
  let* devMode := read vc "devMode" in
  setBooleanConfig validatedConfig "minifyJs" None (VBool (negb (truthy devMode))) ;;
  let* sourceMap := read vc "sourceMap" in
  setBooleanConfig validatedConfig "sourceMap" None
    (if strict_eq sourceMap VUndef then VBool true else sourceMap) ;;
  setBooleanConfig validatedConfig "watch" (Some "watch") (VBool false) ;;
  let* devMode := read vc "devMode" in
  setBooleanConfig validatedConfig "buildDocs" (Some "docs") (VBool (negb (truthy devMode))) ;;
  let* devMode := read vc "devMode" in
  let* buildEs5 := read vc "buildEs5" in
  setBooleanConfig validatedConfig "buildDist" (Some "esm")
    (if negb (truthy devMode) then VBool true else buildEs5) ;;
  let* devMode := read vc "devMode" in
  setBooleanConfig validatedConfig "profile" (Some "profile") devMode ;;
  setBooleanConfig validatedConfig "writeLog" (Some "log") (VBool false) ;;
  setBooleanConfig validatedConfig "buildAppCore" None (VBool true) ;;
  let* buildEs5 := read vc "buildEs5" in
  setBooleanConfig validatedConfig "autoprefixCss" None buildEs5 ;;
  let* _isTesting := read vc "_isTesting" in
  setBooleanConfig validatedConfig "validateTypes" None (VBool (negb (truthy _isTesting))) ;;
  setBooleanConfig validatedConfig "allowInlineScripts" None (VBool true).

(** Lines 148-169: the task queue, the hashing of file names and [env]. *)
Definition resolveHashing (validatedConfig : value) (diagnostics : list Diagnostic)
    : M state (list Diagnostic) :=
  let* taskQueue := read validatedConfig "taskQueue" in
  when (negb (isString taskQueue)) (assign validatedConfig "taskQueue" (VStr "async")) ;;
  let* hashFileNames := read validatedConfig "hashFileNames" in
  when (negb (isBoolean hashFileNames))
       (let* devMode := read validatedConfig "devMode" in
        assign validatedConfig "hashFileNames" (VBool (negb (truthy devMode)))) ;;
  let* hashedFileNameLength := read validatedConfig "hashedFileNameLength" in
  when (negb (isNumber hashedFileNameLength))
       (assign validatedConfig "hashedFileNameLength" (VNum DEFAULT_HASHED_FILENAME_LENTH)) ;;
  let* hashedFileNameLength := read validatedConfig "hashedFileNameLength" in
  let diagnostics :=
    if num_lt (number_of hashedFileNameLength) MIN_HASHED_FILENAME_LENTH
    then buildError diagnostics
           "validatedConfig.hashedFileNameLength must be at least 4 characters"
    else diagnostics in
  let* hashedFileNameLength := read validatedConfig "hashedFileNameLength" in
  let diagnostics :=
    if num_gt (number_of hashedFileNameLength) MAX_HASHED_FILENAME_LENTH
    then buildError diagnostics
           "validatedConfig.hashedFileNameLength cannot be more than 32 characters"
    else diagnostics in
  let* env := read validatedConfig "env" in
  when (negb (truthy env))
       (let* empty := new_object (plain ∅) in
        assign validatedConfig "env" empty) ;;
  ret diagnostics.

(** Lines 171-184: the namespace, the output targets, the plugins, the dev
    server and the testing options. *)
Definition validateFields (validatedConfig : value) (diagnostics : list Diagnostic)
    : M state (list Diagnostic) :=
  let* diagnostics := call (validateNamespace E validatedConfig diagnostics) in
  let* diagnostics := call (validateOutputTargets E validatedConfig diagnostics) in
  let* diagnostics := call (validatePlugins E validatedConfig diagnostics) in
  let* (devServer, diagnostics) := call (validateDevServer E validatedConfig diagnostics) in
  assign validatedConfig "devServer" devServer ;;
  call (validateTesting E validatedConfig diagnostics).

(** Lines 186-191. *)
Definition sortBundles (validatedConfig : value) : M state unit :=
  let* bundles := read validatedConfig "bundles" in
  let* is_array := on_heap (λ h, isArray h bundles) in
  if is_array then
    let* sorted := reading (λ s, sortBy (elems_of (heap_of s) bundles)
                                        (components_length (heap_of s))) in
    let* sorted := new_object (array sorted) in
    assign validatedConfig "bundles" sorted
  else
    let* empty := new_object (array []) in
    assign validatedConfig "bundles" empty.

(** Lines 205-213. *)
Definition normalizeWatchIgnoredRegex (validatedConfig : value) : M state unit :=
  let* watchIgnoredRegex := read validatedConfig "watchIgnoredRegex" in
  let* is_array := on_heap (λ h, isArray h watchIgnoredRegex) in
  when (negb is_array && negb (is_nullish watchIgnoredRegex))
       (let* wrapped := new_object (array [watchIgnoredRegex]) in
        assign validatedConfig "watchIgnoredRegex" wrapped) ;;
  let* watchIgnoredRegex := read validatedConfig "watchIgnoredRegex" in
  let* source :=
    if truthy watchIgnoredRegex then ret watchIgnoredRegex else new_object (array []) in
  let* kept :=
    on_heap (λ h, foldl (λ arr reg, if isRegExp h reg then arr ++ [reg] else arr)
                        [] (elems_of h source)) in
  let* result := new_object (array kept) in
  assign validatedConfig "watchIgnoredRegex" result.

(** Lines 193-203: the workers, [devInspector], the distribution namespace
    and [enableCache]. *)
Definition validateRemaining (validatedConfig : loc) (diagnostics : list Diagnostic)
    : M state (list Diagnostic) :=
  let vc := VObj validatedConfig in
  call (validateWorkers E vc) ;;
  let* devMode := read vc "devMode" in
  setBooleanConfig validatedConfig "devInspector" None devMode ;;
  let* _isTesting := read vc "_isTesting" in
  let* diagnostics :=
    if negb (truthy _isTesting)
    then call (validateDistNamespace E vc diagnostics)
    else ret diagnostics in
  setBooleanConfig validatedConfig "enableCache" (Some "cache") (VBool true) ;;
  ret diagnostics.

(** Lines 75-220: the validation proper, on a configuration that is not the
    cached one. *)
Definition validate (userConfig bootstrapConfig : value) (diagnostics : list Diagnostic)
    : M state (value * list Diagnostic) :=
  let* vc := assemble userConfig bootstrapConfig in
  let validatedConfig := VObj vc in
  resolveDevMode validatedConfig ;;
  normalizeExtras validatedConfig ;;
  resolveBooleans vc ;;
  let* diagnostics := resolveHashing validatedConfig diagnostics in
  let* diagnostics := validateFields validatedConfig diagnostics in
  sortBundles validatedConfig ;;
  let* diagnostics := validateRemaining vc diagnostics in
  normalizeWatchIgnoredRegex validatedConfig ;;
  writing (λ s, Ok (mkState (heap_of s) validatedConfig)) ;;
  ret (validatedConfig, diagnostics).

Definition validateConfig (userConfig bootstrapConfig : value)
    : M state (value * list Diagnostic) :=
  let* userConfig :=
    if strict_eq userConfig VUndef then new_object (plain ∅) else ret userConfig in
  let diagnostics : list Diagnostic := [] in
  let* cached := reading (λ s, Ok (CACHED_VALIDATED_CONFIG s)) in
  if negb (strict_eq cached VNull) && strict_eq cached userConfig
  then ret (userConfig, diagnostics)
  else validate userConfig bootstrapConfig diagnostics.

End WithCollaborators.

End ValidateConfig.

(* ================================================================== *)
(** * What a step leaves in place, and what is asked of the collaborators *)
(* ================================================================== *)

Module Contracts.

Import ValidateConfig.

(** From [h] to [h'], every object that exists keeps existing, keeps its
    class and keeps its properties named in [P]; the objects at the
    locations in [R] also keep their elements. *)
Definition frames (P : list string) (R : loc → Prop) (h h' : heap) : Prop :=
  ∀ l o, h !! l = Some o →
    ∃ o', h' !! l = Some o'
          ∧ kind o' = kind o
          ∧ (∀ k, k ∈ P → prop o' k = prop o k)
          ∧ (R l → elems o' = elems o).

(** Whenever the step returns, it has left the heap as [frames] says and
    has not touched the cache. *)
Definition keeps (P : list string) (R : loc → Prop) {A} (m : M state A) : Prop :=
  ∀ s a s', m s = Ok (a, s') →
    frames P R (heap_of s) (heap_of s')
    ∧ CACHED_VALIDATED_CONFIG s' = CACHED_VALIDATED_CONFIG s.

(** The collaborators leave the heap as [frames P R] says, and the object
    the path validator returns has no own property named in [P]. *)
Record respects (P : list string) (R : loc → Prop) (E : Collaborators) : Prop := {
  respects_createNodeLogger : ∀ h, frames P R h (createNodeLogger E h).2;
  respects_createNodeSys : ∀ v h, frames P R h (createNodeSys E v h).2;
  respects_validateHydrated : ∀ v h, frames P R h (validateHydrated E v h).2;
  respects_validateRollupConfig : ∀ v h, frames P R h (validateRollupConfig E v h).2;
  respects_validatePaths : ∀ v h, frames P R h (validatePaths E v h).2;
  respects_validateNamespace : ∀ v ds h, frames P R h (validateNamespace E v ds h).2;
  respects_validateOutputTargets : ∀ v ds h, frames P R h (validateOutputTargets E v ds h).2;
  respects_validatePlugins : ∀ v ds h, frames P R h (validatePlugins E v ds h).2;
  respects_validateDevServer : ∀ v ds h, frames P R h (validateDevServer E v ds h).2;
  respects_validateTesting : ∀ v ds h, frames P R h (validateTesting E v ds h).2;
  respects_validateWorkers : ∀ v h, frames P R h (validateWorkers E v h).2;
  respects_validateDistNamespace : ∀ v ds h, frames P R h (validateDistNamespace E v ds h).2;
  respects_paths :
    ∀ v h k, k ∈ P →
      own_enumerable (validatePaths E v h).2 (validatePaths E v h).1 !! k = None
}.

(** The collaborators that report problems only add to the diagnostics they
    are given. *)
Record appends (E : Collaborators) : Prop := {
  appends_validateNamespace :
    ∀ v ds h, ∃ more, (validateNamespace E v ds h).1 = ds ++ more;
  appends_validateOutputTargets :
    ∀ v ds h, ∃ more, (validateOutputTargets E v ds h).1 = ds ++ more;
  appends_validatePlugins :
    ∀ v ds h, ∃ more, (validatePlugins E v ds h).1 = ds ++ more;
  appends_validateDevServer :
    ∀ v ds h, ∃ more, (validateDevServer E v ds h).1.2 = ds ++ more;
  appends_validateTesting :
    ∀ v ds h, ∃ more, (validateTesting E v ds h).1 = ds ++ more;
  appends_validateDistNamespace :
    ∀ v ds h, ∃ more, (validateDistNamespace E v ds h).1 = ds ++ more
}.

(** The collaborators report nothing. *)
Record silent (E : Collaborators) : Prop := {
  silent_validateNamespace : ∀ v ds h, (validateNamespace E v ds h).1 = ds;
  silent_validateOutputTargets : ∀ v ds h, (validateOutputTargets E v ds h).1 = ds;
  silent_validatePlugins : ∀ v ds h, (validatePlugins E v ds h).1 = ds;
  silent_validateDevServer : ∀ v ds h, (validateDevServer E v ds h).1.2 = ds;
  silent_validateTesting : ∀ v ds h, (validateTesting E v ds h).1 = ds;
  silent_validateDistNamespace : ∀ v ds h, (validateDistNamespace E v ds h).1 = ds
}.

(** A property name that does not start with a digit, hence is not the
    index of an element. *)
Definition is_name (k : string) : bool :=
  match k with
  | EmptyString => true
  | String c _ => negb ((48 <=? N_of_ascii c) && (N_of_ascii c <=? 57))%N
  end.

(** The properties the object literal of [validateConfig] sets itself. *)
Definition literal_keys : list string :=
  ["devServer"; "flags"; "hydratedFlag"; "logger"; "outputTargets"; "rollupConfig"; "sys"; "testing";
   "transformAliasedImportPaths"; "validatePrimaryPackageOutputTarget"].

(** The properties each block of [validateConfig] assigns. *)
Definition extras_flags : list string :=
  ["appendChildSlotFix"; "cloneNodeFix"; "lifecycleDOMEvents"; "scriptDataOpts";
   "slotChildNodesFix"; "initializeNextTick"; "tagNameTransform"; "experimentalSlotFixes";
   "scopedSlotTextContentFix"].

Definition booleans_written : list string :=
  ["buildEs5"; "minifyCss"; "minifyJs"; "sourceMap"; "watch"; "buildDocs"; "buildDist";
   "profile"; "writeLog"; "buildAppCore"; "autoprefixCss"; "validateTypes";
   "allowInlineScripts"].

Definition hashing_written : list string :=
  ["taskQueue"; "hashFileNames"; "hashedFileNameLength"; "env"].

(** Every property [validateConfig] assigns after the object literal,
    [watchIgnoredRegex] apart. *)
Definition written_before_watch : list string :=
  "devMode" :: "extras" :: extras_flags ++ booleans_written ++ hashing_written
  ++ ["devServer"; "bundles"; "devInspector"; "enableCache"].

(** The diagnostics the two checks of [hashedFileNameLength] add for a
    length [n]. *)
Definition length_errors (n : number) : list Diagnostic :=
  (if num_lt n MIN_HASHED_FILENAME_LENTH
   then [mkDiagnostic "error"
           "validatedConfig.hashedFileNameLength must be at least 4 characters"]
   else [])
  ++
  (if num_gt n MAX_HASHED_FILENAME_LENTH
   then [mkDiagnostic "error"
           "validatedConfig.hashedFileNameLength cannot be more than 32 characters"]
   else []).

(** The entries of a [watchIgnoredRegex] value: the elements of an array,
    nothing for [null] and [undefined], the value itself otherwise. *)
Definition entries (h : heap) (v : value) : list value :=
  if isArray h v then elems_of h v
  else if is_nullish v then []
  else [v].

(** A value that is not a reference to an object that does not exist. *)
Definition allocated (h : heap) (v : value) : Prop :=
  match v with VObj l => is_Some (h !! l) | _ => True end.

(** [flags.name] for a value [flags]: [undefined] unless [flags] is an
    object. *)
Definition flag_of (h : heap) (flags : value) (name : string) : value :=
  match flags with VObj f => field h f name | _ => VUndef end.




(** The [devMode] the specification prescribes, from the user's [prod] and
    [dev] flags and the user's [devMode]. *)
Definition resolved_devMode (prod dev devMode : value) : value :=
  if truthy prod then VBool false
  else if truthy dev then VBool true
  else if isBoolean devMode then devMode
  else VBool DEFAULT_DEV_MODE.

(** The step returns: it does not throw. *)
Definition returns {A} (m : M state A) (s : state) : Prop :=
  ∃ a s', m s = Ok (a, s').

(** The step returns from every state. *)
Definition always {A} (m : M state A) : Prop := ∀ s, returns m s.

(** A value that is not a reference to an object. *)
Definition primitive (v : value) : Prop :=
  match v with VObj _ => False | _ => True end.

(** An input on which [validateConfig] provably does not throw: the
    bootstrap configuration is an object; the user's [flags] are left out,
    or are an object that is not an array, holds no references and is left
    as it is by the factory of the default logger; the user's [extras] are
    falsy or an object; the user's [bundles] are not an array; and the
    collaborators leave [flags], [extras] and [bundles] alone. *)
Record well_formed (E : Collaborators) (h : heap) (userConfig : loc)
    (bootstrapConfig : value) : Prop := {
  wf_bootstrap : ∃ b, bootstrapConfig = VObj b;
  wf_respects : respects ["flags"; "extras"; "bundles"] (λ _, False) E;
  wf_flags :
    field h userConfig "flags" = VUndef
    ∨ ∃ f o, field h userConfig "flags" = VObj f
             ∧ h !! f = Some o
             ∧ kind o ≠ KArray
             ∧ (∀ k x, props o !! k = Some x → primitive x)
             ∧ (∀ g, g !! f = Some o → (createNodeLogger E g).2 !! f = Some o);
  wf_extras :
    truthy (field h userConfig "extras") = false
    ∨ ∃ e, field h userConfig "extras" = VObj e;
  wf_bundles :
    isArray h (field h userConfig "bundles") = false
    ∧ allocated h (field h userConfig "bundles")
}.

(** The cache holds nothing or an object. *)
Definition cache_ok (s : state) : Prop :=
  CACHED_VALIDATED_CONFIG s = VNull ∨ ∃ l, CACHED_VALIDATED_CONFIG s = VObj l.

End Contracts.

(* ================================================================== *)
(** * Concrete collaborators and inputs *)
(* ================================================================== *)

Module Samples.

(** The extension of a path: what follows its last dot, lowercased. *)
Fixpoint extension (acc : option string) (s : string) : option string :=
  match s with
  | EmptyString => acc
  | String c s' =>
      if Ascii.eqb c "."%char then extension (Some s') s'
      else extension acc s'
  end.

(** Collaborators for the transpile helpers: a parser that keeps the
    extension, a default system that is a fresh object, and a working
    directory that does not depend on the system. *)
Definition transpileCollaborators : Transpile.Collaborators :=
  Transpile.mkCollaborators
    (λ v, match v with
          | VStr s =>
              Transpile.mkParsedImport
                (match extension None s with
                 | Some e => VStr (toLowerCase e)
                 | None => VNull
                 end)
                VNull
          | _ => Transpile.mkParsedImport VNull VNull
          end)
    "@stencil/core/internal/client"
    (λ h, let '(l, h') := alloc (plain ∅) h in (VObj l, h'))
    (λ _, VStr "/").

(** A heap with a transpile input [{ sys: <object 2>, proxy: "DefineProperty " }]
    at 1, a system object at 2 and an empty transpile input at 3. *)
Definition transpileHeap : heap :=
  <[1%positive := plain (<["sys" := VObj 2]> (<["proxy" := VStr "DefineProperty "]> ∅))]>
    (<[2%positive := plain ∅]> (<[3%positive := plain ∅]> ∅)).

Definition transpileState : Transpile.state := Transpile.mkState transpileHeap VNull.


(** Collaborators for [validateConfig] that build empty objects, validate
    nothing and report nothing. *)
Definition fresh_object (h : heap) : value * heap :=
  let '(l, h') := alloc (plain ∅) h in (VObj l, h').

Definition quietCollaborators : ValidateConfig.Collaborators :=
  ValidateConfig.mkCollaborators
    fresh_object
    (λ _, fresh_object)
    (λ _ h, (VStr "hydrated", h))
    (λ _ h, (VUndef, h))
    (λ _, fresh_object)
    (λ _ ds h, (ds, h))
    (λ _ ds h, (ds, h))
    (λ _ ds h, (ds, h))
    (λ v ds h, ((field h (match v with VObj l => l | _ => 1%positive end) "devServer", ds), h))
    (λ _ ds h, (ds, h))
    (λ _ h, (tt, h))
    (λ _ ds h, (ds, h)).

(** A heap with a user configuration at 1, its [flags] at 2, its [extras]
    at 3, a regular expression at 4, an array [[<4>, "x", <4>]] at 5 and an
    empty bootstrap configuration at 6. *)
Definition configHeap : heap :=
  <[1%positive := plain (<["flags" := VObj 2]>
                         (<["extras" := VObj 3]>
                         (<["devMode" := VBool true]>
                         (<["hashedFileNameLength" := VNum (num_of_Z 3)]>
                         (<["watchIgnoredRegex" := VObj 5]> ∅)))))]>
  (<[2%positive := plain (<["prod" := VBool true]> ∅)]>
  (<[3%positive := plain (<["experimentalSlotFixes" := VNum (num_of_Z 1)]>
                         (<["tagNameTransform" := VStr "yes"]> ∅))]>
  (<[4%positive := mkObject KRegExp ∅ []]>
  (<[5%positive := array [VObj 4; VStr "x"; VObj 4]]>
  (<[6%positive := plain ∅]> ∅))))).

Definition configState : ValidateConfig.state := ValidateConfig.mkState configHeap VNull.

End Samples.
(* ================================================================== *)
(** * Views of a transpile call *)
(* ================================================================== *)

Module TranspileViews.

Import Transpile.

(** The system a call of [getTranspileConfig] on the input at [l] resolves,
    and the heap the call then reads the input from: the input's own
    (truthy) [sys], else the (truthy) memo, else what the factory of the
    default system returns. *)
Definition resolved_sys (E : Collaborators) (l : loc) (s : state) : value * heap :=
  if truthy (field (heap_of s) l "sys") then (field (heap_of s) l "sys", heap_of s)
  else if truthy (transpileCtx_sys s) then (transpileCtx_sys s, heap_of s)
  else createNodeSys E (heap_of s).

(** [v ? { ...v } : undefined] for the two conditional spreads of
    [getTranspileConfig]. *)
Definition copy_of (h : heap) (v : value) : value * heap :=
  if truthy v then
    let '(l, h') := alloc (plain (own_enumerable h v)) h in (VObj l, h')
  else (VUndef, h).

(** The value of [importData && importData.k]: a falsy [importData] is the
    result itself, an object gives its property, and a truthy primitive has
    no such property. *)
Definition and_field (h : heap) (importData : value) (k : string) : value :=
  if truthy importData then
    match importData with VObj l => field h l k | _ => VUndef end
  else importData.

End TranspileViews.

Module MoreSamples.

(** A transpile input [{ sys: <object 2>, paths: <object 3> }] at 1, a
    system at 2 and the path aliases [{ "@app": "src/app" }] at 3. *)
Definition pathsHeap : heap :=
  <[1%positive := plain (<["sys" := VObj 2]> (<["paths" := VObj 3]> ∅))]>
    (<[2%positive := plain ∅]>
    (<[3%positive := plain (<["@app" := VStr "src/app"]> ∅)]> ∅)).

Definition pathsState : Transpile.state := Transpile.mkState pathsHeap VNull.

(** A heap with a user configuration at 1 that names a logger (3), asks
    for ES5 builds in production, carries a preamble and gives three
    options values of the wrong type; a bootstrap configuration at 2 with
    a logger (4) and a system (5). *)
Definition defaultsHeap : heap :=
  <[1%positive := plain (<["logger" := VObj 3]>
                         (<["preamble" := VStr "(c) the authors"]>
                         (<["buildEs5" := VStr "prod"]>
                         (<["taskQueue" := VNum (num_of_Z 5)]>
                         (<["transformAliasedImportPaths" := VStr "yes"]>
                         (<["validatePrimaryPackageOutputTarget" := VStr "yes"]> ∅))))))]>
  (<[2%positive := plain (<["logger" := VObj 4]> (<["sys" := VObj 5]> ∅))]>
  (<[3%positive := plain ∅]>
  (<[4%positive := plain ∅]>
  (<[5%positive := plain ∅]> ∅)))).

Definition defaultsState : ValidateConfig.state := ValidateConfig.mkState defaultsHeap VNull.

(** A heap with a testing configuration at 1 and an empty bootstrap
    configuration at 2. *)
Definition testingHeap : heap :=
  <[1%positive := plain (<["_isTesting" := VBool true]> ∅)]>
  (<[2%positive := plain ∅]> ∅).

Definition testingState : ValidateConfig.state := ValidateConfig.mkState testingHeap VNull.

(** A heap with a user configuration [{ extras: true }] at 1 and an empty
    bootstrap configuration at 2. *)
Definition primitiveExtrasHeap : heap :=
  <[1%positive := plain (<["extras" := VBool true]> ∅)]>
  (<[2%positive := plain ∅]> ∅).

Definition primitiveExtrasState : ValidateConfig.state :=
  ValidateConfig.mkState primitiveExtrasHeap VNull.

End MoreSamples.

(* ================================================================== *)
(** * Further contracts of the validation steps *)
(* ================================================================== *)

Module MoreContracts.

Import ValidateConfig Contracts.

(** Whenever the step returns, the location it returns was not in use
    before. *)
Definition returns_new (m : M state loc) : Prop :=
  ∀ s l s', m s = Ok (l, s') → heap_of s !! l = None.

(** The collaborators may change every property of every object, but they
    remove no object and change the class of none. *)
Definition keeps_objects (E : Collaborators) : Prop := respects [] (λ _, False) E.

(** The name [k] is not in the list [P]; no name of [ks] is. *)
Definition absent (k : string) (P : list string) : bool :=
  forallb (λ p, negb (String.eqb k p)) P.

Definition disjoint (ks P : list string) : bool := forallb (λ k, absent k P) ks.

(** The properties [validateConfig] assigns from a stage on: after the
    workers, [devInspector], the distribution namespace and [enableCache]
    (8); after the bundles (7); after the field validators (6); after the
    hashing (5); after the booleans (4); after the extras (3); after
    [devMode] (2); after the object literal (1). *)
Definition written_after_8 : list string := ["watchIgnoredRegex"].
Definition written_after_7 : list string := "devInspector" :: "enableCache" :: written_after_8.
Definition written_after_6 : list string := "bundles" :: written_after_7.
Definition written_after_5 : list string := "devServer" :: written_after_6.
Definition written_after_4 : list string := hashing_written ++ written_after_5.
Definition written_after_3 : list string := booleans_written ++ written_after_4.
Definition written_after_2 : list string := ("extras" :: extras_flags) ++ written_after_3.
Definition written_after_1 : list string := "devMode" :: written_after_2.


(** From [h] to [h'], the object at [u] stays exactly as it is. *)
Definition untouched (u : loc) (h h' : heap) : Prop :=
  ∀ o, h !! u = Some o → h' !! u = Some o.

(** Whenever the step returns from a state in which [I] holds, [I] holds
    in the state it leaves. *)
Definition preserves (I : state → Prop) {A} (m : M state A) : Prop :=
  ∀ s a s', I s → m s = Ok (a, s') → I s'.

(** The object at [u] is [o]. *)
Definition holds_at (u : loc) (o : object) (s : state) : Prop :=
  heap_of s !! u = Some o.

(** The configuration at [vc] holds [x] as its [extras], and the object at
    [u] is [o]. *)
Definition extras_elsewhere (u : loc) (o : object) (vc : loc) (x : value) (s : state)
    : Prop :=
  field (heap_of s) vc "extras" = x ∧ is_Some (heap_of s !! vc) ∧ holds_at u o s.

(** The collaborators do not write to the object at [u]. *)
Record leaves (u : loc) (E : Collaborators) : Prop := {
  leaves_createNodeLogger : ∀ h, untouched u h (createNodeLogger E h).2;
  leaves_createNodeSys : ∀ v h, untouched u h (createNodeSys E v h).2;
  leaves_validateHydrated : ∀ v h, untouched u h (validateHydrated E v h).2;
  leaves_validateRollupConfig : ∀ v h, untouched u h (validateRollupConfig E v h).2;
  leaves_validatePaths : ∀ v h, untouched u h (validatePaths E v h).2;
  leaves_validateNamespace : ∀ v ds h, untouched u h (validateNamespace E v ds h).2;
  leaves_validateOutputTargets : ∀ v ds h, untouched u h (validateOutputTargets E v ds h).2;
  leaves_validatePlugins : ∀ v ds h, untouched u h (validatePlugins E v ds h).2;
  leaves_validateDevServer : ∀ v ds h, untouched u h (validateDevServer E v ds h).2;
  leaves_validateTesting : ∀ v ds h, untouched u h (validateTesting E v ds h).2;
  leaves_validateWorkers : ∀ v h, untouched u h (validateWorkers E v h).2;
  leaves_validateDistNamespace : ∀ v ds h, untouched u h (validateDistNamespace E v ds h).2
}.

(** The collaborators with another validator of the distribution
    namespace. *)
Definition with_validateDistNamespace
    (f : value → list Diagnostic → heap → list Diagnostic * heap) (E : Collaborators)
    : Collaborators :=
  mkCollaborators (createNodeLogger E) (createNodeSys E) (validateHydrated E)
    (validateRollupConfig E) (validatePaths E) (validateNamespace E)
    (validateOutputTargets E) (validatePlugins E) (validateDevServer E)
    (validateTesting E) (validateWorkers E) f.

(** [buildEs5 === true || (!devMode && buildEs5 === 'prod')]. *)
Definition resolved_buildEs5 (buildEs5 devMode : value) : value :=
  VBool (strict_eq buildEs5 (VBool true)
         || (negb (truthy devMode) && strict_eq buildEs5 (VStr "prod"))).

(** The logger of line 77, when it is not a new one. *)
Definition given_logger (bootstrap_logger config_logger : value) : option value :=
  if truthy bootstrap_logger then Some bootstrap_logger
  else if truthy config_logger then Some config_logger
  else None.

(** The system of line 88, when it is not a new one. *)
Definition given_sys (config_sys bootstrap_sys : value) : option value :=
  if negb (is_nullish config_sys) then Some config_sys
  else if negb (is_nullish bootstrap_sys) then Some bootstrap_sys
  else None.

End MoreContracts.

(* ================================================================== *)
(** * Properties of the transpile helpers *)
(* ================================================================== *)

Module TranspileFacts.

Import Transpile.

Lemma String_eqb_true (a b : string) : String.eqb a b = true ↔ a = b.
Proof. apply String.eqb_eq. Qed.

(** On strings and [null], SameValueZero is equality. *)
Lemma same_value_zero_str (s : string) (v : value) :
  same_value_zero (VStr s) v = true ↔ v = VStr s.
Proof.
  destruct v; simpl; try (split; [discriminate | discriminate]).
  rewrite String.eqb_eq. split; congruence.
Qed.

Lemma same_value_zero_null (v : value) :
  same_value_zero VNull v = true ↔ v = VNull.
Proof. destruct v; simpl; split; congruence. Qed.

Lemma Set_has_str (vs : list value) (s : string) :
  Set_has vs (VStr s) = true ↔ VStr s ∈ vs.
Proof.
  unfold Set_has. rewrite existsb_exists. split.
  - intros (x & Hin & Hx). apply same_value_zero_str in Hx. subst.
    by apply list_elem_of_In.
  - intros Hin. exists (VStr s). split; [by apply list_elem_of_In |].
    by apply same_value_zero_str.
Qed.

(** The three cases of [getTranspileConfigOpt]. *)
Lemma getTranspileConfigOpt_null (v : value) (vs : list value) (d : value) :
  v = VNull ∨ v = VStr "null" → getTranspileConfigOpt v vs d = VNull.
Proof. by intros [-> | ->]. Qed.




Section Results.

Variable E : Collaborators.

(** [getTranspileResults] on an object whose [file] is not a string: the
    placeholder is assigned to the input and the envelope is built from it. *)
Lemma getTranspileResults_placeholder (code : value) (l : loc) (s : state) :
  isString (field (heap_of s) l "file") = false →
  getTranspileResults E code (VObj l) s =
    Ok ((data (parseImportPath E (VStr "module.tsx")),
         TranspileResults.mk
           (match code with VStr c => c | _ => "" end) [] []
           (ext (parseImportPath E (VStr "module.tsx")))
           (VStr "module.tsx") [] VNull VNull),
        on_heap (set_field l "file" (VStr "module.tsx")) s).
Proof.
  intros Hfile.
  unfold getTranspileResults, bind, read, reading, when, assign, writing, ret.
  simpl. rewrite Hfile. simpl.
  unfold field, set_field, obj_at, prop. simpl.
  rewrite lookup_insert_eq. simpl. rewrite lookup_insert_eq. simpl.
  reflexivity.
Qed.

(** [getTranspileResults] on an object whose [file] is a string: the input
    is left as it is. *)
Lemma getTranspileResults_named (code : value) (l : loc) (s : state) :
  isString (field (heap_of s) l "file") = true →
  getTranspileResults E code (VObj l) s =
    Ok ((data (parseImportPath E (field (heap_of s) l "file")),
         TranspileResults.mk
           (match code with VStr c => c | _ => "" end) [] []
           (ext (parseImportPath E (field (heap_of s) l "file")))
           (field (heap_of s) l "file") [] VNull VNull),
        s).
Proof.
  intros Hfile.
  unfold getTranspileResults, bind, read, reading, when, assign, writing, ret.
  simpl. rewrite Hfile. simpl. reflexivity.
Qed.

End Results.


Section Config.

Variable E : Collaborators.

Ltac run_config :=
  unfold getTranspileConfig, bind, read, reading, when, writing, ret, total, new_object;
  simpl.

(** A call whose input carries a (truthy) system stores it in the memo and
    hands it out. *)
Lemma getTranspileConfig_with_sys (l : loc) (s : state) :
  truthy (field (heap_of s) l "sys") = true →
  ∃ r s',
    getTranspileConfig E (VObj l) s = Ok (r, s')
    ∧ transpileCtx_sys s' = field (heap_of s) l "sys"
    ∧ Config.sys (TranspileConfig.config r) = field (heap_of s) l "sys".
Proof.
  intros Hsys. run_config. rewrite Hsys. simpl.
  destruct (truthy (field (heap_of s) l "paths")); simpl; eauto.
Qed.

(** A call whose input carries no system, on a memo that holds one, hands
    out the memo, leaves it in place and does not call the factory. *)
Lemma getTranspileConfig_memo (l : loc) (s : state) :
  truthy (field (heap_of s) l "sys") = false →
  truthy (transpileCtx_sys s) = true →
  ∃ r s',
    getTranspileConfig E (VObj l) s = Ok (r, s')
    ∧ transpileCtx_sys s' = transpileCtx_sys s
    ∧ Config.sys (TranspileConfig.config r) = transpileCtx_sys s
    ∧ ∀ f, getTranspileConfig (Session.with_createNodeSys f E) (VObj l) s = Ok (r, s').
Proof.
  intros Hsys Hmemo. run_config. rewrite Hsys, Hmemo. simpl.
  destruct (truthy (field (heap_of s) l "paths")); simpl;
    (do 2 eexists; split; [reflexivity | split; [reflexivity | split; [reflexivity |]]]);
    intros f; reflexivity.
Qed.

(** The memo survives everything that runs without a system. *)
Lemma without_sys_memo (s s' : state) :
  truthy (transpileCtx_sys s) = true →
  Session.without_sys E s s' → transpileCtx_sys s' = transpileCtx_sys s.
Proof.
  intros Hmemo Hrun. induction Hrun as [| s1 h _ IH | s1 s2 l r _ IH Hsys Hcall].
  - reflexivity.
  - exact IH.
  - destruct (getTranspileConfig_memo l s1 Hsys) as (r' & s2' & Hcall' & Hm & _).
    + by rewrite IH.
    + rewrite Hcall in Hcall'. injection Hcall' as _ <-. by rewrite Hm.
Qed.

(** The seven enum-like fields of [compileOpts] are the option normalizer
    applied to the input's property, with the allow-list and default of the
    table [EnumOptions]; the input is read after the system is resolved. *)
Lemma getTranspileConfig_resolves (l : loc) (s s' : state) (r : TranspileConfig.t) :
  getTranspileConfig E (VObj l) s = Ok (r, s') →
  let h :=
    if truthy (field (heap_of s) l "sys") || truthy (transpileCtx_sys s)
    then heap_of s else (createNodeSys E (heap_of s)).2 in
  ∀ f, EnumOptions.resolved f (TranspileConfig.compileOpts r)
       = EnumOptions.normalize f (field h l (EnumOptions.key f)).
Proof.
  run_config.
  destruct (truthy (field (heap_of s) l "sys")) eqn:Hsys; simpl.
  - destruct (truthy (field (heap_of s) l "paths")); simpl;
      intros [= <- <-] [] ; reflexivity.
  - destruct (truthy (transpileCtx_sys s)) eqn:Hmemo; simpl.
    + destruct (truthy (field (heap_of s) l "paths")); simpl;
        intros [= <- <-] [] ; reflexivity.
    + destruct (createNodeSys E (heap_of s)) as [sys h1] eqn:Hnew. simpl.
      destruct (truthy (field h1 l "paths")); simpl;
        intros [= <- <-] [] ; reflexivity.
Qed.

End Config.

End TranspileFacts.

Module TranspileClaims.

Import Transpile TranspileFacts.

(** ** C2: totality of the enum normalization *)




(** ** C6: [null] and ["null"] *)

(** C6: whatever the allow-list and the fallback, the option normalizer
    answers [null] on [null] and on the string ["null"]; so it does for
    [componentMetadata] and [proxy], whose allow-lists have [null] as a
    member like any other, where the answer differs from the default of
    [proxy]. *)
Theorem C6_null_is_kept (validValues : list value) (defaultValue : value) :
  getTranspileConfigOpt VNull validValues defaultValue = VNull
  ∧ getTranspileConfigOpt (VStr "null") validValues defaultValue = VNull
  ∧ Set_has VALID_METADATA VNull = true
  ∧ Set_has VALID_PROXY VNull = true
  ∧ EnumOptions.normalize EnumOptions.proxy VNull = VNull
  ∧ EnumOptions.normalize EnumOptions.proxy (VStr "null") = VNull
  ∧ EnumOptions.normalize EnumOptions.componentMetadata VNull = VNull
  ∧ EnumOptions.normalize EnumOptions.componentMetadata (VStr "null") = VNull
  ∧ EnumOptions.defaultValue EnumOptions.proxy ≠ VNull.
Proof. repeat split; done. Qed.

(** ** C8: the result envelope *)



(** ** C10: the input is changed in place *)

(** C10: when the input's [file] is not a string, [getTranspileResults]
    assigns ["module.tsx"] to the [file] property of the input object
    itself: after the call the caller reads the placeholder there, every
    other property of the input and every other object are as before, and so
    is the system memo. *)
Theorem C10_input_file_assigned (E : Collaborators) (code : value) (l : loc) (s : state) :
  isString (field (heap_of s) l "file") = false →
  ∃ r s',
    getTranspileResults E code (VObj l) s = Ok (r, s')
    ∧ heap_of s' = set_field l "file" (VStr "module.tsx") (heap_of s)
    ∧ field (heap_of s') l "file" = VStr "module.tsx"
    ∧ (∀ k, k ≠ "file" → field (heap_of s') l k = field (heap_of s) l k)
    ∧ (∀ l', l' ≠ l → heap_of s' !! l' = heap_of s !! l')
    ∧ kind (obj_at (heap_of s') l) = kind (obj_at (heap_of s) l)
    ∧ elems (obj_at (heap_of s') l) = elems (obj_at (heap_of s) l)
    ∧ transpileCtx_sys s' = transpileCtx_sys s.
Proof.
  intros Hfile. do 2 eexists.
  split; [by apply getTranspileResults_placeholder |].
  simpl. unfold field, set_field, obj_at, prop.
  repeat split.
  - rewrite lookup_insert_eq. simpl. by rewrite lookup_insert_eq.
  - intros k Hk. rewrite lookup_insert_eq. simpl. by rewrite lookup_insert_ne.
  - intros l' Hl'. by rewrite lookup_insert_ne.
  - by rewrite lookup_insert_eq.
  - by rewrite lookup_insert_eq.
Qed.

Lemma C10_input_file_assigned_witness :
  ∃ r s',
    getTranspileResults Samples.transpileCollaborators (VStr "const a = 1;") (VObj 3)
      Samples.transpileState = Ok (r, s')
    ∧ field (heap_of Samples.transpileState) 3 "file" = VUndef
    ∧ field (heap_of s') 3 "file" = VStr "module.tsx".
Proof.
  destruct (C10_input_file_assigned Samples.transpileCollaborators
              (VStr "const a = 1;") 3%positive Samples.transpileState)
    as (r & s' & Hrun & _ & Hfile & _); [reflexivity |].
  exists r, s'. split; [exact Hrun |]. split; [reflexivity | exact Hfile].
Defined.

(** ** C9: the system memo *)

(** C9: a call of [getTranspileConfig] whose input carries a system stores
    that system in the memo; from then on, as long as no call carries a
    system, every call hands out the caller's system, keeps it in the memo
    and does not call the factory of the default system (the call is the
    same under every factory). *)
Theorem C9_memo_holds_caller_sys (E : Collaborators) (l : loc) (s : state) :
  truthy (field (heap_of s) l "sys") = true →
  ∃ r s1,
    getTranspileConfig E (VObj l) s = Ok (r, s1)
    ∧ transpileCtx_sys s1 = field (heap_of s) l "sys"
    ∧ ∀ s2 l2,
        Session.without_sys E s1 s2 →
        truthy (field (heap_of s2) l2 "sys") = false →
        ∃ r2 s3,
          getTranspileConfig E (VObj l2) s2 = Ok (r2, s3)
          ∧ Config.sys (TranspileConfig.config r2) = field (heap_of s) l "sys"
          ∧ transpileCtx_sys s3 = field (heap_of s) l "sys"
          ∧ ∀ f, getTranspileConfig (Session.with_createNodeSys f E) (VObj l2) s2
                 = Ok (r2, s3).
Proof.
  intros Hsys.
  destruct (getTranspileConfig_with_sys E l s Hsys) as (r & s1 & Hcall & Hmemo & _).
  exists r, s1. split; [exact Hcall |]. split; [exact Hmemo |].
  intros s2 l2 Hrun Hnone.
  assert (Hkept : transpileCtx_sys s2 = field (heap_of s) l "sys").
  { rewrite <- Hmemo. apply (without_sys_memo E); [by rewrite Hmemo | exact Hrun]. }
  destruct (getTranspileConfig_memo E l2 s2 Hnone) as (r2 & s3 & Hcall2 & Hm & Hs & Hf).
  { by rewrite Hkept. }
  exists r2, s3. rewrite <- Hkept. by repeat split.
Qed.

Lemma C9_memo_holds_caller_sys_witness :
  ∃ r s1,
    getTranspileConfig Samples.transpileCollaborators (VObj 1) Samples.transpileState
      = Ok (r, s1)
    ∧ transpileCtx_sys Samples.transpileState = VNull
    ∧ transpileCtx_sys s1 = VObj 2
    ∧ ∃ r2 s3,
        getTranspileConfig Samples.transpileCollaborators (VObj 3) s1 = Ok (r2, s3)
        ∧ Config.sys (TranspileConfig.config r2) = VObj 2.
Proof.
  destruct (C9_memo_holds_caller_sys Samples.transpileCollaborators 1%positive
              Samples.transpileState)
    as (r & s1 & Hcall & Hmemo & Hlater); [reflexivity |].
  exists r, s1. split; [exact Hcall |]. split; [reflexivity |].
  split; [exact Hmemo |].
  destruct (Hlater s1 3%positive (Session.ws_here _ _)) as (r2 & s3 & Hcall2 & Hsys & _).
  - pose proof Hcall as Hrun. vm_compute in Hrun. injection Hrun as _ <-. reflexivity.
  - exists r2, s3. split; [exact Hcall2 | exact Hsys].
Defined.

End TranspileClaims.

(* ================================================================== *)
(** * The heap under the steps of [validateConfig] *)
(* ================================================================== *)

Module HeapFacts.

Import Contracts.

Lemma alloc_fresh (o : object) (h : heap) : h !! (alloc o h).1 = None.
Proof. unfold alloc. simpl. apply not_elem_of_dom, is_fresh. Qed.

Lemma alloc_lookup_new (o : object) (h : heap) :
  (alloc o h).2 !! (alloc o h).1 = Some o.
Proof. unfold alloc. simpl. apply lookup_insert_eq. Qed.

Lemma alloc_lookup_old (o o' : object) (h : heap) (l : loc) :
  h !! l = Some o → (alloc o' h).2 !! l = Some o.
Proof.
  intros Hl. unfold alloc. simpl. rewrite lookup_insert_ne; [done |].
  intros <-. pose proof (alloc_fresh o' h) as Hfresh. unfold alloc in Hfresh.
  simpl in Hfresh. congruence.
Qed.

Lemma field_set_field_eq (h : heap) (l : loc) (k : string) (v : value) :
  field (set_field l k v h) l k = v.
Proof.
  unfold field, set_field, obj_at, prop. rewrite lookup_insert_eq. simpl.
  by rewrite lookup_insert_eq.
Qed.

Lemma field_set_field_ne (h : heap) (l l' : loc) (k k' : string) (v : value) :
  l ≠ l' ∨ k ≠ k' → field (set_field l k v h) l' k' = field h l' k'.
Proof.
  intros Hne. unfold field, set_field, obj_at, prop.
  destruct (decide (l = l')) as [<- | Hl].
  - rewrite lookup_insert_eq. simpl. destruct Hne as [? | Hk]; [done |].
    by rewrite lookup_insert_ne.
  - by rewrite lookup_insert_ne.
Qed.

Lemma kind_set_field (h : heap) (l l' : loc) (k : string) (v : value) :
  kind (obj_at (set_field l k v h) l') = kind (obj_at h l').
Proof.
  unfold set_field, obj_at. destruct (decide (l = l')) as [<- | Hl].
  - by rewrite lookup_insert_eq.
  - by rewrite lookup_insert_ne.
Qed.

Lemma elems_set_field (h : heap) (l l' : loc) (k : string) (v : value) :
  elems (obj_at (set_field l k v h) l') = elems (obj_at h l').
Proof.
  unfold set_field, obj_at. destruct (decide (l = l')) as [<- | Hl].
  - by rewrite lookup_insert_eq.
  - by rewrite lookup_insert_ne.
Qed.

Lemma field_lookup (h : heap) (l : loc) (o : object) (k : string) :
  h !! l = Some o → field h l k = prop o k.
Proof. intros Hl. unfold field, obj_at. by rewrite Hl. Qed.

(** ** [frames] *)

Lemma frames_refl (P : list string) (R : loc → Prop) (h : heap) : frames P R h h.
Proof. intros l o Hl. exists o. by repeat split. Qed.

Lemma frames_trans (P : list string) (R : loc → Prop) (h1 h2 h3 : heap) :
  frames P R h1 h2 → frames P R h2 h3 → frames P R h1 h3.
Proof.
  intros H12 H23 l o Hl.
  destruct (H12 l o Hl) as (o2 & Hl2 & Hk2 & Hp2 & He2).
  destruct (H23 l o2 Hl2) as (o3 & Hl3 & Hk3 & Hp3 & He3).
  exists o3. split; [done |]. split; [congruence |]. split.
  - intros k Hk. rewrite Hp3 by done. by apply Hp2.
  - intros Hr. rewrite He3 by done. by apply He2.
Qed.

Lemma frames_weaken (P P' : list string) (R R' : loc → Prop) (h h' : heap) :
  (∀ k, k ∈ P' → k ∈ P) → (∀ l, R' l → R l) →
  frames P R h h' → frames P' R' h h'.
Proof.
  intros HP HR Hf l o Hl. destruct (Hf l o Hl) as (o' & Hl' & Hk & Hp & He).
  exists o'. repeat split; auto.
Qed.

Lemma frames_alloc (P : list string) (R : loc → Prop) (o : object) (h : heap) :
  frames P R h (alloc o h).2.
Proof.
  intros l o' Hl. exists o'. split; [by apply alloc_lookup_old |]. by repeat split.
Qed.

Lemma frames_set_field (P : list string) (R : loc → Prop) (l : loc) (k : string)
    (v : value) (h : heap) :
  k ∉ P → frames P R h (set_field l k v h).
Proof.
  intros Hk l' o Hl'. unfold set_field.
  destruct (decide (l = l')) as [<- | Hne].
  - rewrite lookup_insert_eq. eexists. split; [done |].
    unfold obj_at. rewrite Hl'. simpl. split; [done |]. split; [| done].
    intros k' Hk'. unfold prop. simpl. rewrite lookup_insert_ne; [done |].
    by intros <-.
  - rewrite lookup_insert_ne by done. exists o. by repeat split.
Qed.

(** What [frames] gives for a property, the class and the elements of an
    object that exists. *)
Lemma frames_field (P : list string) (R : loc → Prop) (h h' : heap) (l : loc)
    (k : string) :
  frames P R h h' → is_Some (h !! l) → k ∈ P → field h' l k = field h l k.
Proof.
  intros Hf [o Hl] Hk. destruct (Hf l o Hl) as (o' & Hl' & _ & Hp & _).
  rewrite (field_lookup h l o), (field_lookup h' l o') by done. by apply Hp.
Qed.

Lemma frames_allocated (P : list string) (R : loc → Prop) (h h' : heap) (l : loc) :
  frames P R h h' → is_Some (h !! l) → is_Some (h' !! l).
Proof. intros Hf [o Hl]. destruct (Hf l o Hl) as (o' & Hl' & _). by exists o'. Qed.

Lemma frames_kind (P : list string) (R : loc → Prop) (h h' : heap) (l : loc) :
  frames P R h h' → is_Some (h !! l) → kind (obj_at h' l) = kind (obj_at h l).
Proof.
  intros Hf [o Hl]. destruct (Hf l o Hl) as (o' & Hl' & Hk & _).
  unfold obj_at. by rewrite Hl, Hl'.
Qed.

Lemma frames_elems (P : list string) (R : loc → Prop) (h h' : heap) (l : loc) :
  frames P R h h' → is_Some (h !! l) → R l → elems (obj_at h' l) = elems (obj_at h l).
Proof.
  intros Hf [o Hl] Hr. destruct (Hf l o Hl) as (o' & Hl' & _ & _ & He).
  unfold obj_at. rewrite Hl, Hl'. by apply He.
Qed.

End HeapFacts.

(* ================================================================== *)
(** * What the steps of [validateConfig] keep *)
(* ================================================================== *)

Module StepFacts.

Import ValidateConfig Contracts HeapFacts.

Lemma bind_Ok {S A B} (m : M S A) (k : A → M S B) (s : S) (r : B * S) :
  bind m k s = Ok r → ∃ a s1, m s = Ok (a, s1) ∧ k a s1 = Ok r.
Proof.
  unfold bind. destruct (m s) as [[a s1] | e]; [| discriminate]. eauto.
Qed.

Section Keeps.

Variables (P : list string) (R : loc → Prop).

Lemma keeps_ret {A} (a : A) : keeps P R (ret a).
Proof. intros s a' s' [= <- <-]. split; [apply frames_refl | done]. Qed.

Lemma keeps_bind {A B} (m : M state A) (k : A → M state B) :
  keeps P R m → (∀ a, keeps P R (k a)) → keeps P R (bind m k).
Proof.
  intros Hm Hk s b s' Hrun. apply bind_Ok in Hrun as (a & s1 & H1 & H2).
  destruct (Hm _ _ _ H1) as [Hf1 Hc1]. destruct (Hk a _ _ _ H2) as [Hf2 Hc2].
  split; [by eapply frames_trans | congruence].
Qed.

Lemma keeps_reading {A} (f : state → result A) : keeps P R (reading f).
Proof.
  intros s a s'. unfold reading. destruct (f s); [| discriminate].
  intros [= <- <-]. split; [apply frames_refl | done].
Qed.

Lemma keeps_read (v : value) (k : string) : keeps P R (read v k).
Proof. apply keeps_reading. Qed.

Lemma keeps_on_heap {A} (f : heap → A) : keeps P R (on_heap f).
Proof. apply keeps_reading. Qed.

Lemma keeps_assign (v : value) (k : string) (x : value) :
  k ∉ P → keeps P R (assign v k x).
Proof.
  intros Hk s a s'. unfold assign, writing, put.
  destruct v; try discriminate. intros [= <- <-]. simpl.
  split; [by apply frames_set_field | done].
Qed.

Lemma keeps_new_loc (o : object) : keeps P R (new_loc o).
Proof.
  intros s a s'. unfold new_loc, total.
  destruct (alloc o (heap_of s)) as [l h] eqn:Ha. intros [= <- <-]. simpl.
  split; [| done]. replace h with (alloc o (heap_of s)).2 by by rewrite Ha.
  apply frames_alloc.
Qed.

Lemma keeps_new_object (o : object) : keeps P R (new_object o).
Proof. apply keeps_bind; [apply keeps_new_loc | intros; apply keeps_ret]. Qed.

Lemma keeps_when (b : bool) (m : M state unit) : keeps P R m → keeps P R (when b m).
Proof. intros Hm. destruct b; [done | apply keeps_ret]. Qed.

Lemma keeps_call {A} (f : heap → A * heap) :
  (∀ h, frames P R h (f h).2) → keeps P R (call f).
Proof.
  intros Hf s a s'. unfold call, total. specialize (Hf (heap_of s)).
  destruct (f (heap_of s)) as [a' h]. intros [= <- <-]. by split.
Qed.

Lemma keeps_if {A} (b : bool) (m1 m2 : M state A) :
  keeps P R m1 → keeps P R m2 → keeps P R (if b then m1 else m2).
Proof. by destruct b. Qed.

End Keeps.

(** ** JSON *)

Lemma json_induction (Q : json → Prop) :
  Q JNull → (∀ b, Q (JBool b)) → (∀ q, Q (JNum q)) → (∀ s, Q (JStr s)) →
  (∀ xs, Forall Q xs → Q (JArr xs)) →
  (∀ ps, Forall (λ p, Q p.2) ps → Q (JObj ps)) →
  ∀ j, Q j.
Proof.
  intros HNull HBool HNum HStr HArr HObj. fix IH 1. intros [| b | q | s | xs | ps].
  - exact HNull.
  - apply HBool.
  - apply HNum.
  - apply HStr.
  - apply HArr. induction xs as [| x xs IHxs]; constructor; [apply IH | exact IHxs].
  - apply HObj. induction ps as [| [k x] ps IHps]; constructor; [apply IH | exact IHps].
Qed.

(** [JSON.parse] only allocates. *)
Lemma parse_frames (P : list string) (R : loc → Prop) (j : json) :
  ∀ h, frames P R h (parse j h).2.
Proof.
  induction j as [| b | q | s | xs IH | ps IH] using json_induction; intros h; simpl;
    try apply frames_refl.
  - destruct (foldr _ _ xs) as [vs h1] eqn:Hfold.
    destruct (alloc (array vs) h1) as [l h2] eqn:Halloc. simpl.
    assert (Hf : frames P R h h1).
    { clear Halloc. revert vs h1 Hfold.
      induction IH as [| x xs Hx _ IHxs]; simpl; intros vs h1 Hfold.
      - injection Hfold as _ <-. apply frames_refl.
      - destruct (foldr _ _ xs) as [vs' h'] eqn:Hfold'. simpl in Hfold.
        destruct (parse x h') as [v h''] eqn:Hparse. injection Hfold as _ <-.
        eapply frames_trans; [by eapply IHxs |].
        replace h'' with (parse x h').2 by by rewrite Hparse. apply Hx. }
    eapply frames_trans; [exact Hf |].
    replace h2 with (alloc (array vs) h1).2 by by rewrite Halloc. apply frames_alloc.
  - destruct (foldr _ _ ps) as [m h1] eqn:Hfold.
    destruct (alloc (plain m) h1) as [l h2] eqn:Halloc. simpl.
    assert (Hf : frames P R h h1).
    { clear Halloc. revert m h1 Hfold.
      induction IH as [| x xs Hx _ IHxs]; simpl; intros m h1 Hfold.
      - injection Hfold as _ <-. apply frames_refl.
      - destruct (foldr _ _ xs) as [m' h'] eqn:Hfold'. simpl in Hfold.
        destruct (parse x.2 h') as [v h''] eqn:Hparse. injection Hfold as _ <-.
        eapply frames_trans; [by eapply IHxs |].
        replace h'' with (parse x.2 h').2 by by rewrite Hparse. apply Hx. }
    eapply frames_trans; [exact Hf |].
    replace h2 with (alloc (plain m) h1).2 by by rewrite Halloc. apply frames_alloc.
Qed.

Ltac keeps_step :=
  lazymatch goal with
  | |- keeps _ _ (bind _ _) => apply keeps_bind; [| intros ?]
  | |- keeps _ _ (ret _) => apply keeps_ret
  | |- keeps _ _ (read _ _) => apply keeps_read
  | |- keeps _ _ (on_heap _) => apply keeps_on_heap
  | |- keeps _ _ (reading _) => apply keeps_reading
  | |- keeps _ _ (assign _ _ _) => apply keeps_assign
  | |- keeps _ _ (new_object _) => apply keeps_new_object
  | |- keeps _ _ (new_loc _) => apply keeps_new_loc
  | |- keeps _ _ (when _ _) => apply keeps_when
  | |- keeps _ _ (call _) => apply keeps_call
  | |- keeps _ _ (if _ then _ else _) => apply keeps_if
  | |- keeps _ _ (match ?x with _ => _ end) => destruct x
  end.

(** A property of a literal list of names is not in [P] when none of the
    names of the list is. *)
Ltac not_written H :=
  eapply (proj1 (Forall_forall _ _) H);
  repeat first [apply list_elem_of_here | apply list_elem_of_further].

Section Blocks.

Variables (P : list string) (R : loc → Prop).

Lemma keeps_setBooleanConfig (config : loc) (configName : string)
    (flagName : option string) (defaultValue : value) :
  configName ∉ P → keeps P R (setBooleanConfig config configName flagName defaultValue).
Proof. intros Hk. unfold setBooleanConfig. repeat keeps_step; assumption. Qed.

Lemma keeps_coerceExtra (validatedConfig : value) (name : string) :
  name ∉ P → keeps P R (coerceExtra validatedConfig name).
Proof. intros Hk. unfold coerceExtra. repeat keeps_step; assumption. Qed.

Lemma keeps_forceExtra (validatedConfig : value) (name : string) :
  name ∉ P → keeps P R (forceExtra validatedConfig name).
Proof. intros Hk. unfold forceExtra. repeat keeps_step; assumption. Qed.

Lemma keeps_resolveDevMode (validatedConfig : value) :
  "devMode" ∉ P → keeps P R (resolveDevMode validatedConfig).
Proof. intros Hk. unfold resolveDevMode. repeat keeps_step; assumption. Qed.

Lemma keeps_normalizeExtras (validatedConfig : value) :
  Forall (λ k, k ∉ P) ("extras" :: extras_flags) →
  keeps P R (normalizeExtras validatedConfig).
Proof.
  intros Hk. unfold normalizeExtras.
  repeat first [apply keeps_coerceExtra | apply keeps_forceExtra | keeps_step];
    not_written Hk.
Qed.

Lemma keeps_resolveBooleans (validatedConfig : loc) :
  Forall (λ k, k ∉ P) booleans_written →
  keeps P R (resolveBooleans validatedConfig).
Proof.
  intros Hk. unfold resolveBooleans.
  repeat first [apply keeps_setBooleanConfig | keeps_step]; not_written Hk.
Qed.

Lemma keeps_resolveHashing (validatedConfig : value) (diagnostics : list Diagnostic) :
  Forall (λ k, k ∉ P) hashing_written →
  keeps P R (resolveHashing validatedConfig diagnostics).
Proof.
  intros Hk. unfold resolveHashing. repeat keeps_step; not_written Hk.
Qed.

Lemma keeps_sortBundles (validatedConfig : value) :
  "bundles" ∉ P → keeps P R (sortBundles validatedConfig).
Proof. intros Hk. unfold sortBundles. repeat keeps_step; assumption. Qed.

Lemma keeps_normalizeWatchIgnoredRegex (validatedConfig : value) :
  "watchIgnoredRegex" ∉ P → keeps P R (normalizeWatchIgnoredRegex validatedConfig).
Proof. intros Hk. unfold normalizeWatchIgnoredRegex. repeat keeps_step; assumption. Qed.

Variable E : Collaborators.
Hypothesis HE : respects P R E.

Lemma keeps_validateFields (validatedConfig : value) (diagnostics : list Diagnostic) :
  "devServer" ∉ P → keeps P R (validateFields E validatedConfig diagnostics).
Proof.
  intros Hk. unfold validateFields. repeat keeps_step; try assumption; intros h; apply HE.
Qed.

Lemma keeps_resolveLogger (bootstrapConfig config : value) :
  keeps P R (resolveLogger E bootstrapConfig config).
Proof. unfold resolveLogger. repeat keeps_step. intros h; apply HE. Qed.

Lemma keeps_cloneFlags (config : value) : keeps P R (cloneFlags config).
Proof.
  unfold cloneFlags. repeat keeps_step.
  intros s v s'. unfold JSON_roundtrip.
  destruct (JSON_stringify (heap_of s) a0) as [[j |] | e]; try discriminate.
  destruct (parse j (heap_of s)) as [v' h'] eqn:Hparse. intros [= <- <-]. simpl.
  split; [| done]. replace h' with (parse j (heap_of s)).2 by by rewrite Hparse.
  apply parse_frames.
Qed.

Lemma keeps_resolveSys (bootstrapConfig config logger : value) :
  keeps P R (resolveSys E bootstrapConfig config logger).
Proof. unfold resolveSys. repeat keeps_step. intros h; apply HE. Qed.

Lemma keeps_nullish_else_new (v : value) (literal : object) :
  keeps P R (nullish_else_new v literal).
Proof. unfold nullish_else_new. repeat keeps_step. Qed.

Lemma keeps_validateRemaining (validatedConfig : loc) (diagnostics : list Diagnostic) :
  "devInspector" ∉ P → "enableCache" ∉ P →
  keeps P R (validateRemaining E validatedConfig diagnostics).
Proof.
  intros Hi Hc. unfold validateRemaining.
  repeat first [apply keeps_setBooleanConfig | keeps_step]; try assumption;
    intros h; apply HE.
Qed.

Lemma keeps_assemble (userConfig bootstrapConfig : value) :
  keeps P R (assemble E userConfig bootstrapConfig).
Proof.
  unfold assemble.
  repeat first [apply keeps_resolveLogger | apply keeps_cloneFlags | apply keeps_resolveSys
               | apply keeps_nullish_else_new | keeps_step];
    intros h; apply HE.
Qed.

End Blocks.

(** ** The run of [validate], block by block *)

Lemma validate_Ok (E : Collaborators) (userConfig bootstrapConfig : value)
    (ds0 : list Diagnostic) (s : state) (c : value) (ds : list Diagnostic) (s' : state) :
  validate E userConfig bootstrapConfig ds0 s = Ok ((c, ds), s') →
  ∃ vc s1 s2 s3 s4 ds5 s5 ds6 s6 s7 s8 s9,
    assemble E userConfig bootstrapConfig s = Ok (vc, s1)
    ∧ resolveDevMode (VObj vc) s1 = Ok (tt, s2)
    ∧ normalizeExtras (VObj vc) s2 = Ok (tt, s3)
    ∧ resolveBooleans vc s3 = Ok (tt, s4)
    ∧ resolveHashing (VObj vc) ds0 s4 = Ok (ds5, s5)
    ∧ validateFields E (VObj vc) ds5 s5 = Ok (ds6, s6)
    ∧ sortBundles (VObj vc) s6 = Ok (tt, s7)
    ∧ validateRemaining E vc ds6 s7 = Ok (ds, s8)
    ∧ normalizeWatchIgnoredRegex (VObj vc) s8 = Ok (tt, s9)
    ∧ c = VObj vc
    ∧ s' = mkState (heap_of s9) (VObj vc).
Proof.
  unfold validate. intros H.
  apply bind_Ok in H as (vc & s1 & H1 & H).
  apply bind_Ok in H as ([] & s2 & H2 & H).
  apply bind_Ok in H as ([] & s3 & H3 & H).
  apply bind_Ok in H as ([] & s4 & H4 & H).
  apply bind_Ok in H as (ds5 & s5 & H5 & H).
  apply bind_Ok in H as (ds6 & s6 & H6 & H).
  apply bind_Ok in H as ([] & s7 & H7 & H).
  apply bind_Ok in H as (ds8 & s8 & H8 & H).
  apply bind_Ok in H as ([] & s9 & H9 & H).
  unfold bind, writing, ret in H. simpl in H. injection H as <- <- <-.
  exists vc, s1, s2, s3, s4, ds5, s5, ds6, s6, s7, s8, s9. by repeat split.
Qed.

(** A goal [k ∉ P], or [Forall (λ k, k ∉ P) names], on literal lists. *)
Ltac unwritten :=
  solve [ rewrite list_elem_of_In; simpl; intuition discriminate
        | repeat constructor; rewrite list_elem_of_In; simpl; intuition discriminate ].

(** ** The object literal *)

Lemma is_name_digit (d : N) (s : string) : is_name (String (pretty_N_char d) s) = false.
Proof. unfold pretty_N_char. by repeat case_match. Qed.

Lemma is_name_pretty_N_go (x : N) (s : string) :
  (0 < x)%N ∨ is_name s = false → is_name (pretty_N_go x s) = false.
Proof.
  revert s. induction (N.lt_wf_0 x) as [x _ IH]; intros s Hs.
  assert (x = 0 ∨ 0 < x)%N as [-> | Hx] by lia.
  - rewrite pretty_N_go_0. destruct Hs as [Hs | Hs]; [lia | done].
  - rewrite pretty_N_go_step by done. apply IH; [by apply N.div_lt |].
    right. apply is_name_digit.
Qed.

Lemma is_name_pretty (i : nat) : is_name (pretty i) = false.
Proof.
  unfold pretty, pretty_nat, pretty, pretty_N. case_decide; [done |].
  apply is_name_pretty_N_go. lia.
Qed.

Lemma indexed_lookup_name (xs : list value) (k : string) :
  is_name k = true → indexed xs !! k = None.
Proof.
  intros Hk. unfold indexed. apply not_elem_of_list_to_map_1.
  rewrite list_elem_of_fmap. intros ([k' x] & -> & Hin).
  apply elem_of_lookup_imap_1 in Hin as (i & y & [= -> ->] & _).
  simpl in Hk. by rewrite is_name_pretty in Hk.
Qed.

Lemma own_enumerable_name (h : heap) (l : loc) (k : string) :
  is_name k = true → default VUndef (own_enumerable h (VObj l) !! k) = field h l k.
Proof.
  intros Hk. simpl. rewrite lookup_union_l by by apply indexed_lookup_name. done.
Qed.

(** ** The clone of the flags *)

Lemma stringify_object (n : nat) (h : heap) (l : loc) :
  kind (obj_at h l) ≠ KArray →
  stringify (S n) h (VObj l) =
    match
      foldr (λ kx acc,
               match stringify n h kx.2, acc with
               | Ok (Some j), Ok ps => Ok ((kx.1, j) :: ps)
               | Ok None, Ok ps => Ok ps
               | Throw e, _ | _, Throw e => Throw e
               end) (Ok []) (map_to_list (props (obj_at h l)))
    with
    | Ok ps => Ok (Some (JObj ps))
    | Throw e => Throw e
    end.
Proof. intros Hk. simpl. by destruct (kind (obj_at h l)). Qed.

Lemma stringify_props (n : nat) (h : heap) (l : list (string * value))
    (ps : list (string * json)) :
  foldr (λ kx acc,
           match stringify n h kx.2, acc with
           | Ok (Some j), Ok ps => Ok ((kx.1, j) :: ps)
           | Ok None, Ok ps => Ok ps
           | Throw e, _ | _, Throw e => Throw e
           end) (Ok []) l = Ok ps →
  (∀ k j, (k, j) ∈ ps → ∃ x, (k, x) ∈ l ∧ stringify n h x = Ok (Some j))
  ∧ (∀ k x j, (k, x) ∈ l → stringify n h x = Ok (Some j) → (k, j) ∈ ps)
  ∧ (NoDup l.*1 → NoDup ps.*1).
Proof.
  revert ps. induction l as [| [k0 x0] l IH]; intros ps; simpl.
  - intros [= <-]. split; [| split].
    + intros k j Hin. by apply elem_of_nil in Hin.
    + intros k x j Hin. by apply elem_of_nil in Hin.
    + done.
  - destruct (stringify n h x0) as [[j0 |] | e] eqn:H0;
      destruct (foldr _ _ l) as [ps' | e'] eqn:Hfold; try discriminate;
      intros [= <-]; destruct (IH ps' eq_refl) as (IH1 & IH2 & IH3).
    + split; [| split].
      * intros k j [[= -> ->] | Hin]%elem_of_cons.
        -- exists x0. split; [apply list_elem_of_here | done].
        -- destruct (IH1 k j Hin) as (x & Hx & Hs). exists x.
           split; [by apply list_elem_of_further | done].
      * intros k x j [[= -> ->] | Hin]%elem_of_cons Hs.
        -- rewrite H0 in Hs. injection Hs as [= ->]. apply list_elem_of_here.
        -- apply list_elem_of_further. by eapply IH2.
      * intros [Hk0 Hnd]%NoDup_cons. simpl. apply NoDup_cons. split; [| by apply IH3].
        intros ([k j] & -> & Hin)%list_elem_of_fmap. simpl in Hk0.
        destruct (IH1 k j Hin) as (x & Hx & _). apply Hk0.
        apply list_elem_of_fmap. by exists (k, x).
    + split; [| split].
      * intros k j Hin. destruct (IH1 k j Hin) as (x & Hx & Hs). exists x.
        split; [by apply list_elem_of_further | done].
      * intros k x j [[= -> ->] | Hin]%elem_of_cons Hs.
        -- rewrite H0 in Hs. discriminate.
        -- by eapply IH2.
      * intros [Hk0 Hnd]%NoDup_cons. by apply IH3.
Qed.

Lemma parse_props (ps : list (string * json)) (h h1 : heap) (m : gmap string value) :
  foldr (λ kx acc, let '(v, h') := parse kx.2 acc.2 in (<[kx.1 := v]> acc.1, h'))
        (∅, h) ps = (m, h1) →
  NoDup ps.*1 →
  (∀ k, k ∉ ps.*1 → m !! k = None)
  ∧ (∀ k b, (k, JBool b) ∈ ps → m !! k = Some (VBool b)).
Proof.
  revert m h1. induction ps as [| [k0 j0] ps IH]; intros m h1; simpl.
  - intros [= <- <-] _. split; [done |]. intros k b Hin. by apply elem_of_nil in Hin.
  - destruct (foldr _ _ ps) as [m' h'] eqn:Hfold. simpl.
    destruct (parse j0 h') as [v h''] eqn:Hparse. intros [= <- <-].
    intros [Hk0 Hnd]%NoDup_cons. destruct (IH m' h' eq_refl Hnd) as [IH1 IH2].
    split.
    + intros k Hk. rewrite not_elem_of_cons in Hk. destruct Hk as [Hne Hk].
      rewrite lookup_insert_ne by done. by apply IH1.
    + intros k b [[= -> <-] | Hin]%elem_of_cons.
      * simpl in Hparse. injection Hparse as [= <- <-]. by rewrite lookup_insert_eq.
      * rewrite lookup_insert_ne; [by apply IH2 |].
        intros <-. apply Hk0. apply list_elem_of_fmap. by exists (k0, JBool b).
Qed.

Lemma parse_object (ps : list (string * json)) (h : heap) :
  parse (JObj ps) h =
    let '(m, h1) :=
      foldr (λ kx acc, let '(v, h') := parse kx.2 acc.2 in (<[kx.1 := v]> acc.1, h'))
            (∅, h) ps in
    let '(l, h2) := alloc (plain m) h1 in
    (VObj l, h2).
Proof. done. Qed.

(** The clone of an object that is not an array: a new object that has the
    boolean properties of the original, and lacks the properties the
    original lacks or holds [undefined] under. *)
Lemma JSON_roundtrip_object (h h' : heap) (l : loc) (v : value) :
  kind (obj_at h l) ≠ KArray →
  JSON_roundtrip (VObj l) h = Ok (v, h') →
  ∃ l', v = VObj l' ∧ is_Some (h' !! l')
        ∧ ∀ k, (field h l k = VUndef ∨ ∃ b, field h l k = VBool b) →
               field h' l' k = field h l k.
Proof.
  intros Hkind. unfold JSON_roundtrip, JSON_stringify.
  rewrite stringify_object by done.
  destruct (foldr _ _ (map_to_list _)) as [ps | e] eqn:Hfold; [| discriminate].
  apply stringify_props in Hfold as (S1 & S2 & S3).
  specialize (S3 (NoDup_fst_map_to_list _)).
  rewrite parse_object. destruct (foldr _ _ ps) as [m h1] eqn:Hparse.
  apply parse_props in Hparse as [P1 P2]; [| done].
  pose proof (alloc_lookup_new (plain m) h1) as Hnew.
  destruct (alloc (plain m) h1) as [l' h2]. simpl in Hnew.
  intros [= <- <-]. exists l'. split; [done |]. split; [by eexists |].
  intros k Hk. rewrite (field_lookup _ _ _ _ Hnew). unfold prop at 1. simpl.
  unfold field, prop in *. destruct Hk as [Hk | [b Hk]].
  - rewrite Hk. rewrite P1; [done |].
    intros ([k' j] & -> & Hin)%list_elem_of_fmap. simpl in *.
    destruct (S1 k' j Hin) as (x & Hx & Hs).
    apply elem_of_map_to_list in Hx. rewrite Hx in Hk. simpl in Hk. subst x.
    by destruct (size h).
  - destruct (props (obj_at h l) !! k) as [x |] eqn:Hx; [| discriminate].
    simpl in Hk. subst x. apply elem_of_map_to_list in Hx.
    erewrite P2; [done |]. eapply S2; [exact Hx |]. by destruct (size h).
Qed.

Section Literal.

Variables (P : list string) (R : loc → Prop) (E : Collaborators).
Hypothesis HE : respects P R E.
Lemma assemble_field (u : loc) (bootstrapConfig : value) (s s1 : state) (vc : loc) :
  assemble E (VObj u) bootstrapConfig s = Ok (vc, s1) →
  frames P R (heap_of s) (heap_of s1)
  ∧ CACHED_VALIDATED_CONFIG s1 = CACHED_VALIDATED_CONFIG s
  ∧ is_Some (heap_of s1 !! vc)
  ∧ ∀ k, k ∈ P → k ∉ literal_keys → is_name k = true →
         field (heap_of s1) vc k = field (heap_of s) u k.
Proof.
  intros Hrun. pose proof (keeps_assemble P R E HE _ _ _ _ _ Hrun) as [Hframes Hcache].
  split; [done |]. split; [done |].
  unfold assemble in Hrun.
  apply bind_Ok in Hrun as (copied & sa & Ha & Hrun).
  unfold on_heap, reading in Ha. injection Ha as [= <- <-].
  apply bind_Ok in Hrun as (config & sb & Hb & Hrun).
  unfold new_object, new_loc, bind, total, ret in Hb.
  pose proof (alloc_lookup_new (plain (own_enumerable (heap_of s) (VObj u))) (heap_of s))
    as Hcl.
  match type of Hb with
  | context [alloc ?o ?h] => change (alloc o h) with
      (alloc (plain (own_enumerable (heap_of s) (VObj u))) (heap_of s)) in Hb
  end.
  destruct (alloc (plain (own_enumerable (heap_of s) (VObj u))) (heap_of s))
    as [cl hb].
  simpl in Hcl. injection Hb as [= <- <-].
  apply bind_Ok in Hrun as (logger & sc & Hc & Hrun).
  apply (keeps_resolveLogger P R E HE) in Hc as [Fc _].
  apply bind_Ok in Hrun as (devServer & sd & Hd & Hrun).
  apply (keeps_new_object P R) in Hd as [Fd _].
  apply bind_Ok in Hrun as (spread_config & se & He & Hrun).
  unfold on_heap, reading in He. injection He as [= <- <-].
  apply bind_Ok in Hrun as (flags & sf & _ & Hrun).
  apply bind_Ok in Hrun as (hydratedFlag & sg & _ & Hrun).
  apply bind_Ok in Hrun as (config_outputTargets & sh & _ & Hrun).
  apply bind_Ok in Hrun as (outputTargets & si & _ & Hrun).
  apply bind_Ok in Hrun as (rollupConfig & sj & _ & Hrun).
  apply bind_Ok in Hrun as (sys & sk & _ & Hrun).
  apply bind_Ok in Hrun as (config_testing & sl & _ & Hrun).
  apply bind_Ok in Hrun as (testing & sm & _ & Hrun).
  apply bind_Ok in Hrun as (tAIP & sn & _ & Hrun).
  apply bind_Ok in Hrun as (vPPOT & so & _ & Hrun).
  apply bind_Ok in Hrun as (paths & sp & Hp & Hrun).
  apply bind_Ok in Hrun as (spread_paths & sq & Hq & Hrun).
  unfold on_heap, reading in Hq. injection Hq as [= <- <-].
  unfold call, total in Hp.
  pose proof (respects_paths P R E HE (VObj cl) (heap_of so)) as Hlack.
  destruct (validatePaths E (VObj cl) (heap_of so)) as [paths' hp] eqn:Hpaths.
  simpl in Hp. injection Hp as [= <- <-]. simpl in Hlack.
  unfold new_loc, total in Hrun.
  match type of Hrun with
  | context [alloc ?o ?h] =>
      pose proof (alloc_lookup_new o h) as Hnew; destruct (alloc o h) as [l hl]
  end.
  injection Hrun as [= <- <-]. simpl in Hnew. simpl.
  split; [by eexists |].
  intros k HkP Hklit Hname.
  rewrite (field_lookup _ _ _ _ Hnew). unfold prop at 1. simpl.
  rewrite lookup_union_r by by apply Hlack.
  assert (Hne : ∀ k', k' ∈ literal_keys → k' ≠ k) by (intros k' Hk' ->; done).
  rewrite !lookup_insert_ne
    by (apply Hne; repeat first [apply list_elem_of_here | apply list_elem_of_further]).
  rewrite lookup_union_l.
  2: { apply lookup_singleton_ne. apply Hne. apply list_elem_of_here. }
  change (default VUndef (own_enumerable (heap_of sd) (VObj cl) !! k) = field (heap_of s) u k).
  rewrite own_enumerable_name by done.
  simpl in Fc, Fd.
  rewrite (frames_field P R _ _ cl k (frames_trans _ _ _ _ _ Fc Fd)); [| by eexists | done].
  rewrite (field_lookup _ _ _ _ Hcl). unfold prop. simpl plain. 
  change (default VUndef (own_enumerable (heap_of s) (VObj u) !! k) = field (heap_of s) u k).
  by apply own_enumerable_name.
Qed.
End Literal.


(** ** Running the steps forward *)

Lemma field_alloc_old (o : object) (h : heap) (l : loc) (k : string) :
  is_Some (h !! l) → field (alloc o h).2 l k = field h l k.
Proof.
  intros [o' Hl]. rewrite (field_lookup _ _ o') by by apply alloc_lookup_old.
  by rewrite (field_lookup _ _ o').
Qed.

Lemma set_field_allocated (h : heap) (l l' : loc) (k : string) (v : value) :
  is_Some (h !! l') → is_Some (set_field l k v h !! l').
Proof.
  intros Hl'. unfold set_field. destruct (decide (l = l')) as [<- | Hne].
  - rewrite lookup_insert_eq. by eexists.
  - by rewrite lookup_insert_ne.
Qed.

Lemma alloc_allocated (o : object) (h : heap) (l : loc) :
  is_Some (h !! l) → is_Some ((alloc o h).2 !! l).
Proof. intros [o' Hl]. exists o'. by apply alloc_lookup_old. Qed.

Section Runs.
Context {B : Type}.
Implicit Types (s : state) (f : value → M state B) (g : unit → M state B).

Lemma bind_bind {A A'} (m : M state A) (k : A → M state A') (f' : A' → M state B) s :
  bind (bind m k) f' s = bind m (λ a, bind (k a) f') s.
Proof. unfold bind. by destruct (m s) as [[a s1] |]. Qed.

Lemma bind_ret {A} (a : A) (f' : A → M state B) s : bind (ret a) f' s = f' a s.
Proof. done. Qed.

Lemma bind_read (l : loc) (k : string) f s :
  bind (read (VObj l) k) f s = f (field (heap_of s) l k) s.
Proof. done. Qed.

Lemma bind_assign (l : loc) (k : string) (v : value) g s :
  bind (assign (VObj l) k v) g s
  = g tt (mkState (set_field l k v (heap_of s)) (CACHED_VALIDATED_CONFIG s)).
Proof. done. Qed.

Lemma bind_when (b : bool) (m : M state unit) g s :
  bind (when b m) g s = if b then bind m g s else g tt s.
Proof. by destruct b. Qed.

Lemma bind_new_object (o : object) f s :
  bind (new_object o) f s
  = f (VObj (alloc o (heap_of s)).1)
      (mkState (alloc o (heap_of s)).2 (CACHED_VALIDATED_CONFIG s)).
Proof. done. Qed.

Lemma bind_on_heap {A} (fn : heap → A) (f' : A → M state B) s :
  bind (on_heap fn) f' s = f' (fn (heap_of s)) s.
Proof. done. Qed.
End Runs.

Ltac run :=
  repeat first
    [ rewrite bind_bind | rewrite bind_ret | rewrite bind_read | rewrite bind_assign
    | rewrite bind_when | rewrite bind_new_object | rewrite bind_on_heap ];
  cbn [heap_of CACHED_VALIDATED_CONFIG].

Ltac fields :=
  repeat first
    [ rewrite field_set_field_eq
    | rewrite field_set_field_ne by (right; discriminate)
    | rewrite field_alloc_old by eauto using set_field_allocated, alloc_allocated ].

Lemma length_errors_build (ds : list Diagnostic) (n : number) :
  (if num_gt n MAX_HASHED_FILENAME_LENTH
   then buildError
          (if num_lt n MIN_HASHED_FILENAME_LENTH
           then buildError ds
                  "validatedConfig.hashedFileNameLength must be at least 4 characters"
           else ds)
          "validatedConfig.hashedFileNameLength cannot be more than 32 characters"
   else
     if num_lt n MIN_HASHED_FILENAME_LENTH
     then buildError ds
            "validatedConfig.hashedFileNameLength must be at least 4 characters"
     else ds)
  = ds ++ length_errors n.
Proof.
  unfold length_errors, buildError.
  destruct (num_gt n _), (num_lt n _); simpl; by rewrite <- ?app_assoc, ?app_nil_r.
Qed.

Lemma resolveHashing_runs (vc : loc) (ds : list Diagnostic) (s : state) :
  is_Some (heap_of s !! vc) →
  let L := field (heap_of s) vc "hashedFileNameLength" in
  let L' := if isNumber L then L else VNum DEFAULT_HASHED_FILENAME_LENTH in
  ∃ s',
    resolveHashing (VObj vc) ds s = Ok (ds ++ length_errors (number_of L'), s')
    ∧ field (heap_of s') vc "hashedFileNameLength" = L'.
Proof.
  intros Hvc L L'. unfold resolveHashing. run.
  destruct (isString _); cbn [negb]; run;
  destruct (isBoolean _); cbn [negb]; run; fields;
  fold L; (destruct (isNumber L) eqn:HL; cbn [negb]; run; fields; fold L);
  (destruct (truthy _); cbn [negb]; run; fields);
  unfold ret; rewrite length_errors_build;
  (eexists; split; [reflexivity |]); cbn [heap_of]; fields; subst L'; try rewrite HL; 
  reflexivity.
Qed.

(** ** The cache test and the diagnostics *)

Lemma validateConfig_hit (E : Collaborators) (u : loc) (b : value) (s : state) :
  CACHED_VALIDATED_CONFIG s = VObj u →
  validateConfig E (VObj u) b s = Ok ((VObj u, []), s).
Proof.
  intros Hc. unfold validateConfig. simpl. rewrite bind_ret.
  unfold bind, reading. rewrite Hc. simpl. by rewrite Pos.eqb_refl.
Qed.

Lemma validateConfig_miss (E : Collaborators) (u : loc) (b : value) (s : state) :
  CACHED_VALIDATED_CONFIG s ≠ VObj u →
  validateConfig E (VObj u) b s = validate E (VObj u) b [] s.
Proof.
  intros Hc. unfold validateConfig. simpl. rewrite bind_ret.
  unfold bind, reading.
  destruct (CACHED_VALIDATED_CONFIG s) as [| | | | | l] eqn:Hl; simpl; try done.
  destruct (Pos.eqb_spec l u) as [-> | Hne]; [done | done].
Qed.

Section Diagnostics.
Variable E : Collaborators.

Lemma validateFields_appends (v : value) (ds ds' : list Diagnostic) (s s' : state) :
  appends E → validateFields E v ds s = Ok (ds', s') →
  ∃ more, ds' = ds ++ more ∧ (silent E → more = []).
Proof.
  intros HA Hrun. unfold validateFields in Hrun.
  apply bind_Ok in Hrun as (ds1 & s1 & H1 & Hrun).
  apply bind_Ok in Hrun as (ds2 & s2 & H2 & Hrun).
  apply bind_Ok in Hrun as (ds3 & s3 & H3 & Hrun).
  apply bind_Ok in Hrun as ([dev ds4] & s4 & H4 & Hrun).
  apply bind_Ok in Hrun as ([] & s5 & _ & H5).
  unfold call, total in *.
  pose proof (appends_validateNamespace E HA v ds (heap_of s)) as [m1 A1].
  pose proof (appends_validateOutputTargets E HA v ds1 (heap_of s1)) as [m2 A2].
  pose proof (appends_validatePlugins E HA v ds2 (heap_of s2)) as [m3 A3].
  pose proof (appends_validateDevServer E HA v ds3 (heap_of s3)) as [m4 A4].
  pose proof (appends_validateTesting E HA v ds4 (heap_of s5)) as [m5 A5].
  assert (S1 : silent E → (validateNamespace E v ds (heap_of s)).1 = ds)
    by (intros HS; apply HS).
  assert (S2 : silent E → (validateOutputTargets E v ds1 (heap_of s1)).1 = ds1)
    by (intros HS; apply HS).
  assert (S3 : silent E → (validatePlugins E v ds2 (heap_of s2)).1 = ds2)
    by (intros HS; apply HS).
  assert (S4 : silent E → (validateDevServer E v ds3 (heap_of s3)).1.2 = ds3)
    by (intros HS; apply HS).
  assert (S5 : silent E → (validateTesting E v ds4 (heap_of s5)).1 = ds4)
    by (intros HS; apply HS).
  destruct (validateNamespace E v ds (heap_of s)) as [x1 h1]. injection H1 as [= <- <-].
  destruct (validateOutputTargets E v x1 (heap_of _)) as [x2 h2]. injection H2 as [= <- <-].
  destruct (validatePlugins E v x2 (heap_of _)) as [x3 h3]. injection H3 as [= <- <-].
  destruct (validateDevServer E v x3 (heap_of _)) as [[d x4] h4]. injection H4 as [= <- <- <-].
  destruct (validateTesting E v x4 (heap_of _)) as [x5 h5]. injection H5 as [= <- <-].
  simpl in *. subst.
  exists (m1 ++ m2 ++ m3 ++ m4 ++ m5). split; [by rewrite <- !app_assoc |].
  intros HS. specialize (S1 HS). specialize (S2 HS). specialize (S3 HS).
  specialize (S4 HS). specialize (S5 HS).
  assert (∀ (a m : list Diagnostic), a ++ m = a → m = []) as Hnil.
  { intros a m Hm. apply (app_inv_head a). by rewrite app_nil_r. }
  apply Hnil in S1 as ->. rewrite app_nil_r in S2. apply Hnil in S2 as ->.
  rewrite !app_nil_r in S3. apply Hnil in S3 as ->.
  rewrite !app_nil_r in S4. apply Hnil in S4 as ->.
  rewrite !app_nil_r in S5. apply Hnil in S5 as ->. done.
Qed.

Lemma validateRemaining_appends (vc : loc) (ds ds' : list Diagnostic) (s s' : state) :
  appends E → validateRemaining E vc ds s = Ok (ds', s') →
  ∃ more, ds' = ds ++ more ∧ (silent E → more = []).
Proof.
  intros HA Hrun. unfold validateRemaining in Hrun.
  apply bind_Ok in Hrun as ([] & s1 & _ & Hrun).
  apply bind_Ok in Hrun as (devMode & s2 & _ & Hrun).
  apply bind_Ok in Hrun as ([] & s3 & _ & Hrun).
  apply bind_Ok in Hrun as (testing & s4 & _ & Hrun).
  apply bind_Ok in Hrun as (ds1 & s5 & H1 & Hrun).
  apply bind_Ok in Hrun as ([] & s6 & _ & Hrun).
  injection Hrun as [= <- <-].
  destruct (negb (truthy testing)).
  - unfold call, total in H1.
    pose proof (appends_validateDistNamespace E HA (VObj vc) ds (heap_of s4)) as [m A].
    assert (S1 : silent E → (validateDistNamespace E (VObj vc) ds (heap_of s4)).1 = ds)
      by (intros HS; apply HS).
    destruct (validateDistNamespace E (VObj vc) ds (heap_of s4)) as [x h].
    injection H1 as [= <- <-]. simpl in *. subst. exists m. split; [done |].
    intros HS. specialize (S1 HS). apply (app_inv_head ds). by rewrite app_nil_r.
  - injection H1 as [= <- <-]. exists []. by rewrite app_nil_r.
Qed.
End Diagnostics.

Lemma length_errors_cases (n : number) :
  (num_lt n MIN_HASHED_FILENAME_LENTH = true →
   length_errors n =
     [mkDiagnostic "error"
        "validatedConfig.hashedFileNameLength must be at least 4 characters"])
  ∧ (num_gt n MAX_HASHED_FILENAME_LENTH = true →
     length_errors n =
       [mkDiagnostic "error"
          "validatedConfig.hashedFileNameLength cannot be more than 32 characters"])
  ∧ (num_lt n MIN_HASHED_FILENAME_LENTH = false →
     num_gt n MAX_HASHED_FILENAME_LENTH = false → length_errors n = []).
Proof.
  unfold length_errors.
  assert (Hboth : num_lt n MIN_HASHED_FILENAME_LENTH = true →
                  num_gt n MAX_HASHED_FILENAME_LENTH = true → False).
  { destruct n as [| | | q]; simpl; try discriminate.
    rewrite !negb_true_iff. intros H4 H32.
    destruct (Qle_bool (inject_Z 4) q) eqn:E4; [discriminate |].
    destruct (Qle_bool q (inject_Z 32)) eqn:E32; [discriminate |].
    assert (¬ (inject_Z 4 <= q)%Q) as N4 by (rewrite <- Qle_bool_iff; congruence).
    assert (¬ (q <= inject_Z 32)%Q) as N32 by (rewrite <- Qle_bool_iff; congruence).
    unfold inject_Z in *. lra. }
  destruct (num_lt n _) eqn:Hlt, (num_gt n _) eqn:Hgt; repeat split; try done.
  all: exfalso; by apply Hboth.
Qed.


(** ** The normalization of [watchIgnoredRegex] *)

Lemma foldl_keep {A} (p : A → bool) (xs acc : list A) :
  foldl (λ arr reg, if p reg then arr ++ [reg] else arr) acc xs = acc ++ List.filter p xs.
Proof.
  revert acc. induction xs as [| x xs IH]; intros acc; simpl.
  - by rewrite app_nil_r.
  - rewrite IH. destruct (p x); [by rewrite <- app_assoc | done].
Qed.

Lemma kind_alloc (o : object) (h : heap) (l : loc) :
  kind (obj_at (alloc o h).2 l) = kind (obj_at h l)
  ∨ (l = (alloc o h).1 ∧ kind (obj_at (alloc o h).2 l) = kind o).
Proof.
  destruct (decide (l = (alloc o h).1)) as [-> | Hne].
  - right. split; [done |]. unfold obj_at. by rewrite alloc_lookup_new.
  - left. unfold obj_at, alloc. simpl. rewrite lookup_insert_ne; [done |].
    intros Heq. apply Hne. by rewrite <- Heq.
Qed.

Lemma isRegExp_alloc (o : object) (h : heap) (v : value) :
  kind o ≠ KRegExp → isRegExp (alloc o h).2 v = isRegExp h v.
Proof.
  intros Ho. unfold isRegExp, kind_of. destruct v as [| | | | | l]; try done.
  destruct (kind_alloc o h l) as [-> | [-> Hk]]; [done |].
  rewrite Hk. pose proof (alloc_fresh o h) as Hf.
  replace (kind (obj_at h (alloc o h).1)) with KPlain
    by (unfold obj_at; by rewrite Hf).
  by destruct (kind o).
Qed.

Lemma isRegExp_set_field (h : heap) (l : loc) (k : string) (x v : value) :
  isRegExp (set_field l k x h) v = isRegExp h v.
Proof. unfold isRegExp, kind_of. destruct v; try done. by rewrite kind_set_field. Qed.

Lemma lookup_set_field_ne (h : heap) (l l' : loc) (k : string) (v : value) :
  l ≠ l' → set_field l k v h !! l' = h !! l'.
Proof. intros Hne. unfold set_field. by rewrite lookup_insert_ne. Qed.

Lemma alloc_ne (o : object) (h : heap) (l : loc) :
  is_Some (h !! l) → l ≠ (alloc o h).1.
Proof. intros [o' Hl] ->. by rewrite alloc_fresh in Hl. Qed.

Lemma normalizeWatchIgnoredRegex_runs (vc : loc) (s : state) :
  let h := heap_of s in
  let given := field h vc "watchIgnoredRegex" in
  is_Some (h !! vc) →
  ∃ a s',
    normalizeWatchIgnoredRegex (VObj vc) s = Ok (tt, s')
    ∧ field (heap_of s') vc "watchIgnoredRegex" = VObj a
    ∧ heap_of s' !! a = Some (array (List.filter (isRegExp h) (entries h given))).
Proof.
  intros h given Hvc. unfold normalizeWatchIgnoredRegex. run. fold h given.
  unfold entries.
  destruct (isArray h given) eqn:Harr; cbn [negb andb]; run.
  - fold h given. assert (Ht : truthy given = true).
    { unfold isArray, kind_of in Harr. by destruct given. }
    rewrite Ht. run. fold h. rewrite foldl_keep. cbn [app].
    do 2 eexists. split; [reflexivity |]. cbn [heap_of]. split.
    + apply field_set_field_eq.
    + rewrite lookup_set_field_ne by by apply alloc_ne. apply alloc_lookup_new.
  - destruct (is_nullish given) eqn:Hnull; cbn [negb]; run.
    + fold h given. assert (Ht : truthy given = false) by by destruct given.
      rewrite Ht. run. fold h.
      replace (elems_of (alloc (array []) h).2 (VObj (alloc (array []) h).1)) with (@nil value)
        by (cbn [elems_of]; unfold obj_at; by rewrite alloc_lookup_new).
      cbn [foldl List.filter].
      do 2 eexists. split; [reflexivity |]. cbn [heap_of]. split.
      * apply field_set_field_eq.
      * rewrite lookup_set_field_ne
          by (apply alloc_ne; by apply alloc_allocated).
        apply alloc_lookup_new.
    + fold h given. rewrite field_set_field_eq. cbn [truthy]. run.
      set (h1 := set_field vc "watchIgnoredRegex" (VObj (alloc (array [given]) h).1)
                   (alloc (array [given]) h).2).
      replace (elems_of h1 (VObj (alloc (array [given]) h).1)) with [given].
      2: { cbn [elems_of]. subst h1. rewrite elems_set_field. unfold obj_at.
           by rewrite alloc_lookup_new. }
      cbn [foldl app List.filter].
      replace (isRegExp h1 given) with (isRegExp h given).
      2: { subst h1. rewrite isRegExp_set_field. by rewrite isRegExp_alloc. }
      do 2 eexists. split; [reflexivity |]. cbn [heap_of]. split.
      * apply field_set_field_eq.
      * rewrite lookup_set_field_ne.
        2: { apply alloc_ne. subst h1. apply set_field_allocated.
             by apply alloc_allocated. }
        rewrite alloc_lookup_new. by destruct (isRegExp h given).
Qed.

Lemma frames_isRegExp (P : list string) (R : loc → Prop) (h h' : heap) (v : value) :
  frames P R h h' → allocated h v → isRegExp h' v = isRegExp h v.
Proof.
  intros Hf Hv. unfold isRegExp, kind_of. destruct v as [| | | | | l]; try done.
  by rewrite (frames_kind P R h h' l Hf Hv).
Qed.

Lemma frames_isArray (P : list string) (R : loc → Prop) (h h' : heap) (v : value) :
  frames P R h h' → allocated h v → isArray h' v = isArray h v.
Proof.
  intros Hf Hv. unfold isArray, kind_of. destruct v as [| | | | | l]; try done.
  by rewrite (frames_kind P R h h' l Hf Hv).
Qed.

Lemma frames_entries (P : list string) (R : loc → Prop) (h h' : heap) (v : value) :
  frames P R h h' → allocated h v → (∀ l, v = VObj l → R l) →
  entries h' v = entries h v.
Proof.
  intros Hf Hv Hr. unfold entries. rewrite (frames_isArray P R h h' v Hf Hv).
  destruct (isArray h v); [| done].
  destruct v as [| | | | | l]; try done. simpl.
  apply (frames_elems P R h h' l Hf Hv). by apply Hr.
Qed.

Lemma filter_ext_Forall {A} (p q : A → bool) (xs : list A) :
  Forall (λ x, p x = q x) xs → List.filter p xs = List.filter q xs.
Proof.
  induction 1 as [| x xs Hx _ IH]; simpl; [done |]. by rewrite Hx, IH.
Qed.


(** ** The flags and [devMode] *)

Lemma cloneFlags_flags (cl : loc) (s s' : state) (fl : value) :
  let h := heap_of s in
  let given := field h cl "flags" in
  cloneFlags (VObj cl) s = Ok (fl, s') →
  given = VUndef ∨ (∃ f, given = VObj f ∧ kind (obj_at h f) ≠ KArray) →
  ∃ f', fl = VObj f' ∧ is_Some (heap_of s' !! f')
        ∧ ∀ k, (flag_of h given k = VUndef ∨ ∃ b, flag_of h given k = VBool b) →
               field (heap_of s') f' k = flag_of h given k.
Proof.
  intros h given Hrun Hgiven. unfold cloneFlags in Hrun.
  rewrite bind_read in Hrun. fold h given in Hrun.
  destruct Hgiven as [Hg | (f & Hg & Hkind)]; rewrite Hg in *; cbn [truthy] in Hrun.
  - rewrite bind_new_object in Hrun. cbn [heap_of CACHED_VALIDATED_CONFIG] in Hrun.
    fold h in Hrun.
    destruct (JSON_roundtrip _ _) as [[v h'] | e] eqn:Hclone; [| discriminate].
    injection Hrun as [= <- <-].
    apply JSON_roundtrip_object in Hclone as (f' & -> & Hf' & Hfields).
    2: { unfold obj_at. by rewrite alloc_lookup_new. }
    exists f'. split; [done |]. split; [done |]. intros k _. cbn [heap_of flag_of].
    rewrite Hfields.
    + rewrite (field_lookup _ _ (plain ∅)) by apply alloc_lookup_new. done.
    + left. rewrite (field_lookup _ _ (plain ∅)) by apply alloc_lookup_new. done.
  - rewrite bind_ret in Hrun.
    destruct (JSON_roundtrip _ _) as [[v h'] | e] eqn:Hclone; [| discriminate].
    injection Hrun as [= <- <-].
    apply JSON_roundtrip_object in Hclone as (f' & -> & Hf' & Hfields); [| done].
    exists f'. split; [done |]. split; [done |]. intros k Hk. cbn [heap_of flag_of] in *.
    by apply Hfields.
Qed.

Lemma resolveDevMode_runs (vc f : loc) (s : state) :
  let h := heap_of s in
  field h vc "flags" = VObj f →
  ∃ s',
    resolveDevMode (VObj vc) s = Ok (tt, s')
    ∧ field (heap_of s') vc "devMode"
      = resolved_devMode (field h f "prod") (field h f "dev") (field h vc "devMode").
Proof.
  intros h Hflags. unfold resolveDevMode, resolved_devMode. run. fold h.
  rewrite Hflags. run. fold h.
  destruct (truthy (field h f "prod")).
  - eexists. split; [reflexivity |]. apply field_set_field_eq.
  - run. fold h. rewrite Hflags. run. fold h. destruct (truthy (field h f "dev")).
    + eexists. split; [reflexivity |]. apply field_set_field_eq.
    + run. fold h. destruct (isBoolean (field h vc "devMode")); cbn [negb when].
      * eexists. split; reflexivity.
      * eexists. split; [reflexivity |]. apply field_set_field_eq.
Qed.

Section Flags.

Variables (P : list string) (R : loc → Prop) (E : Collaborators).
Hypothesis HE : respects P R E.

(** The [flags] of the object [assemble] returns are the clone of the
    user's, taken after the logger is resolved. *)
Lemma assemble_flags (u : loc) (bootstrapConfig : value) (s s1 : state) (vc : loc) :
  assemble E (VObj u) bootstrapConfig s = Ok (vc, s1) →
  "flags" ∈ P →
  ∃ cl se fl sf,
    cloneFlags (VObj cl) se = Ok (fl, sf)
    ∧ frames P R (heap_of s) (heap_of se)
    ∧ field (heap_of se) cl "flags" = field (heap_of s) u "flags"
    ∧ frames P R (heap_of sf) (heap_of s1)
    ∧ field (heap_of s1) vc "flags" = fl.
Proof.
  intros Hrun HP. unfold assemble in Hrun.
  apply bind_Ok in Hrun as (copied & sa & Ha & Hrun).
  unfold on_heap, reading in Ha. injection Ha as [= <- <-].
  apply bind_Ok in Hrun as (config & sb & Hb & Hrun).
  pose proof (keeps_new_object P R _ _ _ _ Hb) as [Fb _].
  unfold new_object, new_loc, bind, total, ret in Hb.
  pose proof (alloc_lookup_new (plain (own_enumerable (heap_of s) (VObj u))) (heap_of s))
    as Hcl.
  match type of Hb with
  | context [alloc ?o ?h] => change (alloc o h) with
      (alloc (plain (own_enumerable (heap_of s) (VObj u))) (heap_of s)) in Hb
  end.
  destruct (alloc (plain (own_enumerable (heap_of s) (VObj u))) (heap_of s))
    as [cl hb].
  simpl in Hcl. injection Hb as [= <- <-].
  apply bind_Ok in Hrun as (logger & sc & Hc & Hrun).
  apply (keeps_resolveLogger P R E HE) in Hc as [Fc _].
  apply bind_Ok in Hrun as (devServer & sd & Hd & Hrun).
  apply (keeps_new_object P R) in Hd as [Fd _].
  apply bind_Ok in Hrun as (spread_config & se & He & Hrun).
  unfold on_heap, reading in He. injection He as [= <- <-].
  apply bind_Ok in Hrun as (flags & sf & Hf & Hrun).
  exists cl, sd, flags, sf. split; [exact Hf |]. simpl in Fb, Fc, Fd.
  split; [exact (frames_trans _ _ _ _ _ (frames_trans _ _ _ _ _ Fb Fc) Fd) |].
  split.
  { rewrite (frames_field P R _ _ cl _ (frames_trans _ _ _ _ _ Fc Fd)); [| by eexists | done].
    rewrite (field_lookup _ _ _ _ Hcl). unfold prop. simpl plain.
    change (default VUndef (own_enumerable (heap_of s) (VObj u) !! "flags")
            = field (heap_of s) u "flags").
    by apply own_enumerable_name. }
  assert (Hkeeps : ∀ (m : M state loc), keeps P R m → m sf = Ok (vc, s1) →
                   frames P R (heap_of sf) (heap_of s1)).
  { intros m Hm Hok. by apply Hm in Hok as [? _]. }
  split.
  { eapply Hkeeps; [| exact Hrun].
    repeat first [apply keeps_resolveSys | apply keeps_nullish_else_new | keeps_step];
      first [exact HE | intros h; apply HE]. }
  apply bind_Ok in Hrun as (hydratedFlag & sg & _ & Hrun).
  apply bind_Ok in Hrun as (config_outputTargets & sh & _ & Hrun).
  apply bind_Ok in Hrun as (outputTargets & si & _ & Hrun).
  apply bind_Ok in Hrun as (rollupConfig & sj & _ & Hrun).
  apply bind_Ok in Hrun as (sys & sk & _ & Hrun).
  apply bind_Ok in Hrun as (config_testing & sl & _ & Hrun).
  apply bind_Ok in Hrun as (testing & sm & _ & Hrun).
  apply bind_Ok in Hrun as (tAIP & sn & _ & Hrun).
  apply bind_Ok in Hrun as (vPPOT & so & _ & Hrun).
  apply bind_Ok in Hrun as (paths & sp & Hp & Hrun).
  apply bind_Ok in Hrun as (spread_paths & sq & Hq & Hrun).
  unfold on_heap, reading in Hq. injection Hq as [= <- <-].
  unfold call, total in Hp.
  pose proof (respects_paths P R E HE (VObj cl) (heap_of so)) as Hlack.
  destruct (validatePaths E (VObj cl) (heap_of so)) as [paths' hp] eqn:Hpaths.
  simpl in Hp. injection Hp as [= <- <-]. simpl in Hlack.
  unfold new_loc, total in Hrun.
  match type of Hrun with
  | context [alloc ?o ?h] =>
      pose proof (alloc_lookup_new o h) as Hnew; destruct (alloc o h) as [l hl]
  end.
  injection Hrun as [= <- <-]. simpl in Hnew. simpl.
  rewrite (field_lookup _ _ _ _ Hnew). unfold prop. simpl.
  rewrite lookup_union_r by by apply Hlack.
  rewrite !lookup_insert_ne by discriminate. by rewrite lookup_insert_eq.
Qed.

End Flags.

Lemma validateConfig_unfold (E : Collaborators) (u b : value) (s : state) :
  u ≠ VUndef →
  validateConfig E u b s =
    if negb (strict_eq (CACHED_VALIDATED_CONFIG s) VNull)
       && strict_eq (CACHED_VALIDATED_CONFIG s) u
    then Ok ((u, []), s)
    else validate E u b [] s.
Proof.
  intros Hu. unfold validateConfig.
  assert (strict_eq u VUndef = false) as -> by by destruct u.
  cbv iota. rewrite bind_ret. unfold bind, reading.
  by destruct (negb _ && _).
Qed.

Lemma validate_cached (E : Collaborators) (u b : value) (ds0 : list Diagnostic)
    (s s' : state) (c : value) (ds : list Diagnostic) :
  validate E u b ds0 s = Ok ((c, ds), s') →
  ∃ l, c = VObj l ∧ CACHED_VALIDATED_CONFIG s' = VObj l.
Proof.
  intros Hrun. apply validate_Ok in Hrun
    as (vc & s1 & s2 & s3 & s4 & ds5 & s5 & ds6 & s6 & s7 & s8 & s9
        & _ & _ & _ & _ & _ & _ & _ & _ & _ & -> & ->).
  by exists vc.
Qed.

Lemma strict_eq_obj (l : loc) (v : value) : strict_eq (VObj l) v = true → v = VObj l.
Proof. destruct v; simpl; try discriminate. by intros ->%Pos.eqb_eq. Qed.


(** ** The extras *)

Lemma normalizeExtras_runs (vc e : loc) (s : state) :
  let h := heap_of s in
  let experimental := truthy (field h e "experimentalSlotFixes") in
  let coerced name := VBool (truthy (field h e name)) in
  let forced name := VBool (experimental || truthy (field h e name)) in
  field h vc "extras" = VObj e →
  ∃ s',
    normalizeExtras (VObj vc) s = Ok (tt, s')
    ∧ field (heap_of s') vc "extras" = VObj e
    ∧ field (heap_of s') e "appendChildSlotFix" = forced "appendChildSlotFix"
    ∧ field (heap_of s') e "cloneNodeFix" = forced "cloneNodeFix"
    ∧ field (heap_of s') e "slotChildNodesFix" = forced "slotChildNodesFix"
    ∧ field (heap_of s') e "lifecycleDOMEvents" = coerced "lifecycleDOMEvents"
    ∧ field (heap_of s') e "scriptDataOpts" = coerced "scriptDataOpts"
    ∧ field (heap_of s') e "initializeNextTick" = coerced "initializeNextTick"
    ∧ field (heap_of s') e "tagNameTransform" = coerced "tagNameTransform"
    ∧ field (heap_of s') e "experimentalSlotFixes" = VBool experimental
    ∧ field (heap_of s') e "scopedSlotTextContentFix"
      = (if experimental then VBool true else field h e "scopedSlotTextContentFix")
    ∧ ∀ name, name ∉ "extras" :: extras_flags →
              field (heap_of s') e name = field h e name.
Proof.
  intros h experimental coerced forced Hextras.
  unfold normalizeExtras, coerceExtra, forceExtra.
  run. fold h. rewrite Hextras. cbn [truthy]. run.
  repeat (progress (run; fields; rewrite ?Hextras)).
  fold h. subst experimental coerced forced. cbn beta. unfold when. cbn [truthy].
  assert (Hother : ∀ (name : string) (g : heap),
            name ∉ "extras" :: extras_flags →
            ∀ k v, k ∈ "extras" :: extras_flags →
                   field (set_field e k v g) e name = field g e name).
  { intros name g Hname k v Hk. apply field_set_field_ne. right. by intros ->. }
  destruct (truthy (field h e "experimentalSlotFixes")) eqn:Hexp; cbn [orb].
  - repeat (progress (run; fields; rewrite ?Hextras)).
    eexists. split; [reflexivity |]. cbn [heap_of].
    repeat split; fields; rewrite ?Hextras, ?Hexp; try reflexivity.
    intros name Hname.
    rewrite !(Hother name _ Hname)
      by (repeat first [apply list_elem_of_here | apply list_elem_of_further]).
    apply field_set_field_ne. right. intros <-. apply Hname, list_elem_of_here.
  - eexists. split; [reflexivity |]. cbn [heap_of].
    repeat split; fields; rewrite ?Hextras, ?Hexp; try reflexivity.
    intros name Hname.
    rewrite !(Hother name _ Hname)
      by (repeat first [apply list_elem_of_here | apply list_elem_of_further]).
    apply field_set_field_ne. right. intros <-. apply Hname, list_elem_of_here.
Qed.

(** ** Steps that return *)

Lemma returns_bind {A B} (m : M state A) (k : A → M state B) (s s1 : state) (a : A) :
  m s = Ok (a, s1) → returns (k a) s1 → returns (bind m k) s.
Proof. intros Hm (b & s' & Hk). exists b, s'. unfold bind. by rewrite Hm. Qed.

Lemma always_bind {A B} (m : M state A) (k : A → M state B) :
  always m → (∀ a, always (k a)) → always (bind m k).
Proof.
  intros Hm Hk s. destruct (Hm s) as (a & s1 & H1).
  eapply returns_bind; [exact H1 | apply Hk].
Qed.

Lemma always_ret {A} (a : A) : always (ret a).
Proof. intros s. by exists a, s. Qed.

Lemma always_read (l : loc) (k : string) : always (read (VObj l) k).
Proof. intros s. by eexists _, _. Qed.

Lemma always_assign (l : loc) (k : string) (v : value) : always (assign (VObj l) k v).
Proof. intros s. by eexists _, _. Qed.

Lemma always_new_object (o : object) : always (new_object o).
Proof. intros s. by eexists _, _. Qed.

Lemma always_new_loc (o : object) : always (new_loc o).
Proof.
  intros s. unfold returns, new_loc, total. destruct (alloc o (heap_of s)).
  by eexists _, _.
Qed.

Lemma always_on_heap {A} (f : heap → A) : always (on_heap f).
Proof. intros s. by eexists _, _. Qed.

Lemma always_call {A} (f : heap → A * heap) : always (call f).
Proof.
  intros s. unfold returns, call, total. destruct (f (heap_of s)). by eexists _, _.
Qed.

Lemma always_when (b : bool) (m : M state unit) : always m → always (when b m).
Proof. destruct b; [done |]. intros _. apply always_ret. Qed.

Lemma always_if {A} (b : bool) (m1 m2 : M state A) :
  always m1 → always m2 → always (if b then m1 else m2).
Proof. by destruct b. Qed.

Ltac always_step :=
  lazymatch goal with
  | |- always (bind _ _) => apply always_bind; [| intros ?]
  | |- always (ret _) => apply always_ret
  | |- always (read (VObj _) _) => apply always_read
  | |- always (on_heap _) => apply always_on_heap
  | |- always (assign (VObj _) _ _) => apply always_assign
  | |- always (new_object _) => apply always_new_object
  | |- always (new_loc _) => apply always_new_loc
  | |- always (when _ _) => apply always_when
  | |- always (call _) => apply always_call
  | |- always (if _ then _ else _) => apply always_if
  | |- always (match ?x with _ => _ end) => destruct x
  end.

Lemma always_setBooleanConfig (config : loc) (configName : string)
    (flagName : option string) (defaultValue : value) :
  always (setBooleanConfig config configName flagName defaultValue).
Proof. unfold setBooleanConfig. repeat always_step. Qed.

Lemma always_resolveBooleans (vc : loc) : always (resolveBooleans vc).
Proof.
  unfold resolveBooleans. repeat first [apply always_setBooleanConfig | always_step].
Qed.

Lemma always_resolveHashing (vc : loc) (ds : list Diagnostic) :
  always (resolveHashing (VObj vc) ds).
Proof. unfold resolveHashing. repeat always_step. Qed.

Lemma always_normalizeWatchIgnoredRegex (vc : loc) :
  always (normalizeWatchIgnoredRegex (VObj vc)).
Proof. unfold normalizeWatchIgnoredRegex. repeat always_step. Qed.

Section Always.
Variable E : Collaborators.

Lemma always_validateFields (vc : loc) (ds : list Diagnostic) :
  always (validateFields E (VObj vc) ds).
Proof. unfold validateFields. repeat always_step. Qed.

Lemma always_validateRemaining (vc : loc) (ds : list Diagnostic) :
  always (validateRemaining E vc ds).
Proof.
  unfold validateRemaining. repeat first [apply always_setBooleanConfig | always_step].
Qed.

Lemma always_resolveLogger (b cl : loc) : always (resolveLogger E (VObj b) (VObj cl)).
Proof. unfold resolveLogger. repeat always_step. Qed.

Lemma always_resolveSys (b cl : loc) (logger : value) :
  always (resolveSys E (VObj b) (VObj cl) logger).
Proof. unfold resolveSys. repeat always_step. Qed.

Lemma always_nullish_else_new (v : value) (o : object) : always (nullish_else_new v o).
Proof. unfold nullish_else_new. repeat always_step. Qed.
End Always.

Lemma respects_weaken (P P' : list string) (R R' : loc → Prop) (E : Collaborators) :
  (∀ k, k ∈ P' → k ∈ P) → (∀ l, R' l → R l) → respects P R E → respects P' R' E.
Proof.
  intros HP HR HE. split; intros; try (eapply frames_weaken; [exact HP | exact HR | apply HE]).
  apply HE. by apply HP.
Qed.

Lemma resolveDevMode_returns (vc f : loc) (s : state) :
  field (heap_of s) vc "flags" = VObj f → returns (resolveDevMode (VObj vc)) s.
Proof.
  intros Hf. destruct (resolveDevMode_runs vc f s Hf) as (s' & Hrun & _). by exists tt, s'.
Qed.

Lemma normalizeExtras_returns (vc : loc) (s : state) :
  truthy (field (heap_of s) vc "extras") = false
  ∨ (∃ e, field (heap_of s) vc "extras" = VObj e) →
  returns (normalizeExtras (VObj vc)) s.
Proof.
  intros [Hfalsy | [e He]].
  - unfold returns, normalizeExtras, coerceExtra, forceExtra. run. rewrite Hfalsy. run.
    repeat (progress (run; fields)).
    unfold when.
    match goal with |- context [if truthy ?v then _ else _] => destruct (truthy v) end.
    + repeat (progress (run; fields)). by eexists _, _.
    + by eexists _, _.
  - destruct (normalizeExtras_runs vc e s He) as (s' & Hrun & _). by exists tt, s'.
Qed.

Lemma sortBundles_returns (vc : loc) (s : state) :
  isArray (heap_of s) (field (heap_of s) vc "bundles") = false →
  returns (sortBundles (VObj vc)) s.
Proof.
  intros Harr. unfold returns, sortBundles. run. rewrite Harr. run. by eexists _, _.
Qed.

Lemma stringify_primitive (n : nat) (h : heap) (v : value) :
  primitive v → ∃ j, stringify n h v = Ok j.
Proof.
  intros Hp. destruct v as [| | | [] | |]; try (by destruct Hp); destruct n; simpl; by eexists.
Qed.

Lemma stringify_flat_props (n : nat) (h : heap) (l : list (string * value)) :
  (∀ kx, kx ∈ l → primitive kx.2) →
  ∃ ps,
    foldr (λ kx acc,
             match stringify n h kx.2, acc with
             | Ok (Some j), Ok ps => Ok ((kx.1, j) :: ps)
             | Ok None, Ok ps => Ok ps
             | Throw e, _ | _, Throw e => Throw e
             end) (Ok []) l = Ok ps.
Proof.
  induction l as [| kx l IH]; intros Hflat; simpl; [by eexists |].
  destruct IH as [ps ->]; [intros ? ?; apply Hflat; by apply list_elem_of_further |].
  destruct (stringify_primitive n h kx.2) as [[j |] ->];
    [apply Hflat, list_elem_of_here | by eexists | by eexists].
Qed.

Lemma JSON_roundtrip_flat (h : heap) (l : loc) (o : object) :
  h !! l = Some o → kind o ≠ KArray → (∀ k x, props o !! k = Some x → primitive x) →
  ∃ v h', JSON_roundtrip (VObj l) h = Ok (v, h').
Proof.
  intros Hl Hkind Hflat. unfold JSON_roundtrip, JSON_stringify.
  assert (Ho : obj_at h l = o) by (unfold obj_at; by rewrite Hl).
  rewrite stringify_object by by rewrite Ho.
  rewrite Ho.
  destruct (stringify_flat_props (size h) h (map_to_list (props o))) as [ps ->].
  { intros [k x] Hin. apply elem_of_map_to_list in Hin. by eapply Hflat. }
  destruct (parse (JObj ps) h) as [v h']. by exists v, h'.
Qed.

Lemma cloneFlags_returns (cl : loc) (s : state) :
  let h := heap_of s in
  field h cl "flags" = VUndef
  ∨ (∃ f o, field h cl "flags" = VObj f ∧ h !! f = Some o ∧ kind o ≠ KArray
            ∧ ∀ k x, props o !! k = Some x → primitive x) →
  returns (cloneFlags (VObj cl)) s.
Proof.
  intros h Hflags. unfold cloneFlags, returns. rewrite bind_read. fold h.
  destruct Hflags as [-> | (f & o & -> & Hf & Hkind & Hflat)]; cbn [truthy].
  - rewrite bind_new_object. cbn [heap_of CACHED_VALIDATED_CONFIG]. fold h.
    destruct (JSON_roundtrip_flat (alloc (plain ∅) h).2 (alloc (plain ∅) h).1 (plain ∅))
      as (v & h' & ->); [apply alloc_lookup_new | done | |].
    + intros k x Hk. cbn [plain props] in Hk. by rewrite lookup_empty in Hk.
    + by eexists _, _.
  - rewrite bind_ret. fold h.
    destruct (JSON_roundtrip_flat h f o Hf Hkind Hflat) as (v & h' & ->). by eexists _, _.
Qed.

Section Returns.

Variable E : Collaborators.

Lemma resolveLogger_same (b config : value) (s s' : state) (logger : value)
    (f : loc) (o : object) :
  resolveLogger E b config s = Ok (logger, s') →
  (∀ g, g !! f = Some o → (createNodeLogger E g).2 !! f = Some o) →
  heap_of s !! f = Some o → heap_of s' !! f = Some o.
Proof.
  intros Hrun Hfactory Hf. unfold resolveLogger in Hrun.
  apply bind_Ok in Hrun as (bl & s1 & H1 & Hrun).
  unfold read, reading in H1. destruct (get _ _ _) as [x |]; [| discriminate].
  injection H1 as [= -> ->].
  destruct (truthy bl); [by injection Hrun as [= <- <-] |].
  apply bind_Ok in Hrun as (cl & s2 & H2 & Hrun).
  unfold read, reading in H2. destruct (get _ _ _) as [y |]; [| discriminate].
  injection H2 as [= -> ->].
  destruct (truthy cl); [by injection Hrun as [= <- <-] |].
  unfold call, total in Hrun. specialize (Hfactory (heap_of s2) Hf).
  destruct (createNodeLogger E (heap_of s2)) as [v g]. injection Hrun as [= <- <-]. done.
Qed.

Lemma bind_run {A B} (m : M state A) (k : A → M state B) (s s1 : state) (a : A) :
  m s = Ok (a, s1) → bind m k s = k a s1.
Proof. intros Hm. unfold bind. by rewrite Hm. Qed.

Lemma assemble_returns (u : loc) (bootstrapConfig : value) (s : state) :
  well_formed E (heap_of s) u bootstrapConfig →
  returns (assemble E (VObj u) bootstrapConfig) s.
Proof.
  intros [[b ->] HE Hflags _ _]. unfold returns, assemble.
  set (P := ["flags"; "extras"; "bundles"]) in *. set (R := λ _ : loc, False) in *.
  rewrite bind_on_heap, bind_new_object. cbn [heap_of CACHED_VALIDATED_CONFIG].
  set (copied := own_enumerable (heap_of s) (VObj u)).
  set (cl := (alloc (plain copied) (heap_of s)).1).
  set (h1 := (alloc (plain copied) (heap_of s)).2).
  assert (Hcl : h1 !! cl = Some (plain copied)) by apply alloc_lookup_new.
  assert (Hflags1 : field h1 cl "flags" = field (heap_of s) u "flags").
  { rewrite (field_lookup _ _ _ _ Hcl). by apply own_enumerable_name. }
  destruct (always_resolveLogger E b cl (mkState h1 (CACHED_VALIDATED_CONFIG s)))
    as (logger & sc & Hc).
  rewrite (bind_run _ _ _ _ _ Hc).
  pose proof (keeps_resolveLogger P R E HE _ _ _ _ _ Hc) as [Fc _]. cbn [heap_of] in Fc.
  rewrite bind_new_object, bind_on_heap. cbn [heap_of CACHED_VALIDATED_CONFIG].
  set (hd := (alloc (plain ∅) (heap_of sc)).2).
  assert (Fd : frames P R h1 hd).
  { eapply frames_trans; [exact Fc | apply frames_alloc]. }
  assert (Hflagsd : field hd cl "flags" = field (heap_of s) u "flags").
  { rewrite <- Hflags1. apply (frames_field P R h1 hd cl "flags" Fd); [by eexists |].
    apply list_elem_of_here. }
  destruct (cloneFlags_returns cl (mkState hd (CACHED_VALIDATED_CONFIG sc)))
    as (flags & sf & Hf).
  { cbn [heap_of]. rewrite Hflagsd.
    destruct Hflags as [Hu | (f & o & Hfo & Hf & Hkind & Hflat & Hfactory)]; [by left |].
    right. exists f, o. split; [done |]. split; [| done].
    subst hd. apply alloc_lookup_old.
    eapply resolveLogger_same; [exact Hc | exact Hfactory |].
    cbn [heap_of]. subst h1. by apply alloc_lookup_old. }
  rewrite (bind_run _ _ _ _ _ Hf).
  match goal with
  | |- ∃ a s', ?m sf = Ok (a, s') => cut (always m); [intros Ha; apply Ha |]
  end.
  repeat first [apply always_resolveSys | apply always_nullish_else_new | always_step].
Qed.

End Returns.

Section Validate.
Variable E : Collaborators.

Lemma validate_returns (u : loc) (bootstrapConfig : value) (ds0 : list Diagnostic)
    (s : state) :
  well_formed E (heap_of s) u bootstrapConfig →
  returns (validate E (VObj u) bootstrapConfig ds0) s.
Proof.
  intros Hwf. pose proof Hwf as [_ HE Hflags Hextras [Hbundles Hballoc]].
  set (P := ["flags"; "extras"; "bundles"]) in *. set (R := λ _ : loc, False) in *.
  assert (HPf : "flags" ∈ P) by apply list_elem_of_here.
  assert (HPe : "extras" ∈ P) by (subst P; repeat first [apply list_elem_of_here | apply list_elem_of_further]).
  assert (HPb : "bundles" ∈ P) by (subst P; repeat first [apply list_elem_of_here | apply list_elem_of_further]).
  assert (HE' : respects ["bundles"] R E).
  { eapply respects_weaken; [| | exact HE]; [| done].
    intros k ->%list_elem_of_singleton. exact HPb. }
  destruct (assemble_returns E u bootstrapConfig s Hwf) as (vc & s1 & H1).
  unfold returns, validate. rewrite (bind_run _ _ _ _ _ H1).
  destruct (assemble_flags P R E HE _ _ _ _ _ H1 HPf)
    as (cl & se & fl & sf & Hclone & F0e & Hgiven & Ff1 & Hfl).
  apply cloneFlags_flags in Hclone as (f' & -> & _ & _).
  2: { rewrite Hgiven. destruct Hflags as [Hu | (f & o & Hfo & Hf & Hkind & _)]; [by left |].
       right. exists f. split; [done |].
       rewrite (frames_kind P R (heap_of s) (heap_of se) f F0e) by by eexists.
       unfold obj_at. by rewrite Hf. }
  apply (assemble_field P R E HE) in H1 as (F1 & _ & Hvc1 & Hfield1).
  destruct (resolveDevMode_runs vc f' s1 Hfl) as (s2 & H2 & _).
  rewrite (bind_run _ _ _ _ _ H2).
  pose proof (keeps_resolveDevMode P R _ ltac:(unwritten) _ _ _ H2) as [F2 _].
  assert (Hvc2 : is_Some (heap_of s2 !! vc)) by exact (frames_allocated _ _ _ _ _ F2 Hvc1).
  destruct (normalizeExtras_returns vc s2) as ([] & s3 & H3).
  { rewrite (frames_field P R _ _ vc _ F2 Hvc1 HPe).
    rewrite Hfield1 by (done || unwritten). exact Hextras. }
  rewrite (bind_run _ _ _ _ _ H3).
  pose proof (keeps_normalizeExtras ["bundles"] R _ ltac:(unwritten) _ _ _ H3) as [F3 _].
  destruct (always_resolveBooleans vc s3) as ([] & s4 & H4).
  rewrite (bind_run _ _ _ _ _ H4).
  pose proof (keeps_resolveBooleans ["bundles"] R _ ltac:(unwritten) _ _ _ H4) as [F4 _].
  destruct (always_resolveHashing vc ds0 s4) as (ds5 & s5 & H5).
  rewrite (bind_run _ _ _ _ _ H5).
  pose proof (keeps_resolveHashing ["bundles"] R _ _ ltac:(unwritten) _ _ _ H5) as [F5 _].
  destruct (always_validateFields E vc ds5 s5) as (ds6 & s6 & H6).
  rewrite (bind_run _ _ _ _ _ H6).
  pose proof (keeps_validateFields ["bundles"] R E HE' _ _ ltac:(unwritten) _ _ _ H6)
    as [F6 _].
  assert (F26 : frames ["bundles"] R (heap_of s2) (heap_of s6)).
  { repeat (eapply frames_trans; [eassumption |]). apply frames_refl. }
  assert (F02 : frames ["bundles"] R (heap_of s) (heap_of s2)).
  { eapply frames_weaken; [| | exact (frames_trans _ _ _ _ _ F1 F2)]; [| done].
    intros k ->%list_elem_of_singleton. exact HPb. }
  destruct (sortBundles_returns vc s6) as ([] & s7 & H7).
  { rewrite (frames_field ["bundles"] R _ _ vc _ F26 Hvc2) by apply list_elem_of_here.
    rewrite (frames_field P R _ _ vc _ F2 Hvc1 HPb).
    rewrite Hfield1 by (done || unwritten).
    rewrite (frames_isArray ["bundles"] R (heap_of s) (heap_of s6));
      [exact Hbundles | exact (frames_trans _ _ _ _ _ F02 F26) | exact Hballoc]. }
  rewrite (bind_run _ _ _ _ _ H7).
  destruct (always_validateRemaining E vc ds6 s7) as (ds8 & s8 & H8).
  rewrite (bind_run _ _ _ _ _ H8).
  destruct (always_normalizeWatchIgnoredRegex vc s8) as ([] & s9 & H9).
  rewrite (bind_run _ _ _ _ _ H9).
  by eexists _, _.
Qed.

(** On a well-formed input [validateConfig] returns. *)
Lemma validateConfig_returns (u : loc) (bootstrapConfig : value) (s : state) :
  well_formed E (heap_of s) u bootstrapConfig →
  ∃ c ds s', validateConfig E (VObj u) bootstrapConfig s = Ok ((c, ds), s').
Proof.
  intros Hwf. rewrite validateConfig_unfold by done.
  destruct (negb _ && _); [by eexists _, _, _ |].
  destruct (validate_returns u bootstrapConfig [] s Hwf) as ([c ds] & s' & Hrun).
  by exists c, ds, s'.
Qed.

End Validate.


End StepFacts.

(* ================================================================== *)
(** * The quiet collaborators *)
(* ================================================================== *)

Module SampleFacts.

Import ValidateConfig Contracts HeapFacts StepFacts.

(** The quiet collaborators honour every contract. *)
Lemma fresh_object_frames (P : list string) (R : loc → Prop) (h : heap) :
  frames P R h (Samples.fresh_object h).2.
Proof.
  unfold Samples.fresh_object.
  pose proof (frames_alloc P R (plain ∅) h) as Hf.
  by destruct (alloc (plain ∅) h).
Qed.

Lemma quiet_respects (P : list string) (R : loc → Prop) :
  respects P R Samples.quietCollaborators.
Proof.
  split; cbn [Samples.quietCollaborators createNodeLogger createNodeSys validateHydrated
                validateRollupConfig validatePaths validateNamespace validateOutputTargets
                validatePlugins validateDevServer validateTesting validateWorkers
                validateDistNamespace];
    intros; try apply frames_refl; try apply fresh_object_frames.
  unfold Samples.fresh_object.
  pose proof (alloc_lookup_new (plain ∅) h) as Hnew.
  destruct (alloc (plain ∅) h) as [l h']. cbn [fst snd] in *.
  cbn [own_enumerable]. unfold obj_at. rewrite Hnew. cbn [default plain props elems].
  apply lookup_union_None_2; [apply lookup_empty |].
  apply lookup_empty.
Qed.

Lemma quiet_silent : silent Samples.quietCollaborators.
Proof. by split. Qed.

Lemma quiet_appends : appends Samples.quietCollaborators.
Proof. split; simpl; intros; exists []; by rewrite app_nil_r. Qed.


Lemma quiet_well_formed :
  well_formed Samples.quietCollaborators (heap_of Samples.configState) 1 (VObj 6).
Proof.
  split.
  - by eexists.
  - apply quiet_respects.
  - right. exists 2%positive. eexists. split; [reflexivity |]. split; [reflexivity |].
    split; [done |]. split.
    + intros k x Hk. cbn [plain props] in Hk.
      apply lookup_insert_Some in Hk as [[_ <-] | [_ Hk]]; [done |].
      by rewrite lookup_empty in Hk.
    + intros g Hg. cbn [Samples.quietCollaborators createNodeLogger].
      unfold Samples.fresh_object.
      pose proof (alloc_lookup_old _ (plain ∅) g 2%positive Hg) as Hold.
      by destruct (alloc (plain ∅) g).
  - right. by exists 3%positive.
  - split; [reflexivity | done].
Qed.

End SampleFacts.

(* ================================================================== *)
(** * What [validateConfig] returns *)
(* ================================================================== *)

Module PipelineFacts.

Import ValidateConfig Contracts HeapFacts StepFacts.

(** The length the validation keeps and the diagnostics of its two
    checks. *)
Lemma validateConfig_hashedFileNameLength (E : Collaborators) (u : loc) (bootstrapConfig : value)
    (s s' : state) (c : value) (ds : list Diagnostic) :
  respects ["hashedFileNameLength"] (λ _, False) E →
  appends E →
  CACHED_VALIDATED_CONFIG s ≠ VObj u →
  validateConfig E (VObj u) bootstrapConfig s = Ok ((c, ds), s') →
  let given := field (heap_of s) u "hashedFileNameLength" in
  let kept := if isNumber given then given else VNum DEFAULT_HASHED_FILENAME_LENTH in
  ∃ vc more,
    c = VObj vc
    ∧ field (heap_of s') vc "hashedFileNameLength" = kept
    ∧ ds = length_errors (number_of kept) ++ more
    ∧ (silent E → more = []).
Proof.
  intros HE HA Hmiss Hrun given kept.
  rewrite validateConfig_miss in Hrun by done.
  apply validate_Ok in Hrun
    as (vc & s1 & s2 & s3 & s4 & ds5 & s5 & ds6 & s6 & s7 & s8 & s9
        & H1 & H2 & H3 & H4 & H5 & H6 & H7 & H8 & H9 & -> & ->).
  set (P := ["hashedFileNameLength"]) in *. set (R := λ _ : loc, False) in *.
  assert (HP : "hashedFileNameLength" ∈ P) by apply list_elem_of_here.
  apply (assemble_field P R E HE) in H1 as (_ & _ & Hvc1 & Hfield1).
  apply (keeps_resolveDevMode P R) in H2 as [F2 _]; [| unwritten].
  apply (keeps_normalizeExtras P R) in H3 as [F3 _]; [| unwritten].
  apply (keeps_resolveBooleans P R) in H4 as [F4 _]; [| unwritten].
  pose proof (frames_trans _ _ _ _ _ (frames_trans _ _ _ _ _ F2 F3) F4) as F14.
  assert (Hvc4 : is_Some (heap_of s4 !! vc)) by by eapply frames_allocated.
  assert (Hgiven : field (heap_of s4) vc "hashedFileNameLength" = given).
  { rewrite (frames_field P R _ _ vc _ F14 Hvc1 HP). apply Hfield1; (done || unwritten). }
  destruct (resolveHashing_runs vc [] s4 Hvc4) as (s5' & H5' & Hfield5).
  rewrite Hgiven in H5', Hfield5. fold kept in H5', Hfield5.
  rewrite H5 in H5'. injection H5' as [= -> <-].
  apply (keeps_resolveHashing [] R) in H5 as [F5 _]; [| unwritten].
  assert (Hvc5 : is_Some (heap_of s5 !! vc)) by by eapply frames_allocated.
  pose proof (validateFields_appends E _ _ _ _ _ HA H6) as (m6 & -> & S6).
  pose proof (validateRemaining_appends E _ _ _ _ _ HA H8) as (m8 & -> & S8).
  apply (keeps_validateFields P R E HE) in H6 as [F6 _]; [| unwritten].
  apply (keeps_sortBundles P R) in H7 as [F7 _]; [| unwritten].
  apply (keeps_validateRemaining P R E HE) in H8 as [F8 _]; [| unwritten | unwritten].
  apply (keeps_normalizeWatchIgnoredRegex P R) in H9 as [F9 _]; [| unwritten].
  pose proof (frames_trans _ _ _ _ _
                (frames_trans _ _ _ _ _ (frames_trans _ _ _ _ _ F6 F7) F8) F9) as F59.
  exists vc, (m6 ++ m8). split; [done |]. split.
  - cbn [heap_of]. rewrite (frames_field P R _ _ vc _ F59 Hvc5 HP). exact Hfield5.
  - split; [by rewrite <- app_assoc |].
    intros HS. by rewrite S6, S8.
Qed.




(** The [watchIgnoredRegex] of the returned configuration. *)
Lemma validateConfig_watchIgnoredRegex (E : Collaborators) (u : loc) (bootstrapConfig : value)
    (s s' : state) (c : value) (ds : list Diagnostic) :
  let h := heap_of s in
  let given := field h u "watchIgnoredRegex" in
  respects ["watchIgnoredRegex"] (λ l, given = VObj l) E →
  CACHED_VALIDATED_CONFIG s ≠ VObj u →
  allocated h given →
  Forall (allocated h) (entries h given) →
  validateConfig E (VObj u) bootstrapConfig s = Ok ((c, ds), s') →
  ∃ vc a,
    c = VObj vc
    ∧ field (heap_of s') vc "watchIgnoredRegex" = VObj a
    ∧ heap_of s' !! a = Some (array (List.filter (isRegExp h) (entries h given)))
    ∧ (isRegExp h given = true → List.filter (isRegExp h) (entries h given) = [given])
    ∧ (isArray h given = false → isRegExp h given = false →
       List.filter (isRegExp h) (entries h given) = []).
Proof.
  intros h given HE Hmiss Hgiven Hentries Hrun.
  rewrite validateConfig_miss in Hrun by done.
  apply validate_Ok in Hrun
    as (vc & s1 & s2 & s3 & s4 & ds5 & s5 & ds6 & s6 & s7 & s8 & s9
        & H1 & H2 & H3 & H4 & H5 & H6 & H7 & H8 & H9 & -> & ->).
  set (P := ["watchIgnoredRegex"]) in *. set (R := λ l : loc, given = VObj l) in *.
  assert (HP : "watchIgnoredRegex" ∈ P) by apply list_elem_of_here.
  apply (assemble_field P R E HE) in H1 as (F1 & _ & Hvc1 & Hfield1).
  apply (keeps_resolveDevMode P R) in H2 as [F2 _]; [| unwritten].
  apply (keeps_normalizeExtras P R) in H3 as [F3 _]; [| unwritten].
  apply (keeps_resolveBooleans P R) in H4 as [F4 _]; [| unwritten].
  apply (keeps_resolveHashing P R) in H5 as [F5 _]; [| unwritten].
  apply (keeps_validateFields P R E HE) in H6 as [F6 _]; [| unwritten].
  apply (keeps_sortBundles P R) in H7 as [F7 _]; [| unwritten].
  apply (keeps_validateRemaining P R E HE) in H8 as [F8 _]; [| unwritten | unwritten].
  assert (F18 : frames P R (heap_of s1) (heap_of s8)).
  { repeat (eapply frames_trans; [eassumption |]). apply frames_refl. }
  assert (F08 : frames P R h (heap_of s8)) by exact (frames_trans _ _ _ _ _ F1 F18).
  assert (Hvc8 : is_Some (heap_of s8 !! vc)) by exact (frames_allocated _ _ _ _ _ F18 Hvc1).
  assert (Hfield8 : field (heap_of s8) vc "watchIgnoredRegex" = given).
  { rewrite (frames_field P R _ _ vc _ F18 Hvc1 HP). apply Hfield1; (done || unwritten). }
  destruct (normalizeWatchIgnoredRegex_runs vc s8 Hvc8) as (a & s9' & H9' & Hfield9 & Ha).
  rewrite H9 in H9'. injection H9' as [= <-].
  rewrite Hfield8 in Ha.
  rewrite (frames_entries P R h (heap_of s8) given F08 Hgiven) in Ha by done.
  rewrite (filter_ext_Forall (isRegExp (heap_of s8)) (isRegExp h)) in Ha.
  2: { eapply Forall_impl; [exact Hentries |]. intros x Hx. simpl.
       by apply (frames_isRegExp P R). }
  exists vc, a. split; [done |]. split; [exact Hfield9 |]. split; [exact Ha |].
  unfold entries. split.
  - intros Hre. assert (isArray h given = false) as ->.
    { unfold isArray, isRegExp in *. by destruct (kind_of h given) as [[] |]. }
    assert (is_nullish given = false) as -> by (by destruct given).
    simpl. by rewrite Hre.
  - intros -> Hre. destruct (is_nullish given); [done |]. simpl. by rewrite Hre.
Qed.


End PipelineFacts.

(* ================================================================== *)
(** * Properties of [validateConfig] *)
(* ================================================================== *)

Module ValidateClaims.

Import ValidateConfig Contracts HeapFacts StepFacts SampleFacts PipelineFacts.

(** C1, amended: after any call of [validateConfig] that returns, on a
    cache that holds nothing or an object, the returned configuration is an
    object and the cache holds it; and whenever the cache holds the object
    that is passed in, [validateConfig] returns that same object with no
    diagnostics and leaves the heap and the cache as they are, whatever the
    bootstrap configuration: no step of the validation runs.  So validating
    the object a validation returned gives it back. *)
Theorem C1_cached_config_is_returned (E : Collaborators) (userConfig bootstrapConfig : value)
    (s s' : state) (c : value) (ds : list Diagnostic) :
  cache_ok s →
  validateConfig E userConfig bootstrapConfig s = Ok ((c, ds), s') →
  ∃ l,
    c = VObj l
    ∧ CACHED_VALIDATED_CONFIG s' = VObj l
    ∧ ∀ again s0,
        CACHED_VALIDATED_CONFIG s0 = VObj l →
        validateConfig E c again s0 = Ok ((c, []), s0).
Proof.
  intros Hcache Hrun.
  assert (Hl : ∃ l, c = VObj l ∧ CACHED_VALIDATED_CONFIG s' = VObj l).
  { assert (userConfig = VUndef ∨ userConfig ≠ VUndef) as [-> | Hu]
      by (destruct userConfig; (by left) || (by right)).
    - unfold validateConfig in Hrun. cbn [strict_eq same_kind_eq] in Hrun.
      rewrite bind_new_object in Hrun. unfold bind, reading in Hrun.
      cbn [CACHED_VALIDATED_CONFIG] in Hrun.
      destruct (negb _ && _) eqn:Hhit.
      + injection Hrun as [= <- <- <-]. eexists. split; [done |].
        apply andb_true_iff in Hhit as [_ Hhit]. cbn [CACHED_VALIDATED_CONFIG].
        destruct Hcache as [Hc | [l Hc]]; rewrite Hc in *; [discriminate |].
        by apply strict_eq_obj in Hhit.
      + by eapply validate_cached.
    - rewrite validateConfig_unfold in Hrun by done.
      destruct (negb _ && _) eqn:Hhit.
      + injection Hrun as [= <- <- <-].
        apply andb_true_iff in Hhit as [Hnn Hhit].
        destruct Hcache as [Hc | [l Hc]]; rewrite Hc in *; [discriminate Hnn |].
        exists l. apply strict_eq_obj in Hhit. by subst.
      + by eapply validate_cached. }
  destruct Hl as (l & -> & Hc). exists l. split; [done |]. split; [done |].
  intros again s0 Hs0. by apply validateConfig_hit.
Qed.

(** C1, as the specification states it, fails: the cache holds the
    validated copy, not the input.  Two calls on the same user configuration
    (object 1, whose [hashedFileNameLength] is 3) validate twice; the second
    call returns another object and, again, a diagnostic. *)
Lemma C1_same_raw_input_is_validated_again :
  ¬ (∀ c1 ds1 s1 c2 ds2 s2,
       validateConfig Samples.quietCollaborators (VObj 1) (VObj 6) Samples.configState
         = Ok ((c1, ds1), s1) →
       validateConfig Samples.quietCollaborators (VObj 1) (VObj 6) s1
         = Ok ((c2, ds2), s2) →
       c2 = c1 ∧ ds2 = []).
Proof.
  intros Hclaim.
  destruct (validateConfig Samples.quietCollaborators (VObj 1) (VObj 6) Samples.configState)
    as [[[c1 ds1] s1] | e] eqn:H1; [| vm_compute in H1; discriminate H1].
  destruct (validateConfig Samples.quietCollaborators (VObj 1) (VObj 6) s1)
    as [[[c2 ds2] s2] | e] eqn:H2.
  - destruct (Hclaim _ _ _ _ _ _ eq_refl H2) as [_ Hds].
    vm_compute in H1. injection H1 as [= <- <- <-].
    vm_compute in H2. injection H2 as [= <- <- <-]. discriminate Hds.
  - vm_compute in H1. injection H1 as [= <- <- <-]. vm_compute in H2. discriminate H2.
Qed.

Lemma C1_cached_config_is_returned_witness :
  ∃ c ds s',
    validateConfig Samples.quietCollaborators (VObj 1) (VObj 6) Samples.configState
      = Ok ((c, ds), s')
    ∧ validateConfig Samples.quietCollaborators c (VObj 6) s' = Ok ((c, []), s').
Proof.
  destruct (validateConfig Samples.quietCollaborators (VObj 1) (VObj 6) Samples.configState)
    as [[[c ds] s'] | e] eqn:Hrun; [| vm_compute in Hrun; discriminate Hrun].
  destruct (C1_cached_config_is_returned Samples.quietCollaborators (VObj 1) (VObj 6)
              Samples.configState s' c ds)
    as (l & -> & Hcache & Hagain); [by left | exact Hrun |].
  exists (VObj l), ds, s'. split; [reflexivity |]. by apply Hagain.
Defined.

(** C3: in a validation that is not answered from the cache, with
    collaborators that leave [hashedFileNameLength] alone and only add to the
    diagnostics: on a well-formed input the validation returns; whenever it
    returns, the returned configuration holds the user's
    [hashedFileNameLength] when it is a number, out of range or not, and 8
    otherwise, and the diagnostics start with those of the two range checks
    and are exactly those when the collaborators report nothing.  The checks
    give nothing for a value that is not a number, nothing for a number from
    4 to 32 (4 and 32 included), one error for a number below 4 and one
    error for a number above 32. *)
Theorem C3_hashedFileNameLength (E : Collaborators) (u : loc) (bootstrapConfig : value)
    (s : state) :
  respects ["hashedFileNameLength"] (λ _, False) E →
  appends E →
  CACHED_VALIDATED_CONFIG s ≠ VObj u →
  let given := field (heap_of s) u "hashedFileNameLength" in
  let kept := if isNumber given then given else VNum DEFAULT_HASHED_FILENAME_LENTH in
  let n := number_of kept in
  (well_formed E (heap_of s) u bootstrapConfig →
   ∃ c ds s', validateConfig E (VObj u) bootstrapConfig s = Ok ((c, ds), s'))
  ∧ (∀ c ds s',
       validateConfig E (VObj u) bootstrapConfig s = Ok ((c, ds), s') →
       ∃ vc more,
         c = VObj vc
         ∧ field (heap_of s') vc "hashedFileNameLength" = kept
         ∧ ds = length_errors n ++ more
         ∧ (silent E → more = []))
  ∧ (isNumber given = false → kept = VNum (num_of_Z 8) ∧ length_errors n = [])
  ∧ (num_lt n MIN_HASHED_FILENAME_LENTH = true →
     length_errors n =
       [mkDiagnostic "error"
          "validatedConfig.hashedFileNameLength must be at least 4 characters"])
  ∧ (num_gt n MAX_HASHED_FILENAME_LENTH = true →
     length_errors n =
       [mkDiagnostic "error"
          "validatedConfig.hashedFileNameLength cannot be more than 32 characters"])
  ∧ (num_lt n MIN_HASHED_FILENAME_LENTH = false →
     num_gt n MAX_HASHED_FILENAME_LENTH = false → length_errors n = [])
  ∧ length_errors (num_of_Z 4) = []
  ∧ length_errors (num_of_Z 32) = []
  ∧ length (length_errors (num_of_Z 3)) = 1%nat
  ∧ length (length_errors (num_of_Z 33)) = 1%nat.
Proof.
  intros HE HA Hmiss given kept n.
  split; [apply validateConfig_returns |].
  split; [intros c ds s' Hrun; by eapply validateConfig_hashedFileNameLength |].
  split.
  { intros Hn. subst n kept. rewrite Hn. by split. }
  destruct (length_errors_cases n) as (Hlow & Hhigh & Hin).
  by repeat split.
Qed.

Lemma C3_hashedFileNameLength_witness :
  ∃ vc s',
    validateConfig Samples.quietCollaborators (VObj 1) (VObj 6) Samples.configState
      = Ok ((VObj vc,
             [mkDiagnostic "error"
                "validatedConfig.hashedFileNameLength must be at least 4 characters"]),
            s')
    ∧ field (heap_of Samples.configState) 1 "hashedFileNameLength" = VNum (num_of_Z 3)
    ∧ field (heap_of s') vc "hashedFileNameLength" = VNum (num_of_Z 3).
Proof.
  destruct (C3_hashedFileNameLength Samples.quietCollaborators 1%positive (VObj 6)
              Samples.configState (quiet_respects _ _) quiet_appends)
    as (Hreturns & Hkept & _); [discriminate |].
  destruct (Hreturns quiet_well_formed) as (c & ds & s' & Hrun).
  destruct (Hkept c ds s' Hrun) as (vc & more & -> & Hfield & -> & Hquiet).
  rewrite (Hquiet quiet_silent) in Hrun. exists vc, s'.
  split; [exact Hrun |]. split; [reflexivity | exact Hfield].
Defined.

(** C4 does not hold of the code: [scopedSlotTextContentFix] is the one
    flag of [extras] that is not coerced.  On a configuration without
    [extras] the eight other flags come out [false], and
    [scopedSlotTextContentFix] stays absent. *)
Theorem C4_scopedSlotTextContentFix_is_not_coerced :
  ∃ vc e s',
    validateConfig Samples.quietCollaborators (VObj 6) (VObj 6) Samples.configState
      = Ok ((VObj vc, []), s')
    ∧ field (heap_of Samples.configState) 6 "extras" = VUndef
    ∧ field (heap_of s') vc "extras" = VObj e
    ∧ field (heap_of s') e "appendChildSlotFix" = VBool false
    ∧ field (heap_of s') e "cloneNodeFix" = VBool false
    ∧ field (heap_of s') e "lifecycleDOMEvents" = VBool false
    ∧ field (heap_of s') e "scriptDataOpts" = VBool false
    ∧ field (heap_of s') e "slotChildNodesFix" = VBool false
    ∧ field (heap_of s') e "initializeNextTick" = VBool false
    ∧ field (heap_of s') e "tagNameTransform" = VBool false
    ∧ field (heap_of s') e "experimentalSlotFixes" = VBool false
    ∧ field (heap_of s') e "scopedSlotTextContentFix" = VUndef
    ∧ isBoolean (field (heap_of s') e "scopedSlotTextContentFix") = false.
Proof.
  destruct (validateConfig Samples.quietCollaborators (VObj 6) (VObj 6) Samples.configState)
    as [[[c ds] s'] | e] eqn:Hrun; vm_compute in Hrun; [| discriminate Hrun].
  injection Hrun as [= <- <- <-].
  exists 17%positive, 18%positive. eexists. split; [reflexivity |].
  vm_compute. by repeat split.
Qed.



(** C7: in a validation that is not answered from the cache, of a
    configuration whose [watchIgnoredRegex] and its entries are not
    references to objects that do not exist, with collaborators that leave
    [watchIgnoredRegex] and the elements of the user's array alone: on a
    well-formed input the validation returns; whenever it returns, the
    returned [watchIgnoredRegex] is a new array that holds exactly the
    regular expressions among the entries of the user's value, in their
    order; the entries are the elements of an array, nothing for [null] or
    [undefined], and the value itself otherwise.  So a single regular
    expression gives a one-element array, and a value that is neither an
    array nor a regular expression (a string, or nothing) gives the empty
    array. *)
Theorem C7_watchIgnoredRegex (E : Collaborators) (u : loc) (bootstrapConfig : value)
    (s : state) :
  let h := heap_of s in
  let given := field h u "watchIgnoredRegex" in
  respects ["watchIgnoredRegex"] (λ l, given = VObj l) E →
  CACHED_VALIDATED_CONFIG s ≠ VObj u →
  allocated h given →
  Forall (allocated h) (entries h given) →
  (well_formed E h u bootstrapConfig →
   ∃ c ds s', validateConfig E (VObj u) bootstrapConfig s = Ok ((c, ds), s'))
  ∧ ∀ c ds s',
      validateConfig E (VObj u) bootstrapConfig s = Ok ((c, ds), s') →
      ∃ vc a,
        c = VObj vc
        ∧ field (heap_of s') vc "watchIgnoredRegex" = VObj a
        ∧ heap_of s' !! a = Some (array (List.filter (isRegExp h) (entries h given)))
        ∧ (isRegExp h given = true →
           List.filter (isRegExp h) (entries h given) = [given])
        ∧ (isArray h given = false → isRegExp h given = false →
           List.filter (isRegExp h) (entries h given) = []).
Proof.
  intros h given HE Hmiss Hgiven Hentries.
  split; [apply validateConfig_returns |].
  intros c ds s' Hrun. by eapply validateConfig_watchIgnoredRegex.
Qed.

Lemma C7_watchIgnoredRegex_witness :
  ∃ vc a s' ds,
    validateConfig Samples.quietCollaborators (VObj 1) (VObj 6) Samples.configState
      = Ok ((VObj vc, ds), s')
    ∧ field (heap_of Samples.configState) 1 "watchIgnoredRegex" = VObj 5
    ∧ elems_of (heap_of Samples.configState) (VObj 5) = [VObj 4; VStr "x"; VObj 4]
    ∧ field (heap_of s') vc "watchIgnoredRegex" = VObj a
    ∧ heap_of s' !! a = Some (array [VObj 4; VObj 4]).
Proof.
  destruct (C7_watchIgnoredRegex Samples.quietCollaborators 1%positive (VObj 6)
              Samples.configState (quiet_respects _ _))
    as (Hreturns & Hkept).
  - discriminate.
  - by eexists.
  - repeat constructor; by eexists.
  - destruct (Hreturns quiet_well_formed) as (c & ds & s' & Hrun).
    destruct (Hkept c ds s' Hrun) as (vc & a & -> & Hfield & Harray & _).
    exists vc, a, s', ds. split; [exact Hrun |]. split; [reflexivity |].
    split; [reflexivity |]. split; [exact Hfield | exact Harray].
Defined.

End ValidateClaims.
(* ================================================================== *)
(** * Further properties of the transpile helpers *)
(* ================================================================== *)

Module TranspileExtras.

Import Transpile EnumOptions TranspileViews TranspileFacts HeapFacts.

(** The normalizer returns [null] or a member of the allow-list: every
    default of the table is itself allowed. *)
Lemma normalize_cases (f : EnumOption) (v : value) :
  normalize f v = VNull ∨ normalize f v ∈ validValues f.
Proof.
  unfold normalize, getTranspileConfigOpt.
  destruct (strict_eq v VNull || strict_eq v (VStr "null")); [by left |].
  destruct (isString v) eqn:Hs.
  - destruct v; try discriminate. simpl.
    destruct (Set_has (validValues f) (VStr (trim (toLowerCase s)))) eqn:Hin.
    + right. by apply Set_has_str.
    + destruct f; simpl; (by left) || (right; repeat constructor).
  - destruct (Set_has (validValues f) VNull); [by left |].
    destruct f; simpl; (by left) || (right; repeat constructor).
Qed.

(** The members of an allow-list are already lowercase and trimmed, and
    none of them is the string "null". *)
Lemma normalize_member (f : EnumOption) (v : value) :
  v ∈ validValues f → normalize f v = v.
Proof.
  intros Hin. destruct f; simpl in Hin;
    repeat (apply elem_of_cons in Hin as [-> | Hin]; [reflexivity |]);
    by apply elem_of_nil in Hin.
Qed.

(** [getTranspileCssConfig], run to its end. *)
Lemma getTranspileCssConfig_runs (compileOpts : TranspileOptions.t) (importData : value)
    (results : TranspileResults.t) (s : state) :
  getTranspileCssConfig compileOpts importData results s =
    Ok (TransformCssToEsmInput.mk
          (TranspileResults.inputFilePath results)
          (TranspileResults.code results)
          (and_field (heap_of s) importData "tag")
          (and_field (heap_of s) importData "encapsulation")
          (and_field (heap_of s) importData "mode")
          (negb (strict_eq (TranspileOptions.sourceMap compileOpts) (VBool false)))
          false false false
          (TranspileOptions.module compileOpts)
          (TranspileOptions.styleImportData compileOpts),
        s).
Proof.
  unfold getTranspileCssConfig, bind, reading, ret, and_get, and_field.
  destruct importData as [| | [] | n | str | l0]; try reflexivity.
  - by destruct (truthy (VNum n)).
  - by destruct (truthy (VStr str)).
Qed.

Section Config.

Variable E : Collaborators.

Ltac run_config :=
  unfold getTranspileConfig, bind, read, reading, when, writing, ret, total, new_object;
  simpl.

(** [getTranspileConfig] on an object, run to its end. *)
Lemma getTranspileConfig_runs (l : loc) (s : state) :
  let sys := (resolved_sys E l s).1 in
  let h := (resolved_sys E l s).2 in
  let sourceMap :=
    if strict_eq (field h l "sourceMap") (VStr "inline") then VStr "inline"
    else VBool (negb (strict_eq (field h l "sourceMap") (VBool false))) in
  let coreImportPath :=
    if isString (field h l "coreImportPath") then field h l "coreImportPath"
    else VStr (STENCIL_INTERNAL_CLIENT_ID E) in
  let currentDirectory :=
    if isString (field h l "currentDirectory") then field h l "currentDirectory"
    else getCurrentDirectory E sys in
  let baseUrl := if isString (field h l "baseUrl") then field h l "baseUrl" else VUndef in
  let paths1 := copy_of h (field h l "paths") in
  let paths2 := copy_of paths1.2 paths1.1 in
  getTranspileConfig E (VObj l) s =
    Ok (TranspileConfig.mk
          (TranspileOptions.mk
             (normalize componentExport (field h l "componentExport"))
             (normalize componentMetadata (field h l "componentMetadata"))
             coreImportPath currentDirectory (field h l "file")
             (normalize proxy (field h l "proxy"))
             (normalize module (field h l "module"))
             sourceMap
             (normalize style (field h l "style"))
             (normalize styleImportData (field h l "styleImportData"))
             (normalize target (field h l "target"))
             baseUrl paths1.1)
          (Config.mk true true false true false currentDirectory currentDirectory sys
             (field paths2.2 l "transformAliasedImportPaths")
             (CompilerOptions.mk true true (negb (strict_eq sourceMap (VBool false)))
                true true true true true baseUrl paths2.1)
             false)
          (TransformOptions.mk coreImportPath
             (normalize componentExport (field h l "componentExport"))
             (normalize componentMetadata (field h l "componentMetadata"))
             currentDirectory true
             (normalize module (field h l "module"))
             (normalize proxy (field h l "proxy"))
             (field h l "file")
             (normalize style (field h l "style"))
             (normalize styleImportData (field h l "styleImportData"))
             (normalize target (field h l "target"))),
        mkState paths2.2 sys).
Proof.
  unfold resolved_sys, copy_of. run_config.
  destruct (truthy (field (heap_of s) l "sys")) eqn:Hsys; simpl.
  - destruct (truthy (field (heap_of s) l "paths")); simpl; reflexivity.
  - destruct (truthy (transpileCtx_sys s)) eqn:Hmemo; simpl.
    + destruct (truthy (field (heap_of s) l "paths")); simpl; [reflexivity |].
      by destruct s.
    + destruct (createNodeSys E (heap_of s)) as [sys h1] eqn:Hnew. simpl.
      destruct (truthy (field h1 l "paths")); simpl; reflexivity.
Qed.

End Config.


(** [getTranspileResults] on an object: what it reports and what it leaves
    in the input. *)
Lemma getTranspileResults_runs (E : Collaborators) (code : value) (l : loc) (s : state) :
  ∃ r s1,
    getTranspileResults E code (VObj l) s = Ok (r, s1)
    ∧ isString (TranspileResults.inputFilePath r.2) = true
    ∧ field (heap_of s1) l "file" = TranspileResults.inputFilePath r.2
    ∧ field (heap_of s1) l "sys" = field (heap_of s) l "sys"
    ∧ transpileCtx_sys s1 = transpileCtx_sys s.
Proof.
  destruct (isString (field (heap_of s) l "file")) eqn:Hfile.
  - do 2 eexists. split; [by apply getTranspileResults_named |]. by repeat split.
  - do 2 eexists. split; [by apply getTranspileResults_placeholder |].
    split; [reflexivity |]. split; [apply field_set_field_eq |].
    split; [apply field_set_field_ne; by right | reflexivity].
Qed.

(** X1.  Whatever the input object holds, each of the seven enum-like
    fields of the [compileOpts] that [getTranspileConfig] returns is [null]
    or a member of the field's allow-list; no other string of the caller
    gets through. *)
Theorem X1_enum_fields_in_range (E : Collaborators) (l : loc) (s : state) :
  ∃ r s',
    getTranspileConfig E (VObj l) s = Ok (r, s')
    ∧ ∀ f, resolved f (TranspileConfig.compileOpts r) = VNull
           ∨ resolved f (TranspileConfig.compileOpts r) ∈ validValues f.
Proof.
  do 2 eexists. split; [apply getTranspileConfig_runs |].
  intros []; simpl; apply normalize_cases.
Qed.

(** X2.  The option normalizer is idempotent on each of the seven fields:
    normalizing an already normalized option changes nothing, so resolved
    options can be passed in again. *)
Theorem X2_normalize_idempotent (f : EnumOption) (v : value) :
  normalize f (normalize f v) = normalize f v.
Proof.
  destruct (normalize_cases f v) as [-> | Hin]; [by destruct f |].
  by apply normalize_member.
Qed.

(** X3.  The three source-map switches agree: [compileOpts.sourceMap] is
    ['inline'] or a boolean, the TypeScript option [sourceMap] is [false]
    exactly when the input's [sourceMap] is the boolean [false] (so
    ['inline'] turns it on), and [getTranspileCssConfig], given these
    [compileOpts], computes the same switch. *)
Theorem X3_sourceMap_switches_agree (E : Collaborators) (l : loc) (s : state)
    (importData : value) (results : TranspileResults.t) (s2 : state) :
  let given := field (resolved_sys E l s).2 l "sourceMap" in
  ∃ r s' t,
    getTranspileConfig E (VObj l) s = Ok (r, s')
    ∧ (TranspileOptions.sourceMap (TranspileConfig.compileOpts r) = VStr "inline"
       ∨ TranspileOptions.sourceMap (TranspileConfig.compileOpts r)
         = VBool (negb (strict_eq given (VBool false))))
    ∧ CompilerOptions.sourceMap (Config.tsCompilerOptions (TranspileConfig.config r))
      = negb (strict_eq given (VBool false))
    ∧ getTranspileCssConfig (TranspileConfig.compileOpts r) importData results s2
      = Ok (t, s2)
    ∧ TransformCssToEsmInput.sourceMap t = negb (strict_eq given (VBool false)).
Proof.
  intros given. do 3 eexists. split; [apply getTranspileConfig_runs |].
  fold given. rewrite getTranspileCssConfig_runs.
  assert (Hinline : strict_eq given (VStr "inline") = true →
                    strict_eq given (VBool false) = false)
    by (destruct given as [| | [] | | |]; simpl; congruence).
  split; [| split; [| split; [reflexivity |]]];
    cbn [TranspileConfig.compileOpts TranspileConfig.config
      Config.tsCompilerOptions TranspileOptions.sourceMap CompilerOptions.sourceMap
      TransformCssToEsmInput.sourceMap];
    destruct (strict_eq given (VStr "inline")) eqn:Hi;
    try rewrite (Hinline eq_refl); try (by left); try (by right);
    by destruct (strict_eq given (VBool false)).
Qed.

(** X4.  A call whose input carries no system, on an empty memo, calls the
    factory of the default system once and stores what it returns; if that
    is a system (truthy), every later call without a system hands out the
    same one and does not call the factory again. *)
Theorem X4_default_system_is_created_once (E : Collaborators) (l : loc) (s : state) :
  truthy (field (heap_of s) l "sys") = false →
  truthy (transpileCtx_sys s) = false →
  ∃ r s1,
    getTranspileConfig E (VObj l) s = Ok (r, s1)
    ∧ transpileCtx_sys s1 = (createNodeSys E (heap_of s)).1
    ∧ Config.sys (TranspileConfig.config r) = (createNodeSys E (heap_of s)).1
    ∧ (truthy (createNodeSys E (heap_of s)).1 = true →
       ∀ s2 l2,
         Session.without_sys E s1 s2 →
         truthy (field (heap_of s2) l2 "sys") = false →
         ∃ r2 s3,
           getTranspileConfig E (VObj l2) s2 = Ok (r2, s3)
           ∧ Config.sys (TranspileConfig.config r2) = (createNodeSys E (heap_of s)).1
           ∧ ∀ f, getTranspileConfig (Session.with_createNodeSys f E) (VObj l2) s2
                  = Ok (r2, s3)).
Proof.
  intros Hsys Hmemo. do 2 eexists.
  split; [apply getTranspileConfig_runs |].
  assert (Hres : (resolved_sys E l s).1 = (createNodeSys E (heap_of s)).1)
    by (unfold resolved_sys; by rewrite Hsys, Hmemo).
  cbn [transpileCtx_sys TranspileConfig.config Config.sys].
  split; [exact Hres |]. split; [exact Hres |].
  intros Hnew s2 l2 Hrun Hnone.
  assert (Hkept : transpileCtx_sys s2 = (createNodeSys E (heap_of s)).1).
  { rewrite <- Hres.
    apply (without_sys_memo E) in Hrun; [exact Hrun |]. simpl. by rewrite Hres. }
  destruct (getTranspileConfig_memo E l2 s2 Hnone) as (r2 & s3 & Hcall2 & _ & Hs & Hf).
  { by rewrite Hkept. }
  exists r2, s3. rewrite <- Hkept. by repeat split.
Qed.

Lemma X4_default_system_is_created_once_witness :
  ∃ r s1,
    getTranspileConfig Samples.transpileCollaborators (VObj 3) Samples.transpileState
      = Ok (r, s1)
    ∧ transpileCtx_sys s1 = VObj 4
    ∧ ∃ r2 s3,
        getTranspileConfig Samples.transpileCollaborators (VObj 3) s1 = Ok (r2, s3)
        ∧ Config.sys (TranspileConfig.config r2) = VObj 4.
Proof.
  destruct (X4_default_system_is_created_once Samples.transpileCollaborators 3%positive
              Samples.transpileState)
    as (r & s1 & Hcall & Hmemo & _ & Hlater); [reflexivity | reflexivity |].
  exists r, s1. split; [exact Hcall |]. split; [exact Hmemo |].
  destruct (Hlater eq_refl s1 3%positive (Session.ws_here _ _)) as (r2 & s3 & Hcall2 & Hs & _).
  - pose proof Hcall as Hrun. vm_compute in Hrun. injection Hrun as _ <-. reflexivity.
  - exists r2, s3. split; [exact Hcall2 | exact Hs].
Defined.

(** X5.  A truthy [paths] of the input is copied twice, not shared:
    [compileOpts.paths] and [tsCompilerOptions.paths] are two different
    objects, both new, both plain objects holding the own enumerable
    properties of the input's [paths]; every object that existed is as it
    was. *)
Theorem X5_paths_are_copied (E : Collaborators) (l : loc) (s : state) :
  let h := (resolved_sys E l s).2 in
  truthy (field h l "paths") = true →
  ∃ r s' a b,
    getTranspileConfig E (VObj l) s = Ok (r, s')
    ∧ TranspileOptions.paths (TranspileConfig.compileOpts r) = VObj a
    ∧ CompilerOptions.paths (Config.tsCompilerOptions (TranspileConfig.config r)) = VObj b
    ∧ a ≠ b
    ∧ h !! a = None ∧ h !! b = None
    ∧ heap_of s' !! a = Some (plain (own_enumerable h (field h l "paths")))
    ∧ heap_of s' !! b = Some (plain (own_enumerable h (field h l "paths")))
    ∧ ∀ l0, is_Some (h !! l0) → heap_of s' !! l0 = h !! l0.
Proof.
  intros h Hpaths.
  pose proof (getTranspileConfig_runs E l s) as Hrun. cbv zeta in Hrun.
  fold h in Hrun. unfold copy_of in Hrun. rewrite Hpaths in Hrun.
  set (o := plain (own_enumerable h (field h l "paths"))) in *.
  pose proof (alloc_fresh o h) as Hfa.
  pose proof (alloc_lookup_new o h) as Hna.
  destruct (alloc o h) as [a h1] eqn:Ha.
  cbn [fst snd truthy] in Hrun, Hfa, Hna.
  assert (Hown : own_enumerable h1 (VObj a) = own_enumerable h (field h l "paths")).
  { unfold own_enumerable at 1, obj_at. rewrite Hna. simpl.
    unfold indexed. simpl. by rewrite (right_id_L ∅ (∪)). }
  rewrite Hown in Hrun. fold o in Hrun.
  pose proof (alloc_fresh o h1) as Hfb.
  pose proof (alloc_lookup_new o h1) as Hnb.
  pose proof (λ l0 o0, alloc_lookup_old o0 o h1 l0) as Hold2.
  pose proof (λ l0 o0, alloc_lookup_old o0 o h l0) as Hold1.
  rewrite Ha in Hold1.
  destruct (alloc o h1) as [b h2] eqn:Hb.
  cbn [fst snd] in Hrun, Hfb, Hnb, Hold1, Hold2.
  eexists _, _, a, b. split; [exact Hrun |].
  cbn [TranspileConfig.compileOpts TranspileConfig.config Config.tsCompilerOptions
       TranspileOptions.paths CompilerOptions.paths heap_of].
  assert (Hab : a ≠ b) by (intros ->; congruence).
  split; [done |]. split; [done |]. split; [exact Hab |]. split; [exact Hfa |].
  split; [| split; [| split]].
  - destruct (h !! b) as [ob |] eqn:Hhb; [| done].
    apply Hold1 in Hhb. congruence.
  - by apply Hold2.
  - exact Hnb.
  - intros l0 [o0 Ho]. rewrite Ho. by apply Hold2, Hold1.
Qed.

Lemma X5_paths_are_copied_witness :
  ∃ r s' a b,
    getTranspileConfig Samples.transpileCollaborators (VObj 1) MoreSamples.pathsState
      = Ok (r, s')
    ∧ field (heap_of MoreSamples.pathsState) 1 "paths" = VObj 3
    ∧ TranspileOptions.paths (TranspileConfig.compileOpts r) = VObj a
    ∧ CompilerOptions.paths (Config.tsCompilerOptions (TranspileConfig.config r)) = VObj b
    ∧ a ≠ b ∧ a ≠ 3%positive ∧ b ≠ 3%positive
    ∧ field (heap_of s') a "@app" = VStr "src/app"
    ∧ field (heap_of s') b "@app" = VStr "src/app".
Proof.
  destruct (X5_paths_are_copied Samples.transpileCollaborators 1%positive MoreSamples.pathsState)
    as (r & s' & a & b & Hrun & Ha & Hb & Hab & Hfa & Hfb & Hoa & Hob & _);
    [reflexivity |].
  exists r, s', a, b. split; [exact Hrun |]. split; [reflexivity |].
  split; [exact Ha |]. split; [exact Hb |]. split; [exact Hab |].
  split; [intros ->; vm_compute in Hfa; discriminate |].
  split; [intros ->; vm_compute in Hfb; discriminate |].
  unfold field, obj_at. rewrite Hoa, Hob. split; reflexivity.
Defined.


(** X7.  The two helpers compose: after [getTranspileResults], a call of
    [getTranspileConfig] on the same input that does not have to build the
    default system reports, as [compileOpts.file] and [transformOpts.file],
    the path that [getTranspileResults] reported as [inputFilePath], the
    placeholder included. *)
Theorem X7_config_file_is_results_file (E : Collaborators) (code : value) (l : loc)
    (s : state) :
  truthy (field (heap_of s) l "sys") || truthy (transpileCtx_sys s) = true →
  ∃ r s1 c s2,
    getTranspileResults E code (VObj l) s = Ok (r, s1)
    ∧ getTranspileConfig E (VObj l) s1 = Ok (c, s2)
    ∧ TranspileOptions.file (TranspileConfig.compileOpts c)
      = TranspileResults.inputFilePath r.2
    ∧ TransformOptions.file (TranspileConfig.transformOpts c)
      = TranspileResults.inputFilePath r.2
    ∧ isString (TranspileOptions.file (TranspileConfig.compileOpts c)) = true.
Proof.
  intros Hsys.
  destruct (getTranspileResults_runs E code l s) as (r & s1 & Hrun & Hstr & Hfile & Hsys1 & Hmemo1).
  exists r, s1. do 2 eexists. split; [exact Hrun |].
  split; [apply getTranspileConfig_runs |].
  assert (Hh : (resolved_sys E l s1).2 = heap_of s1).
  { unfold resolved_sys. rewrite Hsys1, Hmemo1.
    destruct (truthy (field (heap_of s) l "sys")); [done |].
    destruct (truthy (transpileCtx_sys s)); [done | discriminate]. }
  cbn [TranspileConfig.compileOpts TranspileConfig.transformOpts TranspileOptions.file
       TransformOptions.file].
  rewrite Hh, Hfile. by repeat split.
Qed.

Lemma X7_config_file_is_results_file_witness :
  ∃ r s1 c s2,
    getTranspileResults Samples.transpileCollaborators VUndef (VObj 1)
      Samples.transpileState = Ok (r, s1)
    ∧ getTranspileConfig Samples.transpileCollaborators (VObj 1) s1 = Ok (c, s2)
    ∧ TranspileOptions.file (TranspileConfig.compileOpts c)
      = TranspileResults.inputFilePath r.2.
Proof.
  destruct (X7_config_file_is_results_file Samples.transpileCollaborators VUndef 1%positive
              Samples.transpileState)
    as (r & s1 & c & s2 & Hrun & Hcfg & Hfile & _); [reflexivity |].
  exists r, s1, c, s2. by repeat split.
Defined.

(** X8.  [getTranspileCssConfig] returns for every [importData], [null]
    and [undefined] included, and changes nothing: a falsy [importData] is
    itself the [tag], [encapsulation] and [mode] of the result, an object
    gives its properties; the path and code come from the results; the
    three style switches are off. *)
Theorem X8_getTranspileCssConfig_total (compileOpts : TranspileOptions.t)
    (importData : value) (results : TranspileResults.t) (s : state) :
  ∃ t,
    getTranspileCssConfig compileOpts importData results s = Ok (t, s)
    ∧ TransformCssToEsmInput.file t = TranspileResults.inputFilePath results
    ∧ TransformCssToEsmInput.input t = TranspileResults.code results
    ∧ TransformCssToEsmInput.tag t = and_field (heap_of s) importData "tag"
    ∧ TransformCssToEsmInput.encapsulation t
      = and_field (heap_of s) importData "encapsulation"
    ∧ TransformCssToEsmInput.mode t = and_field (heap_of s) importData "mode"
    ∧ TransformCssToEsmInput.commentOriginalSelector t = false
    ∧ TransformCssToEsmInput.minify t = false
    ∧ TransformCssToEsmInput.autoprefixer t = false
    ∧ TransformCssToEsmInput.module t = TranspileOptions.module compileOpts
    ∧ TransformCssToEsmInput.styleImportData t
      = TranspileOptions.styleImportData compileOpts.
Proof.
  eexists. split; [apply getTranspileCssConfig_runs |]. by repeat split.
Qed.

(** X9.  On a missing input, [null] or [undefined], both helpers throw on
    their first read of the input; [getTranspileConfig] throws before it
    reaches the factory of the default system, so the call throws the same
    under every factory. *)
Theorem X9_missing_input_throws (E : Collaborators) (code input : value) (s : state) :
  is_nullish input = true →
  (∃ e, getTranspileResults E code input s = Throw e)
  ∧ ∃ e, ∀ f, getTranspileConfig (Session.with_createNodeSys f E) input s = Throw e.
Proof.
  intros Hnull. destruct input; try discriminate; split; eexists; try intros f; reflexivity.
Qed.

Lemma X9_missing_input_throws_witness :
  (∃ e, getTranspileResults Samples.transpileCollaborators (VStr "code") VUndef
          Samples.transpileState = Throw e)
  ∧ ∃ e, ∀ f, getTranspileConfig (Session.with_createNodeSys f Samples.transpileCollaborators)
                VUndef Samples.transpileState = Throw e.
Proof.
  apply (X9_missing_input_throws Samples.transpileCollaborators (VStr "code") VUndef
           Samples.transpileState).
  reflexivity.
Defined.

(** X17.  [getTranspileConfig] writes to no object that exists: apart from
    what the factory of the default system does when it has to be called,
    every object, the input included, is after the call as it was before;
    the call only adds the copies of [paths].  The input is changed by
    [getTranspileResults] alone. *)
Theorem X17_getTranspileConfig_keeps_objects (E : Collaborators) (l : loc) (s : state) :
  let h := (resolved_sys E l s).2 in
  ∃ r s',
    getTranspileConfig E (VObj l) s = Ok (r, s')
    ∧ (∀ l0, is_Some (h !! l0) → heap_of s' !! l0 = h !! l0)
    ∧ (if truthy (field (heap_of s) l "sys") || truthy (transpileCtx_sys s)
       then h = heap_of s else h = (createNodeSys E (heap_of s)).2)
    ∧ (truthy (field h l "paths") = false → heap_of s' = h).
Proof.
  intros h. do 2 eexists. split; [apply getTranspileConfig_runs |].
  fold h. cbn [heap_of].
  assert (Hcopy : ∀ g v l0, is_Some (g !! l0) → (copy_of g v).2 !! l0 = g !! l0).
  { intros g v l0 [o Ho]. unfold copy_of. destruct (truthy v); [| done].
    pose proof (alloc_lookup_old o (plain (own_enumerable g v)) g l0 Ho) as Hold.
    destruct (alloc _ g). simpl in *. congruence. }
  split; [| split].
  - intros l0 Hl0. rewrite Hcopy; [by apply Hcopy |]. by rewrite Hcopy.
  - subst h. unfold resolved_sys.
    destruct (truthy (field (heap_of s) l "sys")); [done |].
    by destruct (truthy (transpileCtx_sys s)).
  - intros Hpaths. unfold copy_of. by rewrite Hpaths.
Qed.

End TranspileExtras.
(* ================================================================== *)
(** * Further properties of the validation *)
(* ================================================================== *)

Module ValidateExtraFacts.

Import ValidateConfig Contracts MoreContracts HeapFacts StepFacts.

(** ** Names that a list of names lacks *)

Lemma absent_spec (k : string) (P : list string) : absent k P = true → k ∉ P.
Proof.
  unfold absent. rewrite forallb_forall. intros H Hin.
  apply list_elem_of_In, H in Hin. by rewrite String.eqb_refl in Hin.
Qed.

Lemma disjoint_spec (ks P : list string) :
  disjoint ks P = true → Forall (λ k, k ∉ P) ks.
Proof.
  unfold disjoint. rewrite forallb_forall. intros H. apply Forall_forall.
  intros k Hk. apply absent_spec, H. by apply list_elem_of_In.
Qed.


Ltac lacks :=
  first [ apply absent_spec; vm_compute; reflexivity
        | apply disjoint_spec; vm_compute; reflexivity ].

(** ** New objects *)

Lemma returns_new_bind {A} (m : M state A) (k : A → M state loc) :
  keeps [] (λ _, False) m → (∀ a, returns_new (k a)) → returns_new (bind m k).
Proof.
  intros Hm Hk s l s' Hrun.
  apply bind_Ok in Hrun as (a & s1 & H1 & H2).
  apply Hm in H1 as [F _]. apply Hk in H2.
  destruct (heap_of s !! l) as [o |] eqn:Hl; [| done].
  destruct (F l o Hl) as (o' & Ho' & _). congruence.
Qed.

Lemma returns_new_new_loc (o : object) : returns_new (new_loc o).
Proof.
  intros s l s'. unfold new_loc, total.
  pose proof (alloc_fresh o (heap_of s)) as Hfresh.
  destruct (alloc o (heap_of s)) as [l0 h0]. intros [= <- <-]. exact Hfresh.
Qed.

Lemma assemble_new (E : Collaborators) (userConfig bootstrapConfig : value) :
  keeps_objects E → returns_new (assemble E userConfig bootstrapConfig).
Proof.
  intros HE. unfold assemble.
  repeat first
    [ apply returns_new_new_loc
    | apply returns_new_bind; [| intros ?]
    | apply keeps_resolveLogger | apply keeps_cloneFlags | apply keeps_resolveSys
    | apply keeps_nullish_else_new | keeps_step ];
    try exact HE; intros h; apply HE.
Qed.

(** ** The clone of the flags *)




(** ** Reads of a value that need not be an object *)

Lemma bind_get {B} (v : value) (k : string) (f : value → M state B) (s : state) :
  bind (read v k) f s
  = match get (heap_of s) v k with Ok x => f x s | Throw e => Throw e end.
Proof. unfold bind, read, reading. by destruct (get _ _ _). Qed.

(** ** [devMode] *)

Lemma resolved_devMode_boolean (prod dev devMode : value) :
  isBoolean (resolved_devMode prod dev devMode) = true.
Proof.
  unfold resolved_devMode.
  destruct (truthy prod); [done |]. destruct (truthy dev); [done |].
  by destruct (isBoolean devMode) eqn:Hb.
Qed.

Lemma resolveDevMode_boolean (vc : loc) (s s' : state) :
  resolveDevMode (VObj vc) s = Ok (tt, s') →
  isBoolean (field (heap_of s') vc "devMode") = true.
Proof.
  intros Hrun.
  destruct (field (heap_of s) vc "flags") as [| | b | n | str | f] eqn:Hflags.
  6: { destruct (resolveDevMode_runs vc f s Hflags) as (s2 & H2 & Hdm).
       rewrite Hrun in H2. injection H2 as [= <-]. rewrite Hdm.
       apply resolved_devMode_boolean. }
  all: unfold resolveDevMode in Hrun; rewrite bind_read, Hflags, bind_get in Hrun;
    cbn [get truthy] in Hrun; try discriminate;
    rewrite bind_read, Hflags, bind_get in Hrun; cbn [get truthy] in Hrun;
    rewrite bind_read in Hrun;
    destruct (isBoolean (field (heap_of s) vc "devMode")) eqn:Hb; cbn [negb when] in Hrun.
  all: try (injection Hrun as [= <-]; exact Hb).
  all: unfold assign, writing in Hrun; cbn in Hrun; injection Hrun as [= <-];
    cbn [heap_of]; by rewrite field_set_field_eq.
Qed.

(** ** [buildEs5] *)

Lemma resolveBooleans_buildEs5 (vc : loc) (s s' : state) :
  is_Some (heap_of s !! vc) →
  resolveBooleans vc s = Ok (tt, s') →
  let h := heap_of s in
  field (heap_of s') vc "buildEs5"
    = resolved_buildEs5 (field h vc "buildEs5") (field h vc "devMode")
  ∧ field (heap_of s') vc "devMode" = field h vc "devMode".
Proof.
  intros Hvc Hrun h. unfold resolveBooleans in Hrun. cbv zeta in Hrun.
  rewrite !bind_read, bind_assign in Hrun. cbn [heap_of CACHED_VALIDATED_CONFIG] in Hrun.
  fold h in Hrun.
  match type of Hrun with
  | ?m ?st = Ok _ =>
      assert (Hk : keeps ["buildEs5"; "devMode"] (λ _, False) m)
        by (repeat first [apply keeps_setBooleanConfig | keeps_step]; unwritten);
      apply Hk in Hrun as [F _]
  end.
  cbn [heap_of] in F.
  assert (Hvc1 : is_Some (set_field vc "buildEs5"
            (VBool (strict_eq (field h vc "buildEs5") (VBool true)
                    || negb (truthy (field h vc "devMode"))
                       && strict_eq (field h vc "buildEs5") (VStr "prod"))) h !! vc))
    by by apply set_field_allocated.
  split.
  - rewrite (frames_field _ _ _ _ vc "buildEs5" F Hvc1) by apply list_elem_of_here.
    by rewrite field_set_field_eq.
  - rewrite (frames_field _ _ _ _ vc "devMode" F Hvc1)
      by (apply list_elem_of_further, list_elem_of_here).
    apply field_set_field_ne. by right.
Qed.

(** ** The task queue, the hashing and [env] *)

Lemma when_heap (b : bool) (m : M state unit) (s s' : state) (f : heap → heap) :
  (∀ s0 s1, m s0 = Ok (tt, s1) → heap_of s1 = f (heap_of s0)) →
  when b m s = Ok (tt, s') →
  heap_of s' = if b then f (heap_of s) else heap_of s.
Proof.
  intros Hm. destruct b; cbn [when]; [apply Hm |].
  unfold ret. by intros [= <-].
Qed.

Lemma field_default_ne (b : bool) (l : loc) (k k' : string) (v : value) (g : heap) :
  k ≠ k' → field (if b then set_field l k v g else g) l k' = field g l k'.
Proof. intros Hk. destruct b; [| done]. apply field_set_field_ne. by right. Qed.

Lemma field_default_eq (b : bool) (l : loc) (k : string) (v : value) (g : heap) :
  field (if b then set_field l k v g else g) l k = if b then v else field g l k.
Proof. destruct b; [| done]. apply field_set_field_eq. Qed.

Lemma default_allocated (b : bool) (l : loc) (k : string) (v : value) (g : heap) :
  is_Some (g !! l) → is_Some ((if b then set_field l k v g else g) !! l).
Proof. intros Hl. destruct b; [| done]. by apply set_field_allocated. Qed.

Lemma resolveHashing_fields (vc : loc) (ds ds' : list Diagnostic) (s s' : state) :
  is_Some (heap_of s !! vc) →
  resolveHashing (VObj vc) ds s = Ok (ds', s') →
  let h := heap_of s in
  field (heap_of s') vc "taskQueue"
    = (if isString (field h vc "taskQueue") then field h vc "taskQueue" else VStr "async")
  ∧ field (heap_of s') vc "hashFileNames"
    = (if isBoolean (field h vc "hashFileNames") then field h vc "hashFileNames"
       else VBool (negb (truthy (field h vc "devMode"))))
  ∧ isNumber (field (heap_of s') vc "hashedFileNameLength") = true
  ∧ truthy (field (heap_of s') vc "env") = true
  ∧ (truthy (field h vc "env") = true → field (heap_of s') vc "env" = field h vc "env")
  ∧ field (heap_of s') vc "devMode" = field h vc "devMode".
Proof.
  intros Hvc Hrun h. unfold resolveHashing in Hrun.
  rewrite bind_read in Hrun. fold h in Hrun.
  apply bind_Ok in Hrun as ([] & sa & Ha & Hrun).
  apply (when_heap _ _ _ _ (set_field vc "taskQueue" (VStr "async"))) in Ha.
  2: { intros s0 s1. unfold assign, writing. cbn. by intros [= <-]. }
  fold h in Ha.
  rewrite bind_read in Hrun.
  apply bind_Ok in Hrun as ([] & sb & Hb & Hrun).
  apply (when_heap _ _ _ _
           (λ g, set_field vc "hashFileNames" (VBool (negb (truthy (field g vc "devMode")))) g))
    in Hb.
  2: { intros s0 s1. rewrite bind_read. unfold assign, writing. cbn. by intros [= <-]. }
  rewrite bind_read in Hrun.
  apply bind_Ok in Hrun as ([] & sc & Hc & Hrun).
  apply (when_heap _ _ _ _
           (set_field vc "hashedFileNameLength" (VNum DEFAULT_HASHED_FILENAME_LENTH))) in Hc.
  2: { intros s0 s1. unfold assign, writing. cbn. by intros [= <-]. }
  rewrite !bind_read in Hrun.
  apply bind_Ok in Hrun as ([] & sd & Hd & Hrun).
  apply (when_heap _ _ _ _
           (λ g, set_field vc "env" (VObj (alloc (plain ∅) g).1) (alloc (plain ∅) g).2))
    in Hd.
  2: { intros s0 s1. rewrite bind_new_object. unfold assign, writing. cbn. by intros [= <-]. }
  unfold ret in Hrun. injection Hrun as [= _ <-].
  cbv beta in Hb, Hd.
  set (ha := heap_of sa) in *. set (hb := heap_of sb) in *. set (hc := heap_of sc) in *.
  set (hd := heap_of sd) in *.
  assert (Aa : is_Some (ha !! vc)) by (rewrite Ha; by apply default_allocated).
  assert (Ab : is_Some (hb !! vc)) by (rewrite Hb; by apply default_allocated).
  assert (Ac : is_Some (hc !! vc)) by (rewrite Hc; by apply default_allocated).
  assert (Ea : ∀ k, k ≠ "taskQueue" → field ha vc k = field h vc k)
    by (intros k Hk; rewrite Ha; by apply field_default_ne).
  assert (Eb : ∀ k, k ≠ "hashFileNames" → field hb vc k = field ha vc k)
    by (intros k Hk; rewrite Hb; by apply field_default_ne).
  assert (Ec : ∀ k, k ≠ "hashedFileNameLength" → field hc vc k = field hb vc k)
    by (intros k Hk; rewrite Hc; by apply field_default_ne).
  assert (Ed : ∀ k, k ≠ "env" → field hd vc k = field hc vc k).
  { intros k Hk. rewrite Hd. destruct (negb (truthy (field hc vc "env"))); [| done].
    rewrite field_set_field_ne by by right. by apply field_alloc_old. }
  repeat split.
  - rewrite Ed, Ec, Eb by done. rewrite Ha, field_default_eq.
    by destruct (isString (field h vc "taskQueue")).
  - rewrite Ed, Ec by done. rewrite Hb, field_default_eq, !Ea by done.
    by destruct (isBoolean (field h vc "hashFileNames")).
  - rewrite Ed by done. rewrite Hc, field_default_eq.
    by destruct (isNumber (field hb vc "hashedFileNameLength")) eqn:HL.
  - rewrite Hd. destruct (truthy (field hc vc "env")) eqn:HE; cbn [negb]; [done |].
    by rewrite field_set_field_eq.
  - intros HE. rewrite Hd, Ec, Eb, Ea by done. rewrite HE. cbn [negb].
    by rewrite Ec, Eb, Ea.
  - by rewrite Ed, Ec, Eb, Ea.
Qed.

(** ** The bundles *)

Lemma sortBundles_array (vc : loc) (s s' : state) :
  is_Some (heap_of s !! vc) →
  sortBundles (VObj vc) s = Ok (tt, s') →
  let h := heap_of s in
  ∃ a xs,
    field (heap_of s') vc "bundles" = VObj a
    ∧ h !! a = None
    ∧ heap_of s' !! a = Some (array xs)
    ∧ (isArray h (field h vc "bundles") = false → xs = []).
Proof.
  intros Hvc Hrun h. unfold sortBundles in Hrun.
  rewrite bind_read, bind_on_heap in Hrun. fold h in Hrun.
  assert (Hfin : ∀ xs,
            bind (new_object (array xs)) (λ sorted, assign (VObj vc) "bundles" sorted) s
              = Ok (tt, s') →
            ∃ a, field (heap_of s') vc "bundles" = VObj a
                 ∧ h !! a = None ∧ heap_of s' !! a = Some (array xs)).
  { intros xs Hxs. rewrite bind_new_object in Hxs. fold h in Hxs.
    unfold assign, writing in Hxs. cbn in Hxs. injection Hxs as [= <-]. cbn [heap_of].
    exists (alloc (array xs) h).1. split; [apply field_set_field_eq |].
    split; [apply alloc_fresh |].
    rewrite lookup_set_field_ne by by apply alloc_ne. apply alloc_lookup_new. }
  destruct (isArray h (field h vc "bundles")) eqn:Harr.
  - unfold bind at 1, reading in Hrun.
    destruct (sortBy _ _) as [sorted | e]; [| discriminate].
    destruct (Hfin sorted Hrun) as (a & H1 & H2 & H3).
    exists a, sorted. by repeat split.
  - destruct (Hfin [] Hrun) as (a & H1 & H2 & H3).
    exists a, []. by repeat split.
Qed.

(** ** The extras *)

Lemma normalizeExtras_object (vc : loc) (s s' : state) :
  is_Some (heap_of s !! vc) →
  normalizeExtras (VObj vc) s = Ok (tt, s') →
  ∃ e, field (heap_of s') vc "extras" = VObj e.
Proof.
  intros Hvc Hrun.
  destruct (field (heap_of s) vc "extras") as [| | b | n | str | e] eqn:HX.
  6: { destruct (normalizeExtras_runs vc e s HX) as (s2 & H2 & He & _).
       rewrite Hrun in H2. injection H2 as [= <-]. by exists e. }
  all: unfold normalizeExtras in Hrun; rewrite bind_read, HX in Hrun.
  all: match type of Hrun with
       | context [if truthy ?v then _ else _] => destruct (truthy v) eqn:Ht
       end.
  all: try discriminate Ht.
  all: try (rewrite bind_ret, bind_assign in Hrun; unfold coerceExtra at 1 in Hrun;
            repeat first [rewrite bind_bind in Hrun | rewrite bind_read in Hrun];
            cbn [heap_of] in Hrun; rewrite field_set_field_eq in Hrun;
            repeat first [rewrite bind_bind in Hrun | rewrite bind_get in Hrun];
            cbn [get] in Hrun; unfold bind, assign, writing in Hrun; cbn in Hrun;
            discriminate Hrun).
  all: rewrite bind_new_object, bind_assign in Hrun;
    cbn [heap_of CACHED_VALIDATED_CONFIG] in Hrun;
    match type of Hrun with
    | ?m ?st = Ok _ =>
        assert (Hk : keeps ["extras"] (λ _, False) m)
          by (repeat first [apply keeps_coerceExtra | apply keeps_forceExtra | keeps_step];
              unwritten);
        apply Hk in Hrun as [F _]
    end;
    cbn [heap_of] in F;
    eexists;
    erewrite (frames_field _ _ _ _ vc "extras" F);
      [apply field_set_field_eq
      | by apply set_field_allocated, alloc_allocated
      | apply list_elem_of_here].
Qed.

Lemma normalizeExtras_needs_object (vc : loc) (s s' : state) :
  normalizeExtras (VObj vc) s = Ok (tt, s') →
  truthy (field (heap_of s) vc "extras") = true →
  ∃ e, field (heap_of s) vc "extras" = VObj e.
Proof.
  intros Hrun Ht.
  destruct (field (heap_of s) vc "extras") as [| | b | n | str | e] eqn:HX;
    try discriminate Ht; [| | | by exists e].
  all: unfold normalizeExtras in Hrun; rewrite bind_read, HX, Ht in Hrun;
    rewrite bind_ret, bind_assign in Hrun; unfold coerceExtra at 1 in Hrun;
    repeat first [rewrite bind_bind in Hrun | rewrite bind_read in Hrun];
    cbn [heap_of] in Hrun; rewrite field_set_field_eq in Hrun;
    repeat first [rewrite bind_bind in Hrun | rewrite bind_get in Hrun];
    cbn [get] in Hrun; unfold bind, assign, writing in Hrun; cbn in Hrun;
    discriminate Hrun.
Qed.

(** ** The object literal: the logger, the system and the two defaults *)

Section Defaults.

Variables (P : list string) (R : loc → Prop) (E : Collaborators).
Hypothesis HE : respects P R E.

Lemma assemble_defaults (u b : loc) (s s1 : state) (vc : loc) :
  let h := heap_of s in
  assemble E (VObj u) (VObj b) s = Ok (vc, s1) →
  is_Some (h !! u) → is_Some (h !! b) →
  is_Some (heap_of s1 !! vc)
  ∧ ("logger" ∈ P →
     ∀ x, given_logger (field h b "logger") (field h u "logger") = Some x →
          field (heap_of s1) vc "logger" = x)
  ∧ ("sys" ∈ P →
     ∀ x, given_sys (field h u "sys") (field h b "sys") = Some x →
          field (heap_of s1) vc "sys" = x)
  ∧ ("transformAliasedImportPaths" ∈ P →
     field (heap_of s1) vc "transformAliasedImportPaths"
     = (if isBoolean (field h u "transformAliasedImportPaths")
        then field h u "transformAliasedImportPaths" else VBool true))
  ∧ ("validatePrimaryPackageOutputTarget" ∈ P →
     field (heap_of s1) vc "validatePrimaryPackageOutputTarget"
     = nullish_else (field h u "validatePrimaryPackageOutputTarget") (VBool false)).
Proof.
  intros h Hrun Hu Hb.
  unfold assemble in Hrun.
  apply bind_Ok in Hrun as (copied & sa & Ha & Hrun).
  unfold on_heap, reading in Ha. injection Ha as [= <- <-].
  apply bind_Ok in Hrun as (config & sb & Hsb & Hrun).
  unfold new_object, new_loc, bind, total, ret in Hsb.
  pose proof (alloc_lookup_new (plain (own_enumerable h (VObj u))) h) as Hcl.
  pose proof (frames_alloc P R (plain (own_enumerable h (VObj u))) h) as Fb.
  match type of Hsb with
  | context [alloc ?o ?h0] => change (alloc o h0) with
      (alloc (plain (own_enumerable h (VObj u))) h) in Hsb
  end.
  destruct (alloc (plain (own_enumerable h (VObj u))) h) as [cl hb] eqn:Halloc.
  simpl in Hcl, Fb. injection Hsb as [= <- <-].
  assert (Hcopy : ∀ k, is_name k = true → field hb cl k = field h u k).
  { intros k Hk. rewrite (field_lookup _ _ _ _ Hcl). unfold prop. simpl.
    by apply own_enumerable_name. }
  apply bind_Ok in Hrun as (logger & sc & Hc & Hrun).
  assert (Hlogger : ∀ x, given_logger (field h b "logger") (field h u "logger") = Some x →
                         logger = x).
  { intros x Hx. unfold given_logger in Hx. unfold resolveLogger in Hc.
    rewrite bind_read in Hc. cbn [heap_of] in Hc.
    assert (Hbl : field hb b "logger" = field h b "logger").
    { destruct Hb as [ob Hob]. destruct (Fb b ob Hob) as (ob' & Hob' & _ & _).
      pose proof (alloc_lookup_old ob (plain (own_enumerable h (VObj u))) h b Hob) as Hold.
      rewrite Halloc in Hold. simpl in Hold.
      by rewrite (field_lookup _ _ _ _ Hold), (field_lookup _ _ _ _ Hob). }
    rewrite Hbl in Hc.
    destruct (truthy (field h b "logger")).
    - unfold ret in Hc. congruence.
    - rewrite bind_read in Hc. cbn [heap_of] in Hc. rewrite Hcopy in Hc by done.
      destruct (truthy (field h u "logger")); [| discriminate].
      unfold ret in Hc. congruence. }
  apply (keeps_resolveLogger P R E HE) in Hc as [Fc _]. cbn [heap_of] in Fc.
  apply bind_Ok in Hrun as (devServer & sd & Hd & Hrun).
  apply (keeps_new_object P R) in Hd as [Fd _].
  apply bind_Ok in Hrun as (spread_config & se & He & Hrun).
  unfold on_heap, reading in He. injection He as [= <- <-].
  apply bind_Ok in Hrun as (flags & sf & Hf & Hrun).
  apply (keeps_cloneFlags P R) in Hf as [Ff _].
  apply bind_Ok in Hrun as (hydratedFlag & sg & Hg & Hrun).
  apply (keeps_call P R) in Hg as [Fg _]; [| intros h0; apply HE].
  apply bind_Ok in Hrun as (config_outputTargets & sh & Hh & Hrun).
  apply (keeps_read P R) in Hh as [Fh _].
  apply bind_Ok in Hrun as (outputTargets & si & Hi & Hrun).
  apply (keeps_nullish_else_new P R) in Hi as [Fi _].
  apply bind_Ok in Hrun as (rollupConfig & sj & Hj & Hrun).
  apply (keeps_call P R) in Hj as [Fj _]; [| intros h0; apply HE].
  assert (Fbj : frames P R hb (heap_of sj)).
  { repeat (eapply frames_trans; [eassumption |]). apply frames_refl. }
  assert (F0j : frames P R h (heap_of sj)) by exact (frames_trans _ _ _ _ _ Fb Fbj).
  apply bind_Ok in Hrun as (sys & sk & Hk & Hrun).
  assert (Hsys : "sys" ∈ P →
                 ∀ x, given_sys (field h u "sys") (field h b "sys") = Some x → sys = x).
  { intros HPs x Hx. unfold given_sys in Hx. unfold resolveSys in Hk.
    rewrite bind_read in Hk.
    rewrite (frames_field P R hb (heap_of sj) cl "sys" Fbj) in Hk by (done || by eexists).
    rewrite Hcopy in Hk by done.
    destruct (negb (is_nullish (field h u "sys"))).
    - unfold ret in Hk. congruence.
    - rewrite bind_read in Hk.
      rewrite (frames_field P R h (heap_of sj) b "sys" F0j Hb HPs) in Hk.
      destruct (negb (is_nullish (field h b "sys"))); [| discriminate].
      unfold ret in Hk. congruence. }
  apply (keeps_resolveSys P R E HE) in Hk as [Fk _].
  apply bind_Ok in Hrun as (config_testing & sl & Hl & Hrun).
  apply (keeps_read P R) in Hl as [Fl _].
  apply bind_Ok in Hrun as (testing & sm & Hm & Hrun).
  apply (keeps_nullish_else_new P R) in Hm as [Fm _].
  assert (F0m : frames P R h (heap_of sm)).
  { eapply frames_trans; [exact F0j |].
    repeat (eapply frames_trans; [eassumption |]). apply frames_refl. }
  rewrite !bind_read in Hrun.
  apply bind_Ok in Hrun as (paths & sp & Hp & Hrun).
  rewrite bind_on_heap in Hrun.
  unfold call, total in Hp.
  pose proof (respects_paths P R E HE (VObj cl) (heap_of sm)) as Hlack.
  destruct (validatePaths E (VObj cl) (heap_of sm)) as [paths' hp] eqn:Hpaths.
  simpl in Hp. injection Hp as [= <- <-]. simpl in Hlack.
  unfold new_loc, total in Hrun.
  match type of Hrun with
  | context [alloc ?o ?h0] =>
      pose proof (alloc_lookup_new o h0) as Hnew; destruct (alloc o h0) as [l hl]
  end.
  injection Hrun as [= <- <-]. simpl in Hnew. cbn [heap_of].
  split; [by eexists |].
  rewrite !(field_lookup _ _ _ _ Hnew). unfold prop. cbn [props plain].
  repeat split.
  - intros HPl x Hx. rewrite (Hlogger x Hx).
    rewrite lookup_union_r by by apply Hlack.
    rewrite !lookup_insert_ne by discriminate. by rewrite lookup_insert_eq.
  - intros HPs x Hx. rewrite (Hsys HPs x Hx).
    rewrite lookup_union_r by by apply Hlack.
    rewrite !lookup_insert_ne by discriminate. by rewrite lookup_insert_eq.
  - intros HPt. rewrite lookup_union_r by by apply Hlack.
    rewrite !lookup_insert_ne by discriminate. rewrite lookup_insert_eq. cbn.
    by rewrite (frames_field P R h (heap_of sm) u _ F0m Hu HPt).
  - intros HPv. rewrite lookup_union_r by by apply Hlack.
    rewrite lookup_insert_eq. cbn.
    by rewrite (frames_field P R h (heap_of sm) u _ F0m Hu HPv).
Qed.

End Defaults.

(** ** The frames of the steps after the object literal *)

Lemma validate_frames (E : Collaborators) (P : list string) (R : loc → Prop)
    (vc : loc) (s1 s2 s3 s4 s5 s6 s7 s8 s9 : state) (ds0 ds5 ds6 ds : list Diagnostic) :
  respects P R E →
  resolveDevMode (VObj vc) s1 = Ok (tt, s2) →
  normalizeExtras (VObj vc) s2 = Ok (tt, s3) →
  resolveBooleans vc s3 = Ok (tt, s4) →
  resolveHashing (VObj vc) ds0 s4 = Ok (ds5, s5) →
  validateFields E (VObj vc) ds5 s5 = Ok (ds6, s6) →
  sortBundles (VObj vc) s6 = Ok (tt, s7) →
  validateRemaining E vc ds6 s7 = Ok (ds, s8) →
  normalizeWatchIgnoredRegex (VObj vc) s8 = Ok (tt, s9) →
  ("devMode" ∉ P → frames P R (heap_of s1) (heap_of s2))
  ∧ (Forall (λ k, k ∉ P) ("extras" :: extras_flags) → frames P R (heap_of s2) (heap_of s3))
  ∧ (Forall (λ k, k ∉ P) booleans_written → frames P R (heap_of s3) (heap_of s4))
  ∧ (Forall (λ k, k ∉ P) hashing_written → frames P R (heap_of s4) (heap_of s5))
  ∧ ("devServer" ∉ P → frames P R (heap_of s5) (heap_of s6))
  ∧ ("bundles" ∉ P → frames P R (heap_of s6) (heap_of s7))
  ∧ ("devInspector" ∉ P → "enableCache" ∉ P → frames P R (heap_of s7) (heap_of s8))
  ∧ ("watchIgnoredRegex" ∉ P → frames P R (heap_of s8) (heap_of s9)).
Proof.
  intros HE H2 H3 H4 H5 H6 H7 H8 H9. repeat split.
  - intros Hk. by apply (keeps_resolveDevMode P R) in H2 as [F _].
  - intros Hk. by apply (keeps_normalizeExtras P R) in H3 as [F _].
  - intros Hk. by apply (keeps_resolveBooleans P R) in H4 as [F _].
  - intros Hk. by apply (keeps_resolveHashing P R) in H5 as [F _].
  - intros Hk. by apply (keeps_validateFields P R E HE) in H6 as [F _].
  - intros Hk. by apply (keeps_sortBundles P R) in H7 as [F _].
  - intros Hi Hc. by apply (keeps_validateRemaining P R E HE) in H8 as [F _].
  - intros Hk. by apply (keeps_normalizeWatchIgnoredRegex P R) in H9 as [F _].
Qed.

(** From each stage on, the steps leave alone what they do not assign. *)
Lemma validate_tail (E : Collaborators) (P : list string) (R : loc → Prop)
    (vc : loc) (s1 s2 s3 s4 s5 s6 s7 s8 s9 : state) (ds0 ds5 ds6 ds : list Diagnostic) :
  respects P R E →
  resolveDevMode (VObj vc) s1 = Ok (tt, s2) →
  normalizeExtras (VObj vc) s2 = Ok (tt, s3) →
  resolveBooleans vc s3 = Ok (tt, s4) →
  resolveHashing (VObj vc) ds0 s4 = Ok (ds5, s5) →
  validateFields E (VObj vc) ds5 s5 = Ok (ds6, s6) →
  sortBundles (VObj vc) s6 = Ok (tt, s7) →
  validateRemaining E vc ds6 s7 = Ok (ds, s8) →
  normalizeWatchIgnoredRegex (VObj vc) s8 = Ok (tt, s9) →
  (disjoint written_after_1 P = true → frames P R (heap_of s1) (heap_of s9))
  ∧ (disjoint written_after_2 P = true → frames P R (heap_of s2) (heap_of s9))
  ∧ (disjoint written_after_3 P = true → frames P R (heap_of s3) (heap_of s9))
  ∧ (disjoint written_after_4 P = true → frames P R (heap_of s4) (heap_of s9))
  ∧ (disjoint written_after_5 P = true → frames P R (heap_of s5) (heap_of s9))
  ∧ (disjoint written_after_6 P = true → frames P R (heap_of s6) (heap_of s9))
  ∧ (disjoint written_after_7 P = true → frames P R (heap_of s7) (heap_of s9))
  ∧ (disjoint written_after_8 P = true → frames P R (heap_of s8) (heap_of s9)).
Proof.
  intros HE H2 H3 H4 H5 H6 H7 H8 H9.
  destruct (validate_frames E P R vc s1 s2 s3 s4 s5 s6 s7 s8 s9 ds0 ds5 ds6 ds
              HE H2 H3 H4 H5 H6 H7 H8 H9) as (G2 & G3 & G4 & G5 & G6 & G7 & G8 & G9).
  assert (T8 : Forall (λ k, k ∉ P) written_after_8 → frames P R (heap_of s8) (heap_of s9)).
  { intros [Hw _]%Forall_cons. by apply G9. }
  assert (T7 : Forall (λ k, k ∉ P) written_after_7 → frames P R (heap_of s7) (heap_of s9)).
  { intros [Hi [Hc Hr]%Forall_cons]%Forall_cons.
    eapply frames_trans; [by apply G8 | by apply T8]. }
  assert (T6 : Forall (λ k, k ∉ P) written_after_6 → frames P R (heap_of s6) (heap_of s9)).
  { intros [Hb Hr]%Forall_cons. eapply frames_trans; [by apply G7 | by apply T7]. }
  assert (T5 : Forall (λ k, k ∉ P) written_after_5 → frames P R (heap_of s5) (heap_of s9)).
  { intros [Hb Hr]%Forall_cons. eapply frames_trans; [by apply G6 | by apply T6]. }
  assert (T4 : Forall (λ k, k ∉ P) written_after_4 → frames P R (heap_of s4) (heap_of s9)).
  { intros [Hb Hr]%Forall_app. eapply frames_trans; [by apply G5 | by apply T5]. }
  assert (T3 : Forall (λ k, k ∉ P) written_after_3 → frames P R (heap_of s3) (heap_of s9)).
  { intros [Hb Hr]%Forall_app. eapply frames_trans; [by apply G4 | by apply T4]. }
  assert (T2 : Forall (λ k, k ∉ P) written_after_2 → frames P R (heap_of s2) (heap_of s9)).
  { intros [Hb Hr]%Forall_app. eapply frames_trans; [by apply G3 | by apply T3]. }
  assert (T1 : Forall (λ k, k ∉ P) written_after_1 → frames P R (heap_of s1) (heap_of s9)).
  { intros [Hb Hr]%Forall_cons. eapply frames_trans; [by apply G2 | by apply T2]. }
  repeat split; intros Hd%disjoint_spec; auto.
Qed.

Ltac through G := eapply frames_trans; [apply G; lacks |].

Ltac mem := repeat first [apply list_elem_of_here | apply list_elem_of_further].

(** Every object of the state after the object literal exists at every
    later stage. *)
Lemma validate_stages (E : Collaborators) (P : list string) (R : loc → Prop)
    (vc : loc) (s1 s2 s3 s4 s5 s6 s7 s8 s9 : state) (ds0 ds5 ds6 ds : list Diagnostic) :
  respects P R E →
  resolveDevMode (VObj vc) s1 = Ok (tt, s2) →
  normalizeExtras (VObj vc) s2 = Ok (tt, s3) →
  resolveBooleans vc s3 = Ok (tt, s4) →
  resolveHashing (VObj vc) ds0 s4 = Ok (ds5, s5) →
  validateFields E (VObj vc) ds5 s5 = Ok (ds6, s6) →
  sortBundles (VObj vc) s6 = Ok (tt, s7) →
  validateRemaining E vc ds6 s7 = Ok (ds, s8) →
  normalizeWatchIgnoredRegex (VObj vc) s8 = Ok (tt, s9) →
  ∀ l, is_Some (heap_of s1 !! l) →
    is_Some (heap_of s2 !! l) ∧ is_Some (heap_of s3 !! l) ∧ is_Some (heap_of s4 !! l)
    ∧ is_Some (heap_of s5 !! l) ∧ is_Some (heap_of s6 !! l) ∧ is_Some (heap_of s7 !! l)
    ∧ is_Some (heap_of s8 !! l) ∧ is_Some (heap_of s9 !! l).
Proof.
  intros HE H2 H3 H4 H5 H6 H7 H8 H9 l Hl.
  assert (HE0 : respects [] (λ _, False) E).
  { eapply respects_weaken; [| | exact HE]; [by intros k ?%elem_of_nil | done]. }
  destruct (validate_frames E [] (λ _, False) vc s1 s2 s3 s4 s5 s6 s7 s8 s9 ds0 ds5 ds6 ds
              HE0 H2 H3 H4 H5 H6 H7 H8 H9) as (G2 & G3 & G4 & G5 & G6 & G7 & G8 & G9).
  assert (A2 := frames_allocated _ _ _ _ l (G2 ltac:(lacks)) Hl).
  assert (A3 := frames_allocated _ _ _ _ l (G3 ltac:(lacks)) A2).
  assert (A4 := frames_allocated _ _ _ _ l (G4 ltac:(lacks)) A3).
  assert (A5 := frames_allocated _ _ _ _ l (G5 ltac:(lacks)) A4).
  assert (A6 := frames_allocated _ _ _ _ l (G6 ltac:(lacks)) A5).
  assert (A7 := frames_allocated _ _ _ _ l (G7 ltac:(lacks)) A6).
  assert (A8 := frames_allocated _ _ _ _ l (G8 ltac:(lacks) ltac:(lacks)) A7).
  assert (A9 := frames_allocated _ _ _ _ l (G9 ltac:(lacks)) A8).
  by repeat split.
Qed.

(** ** Steps that do not write to a given object *)

Section Preserves.

Variable I : state → Prop.

Lemma preserves_ret {A} (a : A) : preserves I (ret a).
Proof. intros s a' s' HI. unfold ret. by intros [= _ <-]. Qed.

Lemma preserves_bind {A B} (m : M state A) (k : A → M state B) :
  preserves I m → (∀ a, preserves I (k a)) → preserves I (bind m k).
Proof.
  intros Hm Hk s b s' HI Hrun. apply bind_Ok in Hrun as (a & s1 & H1 & H2).
  eapply Hk; [| exact H2]. by eapply Hm.
Qed.

Lemma preserves_reading {A} (f : state → result A) : preserves I (reading f).
Proof.
  intros s a s' HI. unfold reading. destruct (f s); [| discriminate]. by intros [= _ <-].
Qed.

Lemma preserves_read (v : value) (k : string) : preserves I (read v k).
Proof. apply preserves_reading. Qed.

Lemma preserves_on_heap {A} (f : heap → A) : preserves I (on_heap f).
Proof. apply preserves_reading. Qed.

Lemma preserves_when (b : bool) (m : M state unit) : preserves I m → preserves I (when b m).
Proof. intros Hm. destruct b; [exact Hm | apply preserves_ret]. Qed.

Lemma preserves_if {A} (b : bool) (m1 m2 : M state A) :
  preserves I m1 → preserves I m2 → preserves I (if b then m1 else m2).
Proof. by destruct b. Qed.

End Preserves.

Lemma untouched_refl (u : loc) (h : heap) : untouched u h h.
Proof. by intros o. Qed.

Lemma untouched_trans (u : loc) (h1 h2 h3 : heap) :
  untouched u h1 h2 → untouched u h2 h3 → untouched u h1 h3.
Proof. intros H12 H23 o Ho. by apply H23, H12. Qed.

Lemma untouched_alloc (u : loc) (o : object) (h : heap) : untouched u h (alloc o h).2.
Proof. intros o' Ho'. by apply alloc_lookup_old. Qed.

Lemma untouched_set_field (u l : loc) (k : string) (v : value) (h : heap) :
  l ≠ u → untouched u h (set_field l k v h).
Proof. intros Hne o Ho. by rewrite lookup_set_field_ne. Qed.

(** [JSON.parse] writes to no object that exists. *)
Lemma parse_untouched (u : loc) (j : json) : ∀ h, untouched u h (parse j h).2.
Proof.
  induction j as [| b | q | s | xs IH | ps IH] using json_induction; intros h; simpl;
    try apply untouched_refl.
  - destruct (foldr _ _ xs) as [vs h1] eqn:Hfold.
    destruct (alloc (array vs) h1) as [l h2] eqn:Halloc. simpl.
    assert (Hf : untouched u h h1).
    { clear Halloc. revert vs h1 Hfold.
      induction IH as [| x xs Hx _ IHxs]; simpl; intros vs h1 Hfold.
      - injection Hfold as _ <-. apply untouched_refl.
      - destruct (foldr _ _ xs) as [vs' h'] eqn:Hfold'. simpl in Hfold.
        destruct (parse x h') as [v h''] eqn:Hparse. injection Hfold as _ <-.
        eapply untouched_trans; [by eapply IHxs |].
        replace h'' with (parse x h').2 by by rewrite Hparse. apply Hx. }
    eapply untouched_trans; [exact Hf |].
    replace h2 with (alloc (array vs) h1).2 by by rewrite Halloc. apply untouched_alloc.
  - destruct (foldr _ _ ps) as [m h1] eqn:Hfold.
    destruct (alloc (plain m) h1) as [l h2] eqn:Halloc. simpl.
    assert (Hf : untouched u h h1).
    { clear Halloc. revert m h1 Hfold.
      induction IH as [| x xs Hx _ IHxs]; simpl; intros m h1 Hfold.
      - injection Hfold as _ <-. apply untouched_refl.
      - destruct (foldr _ _ xs) as [m' h'] eqn:Hfold'. simpl in Hfold.
        destruct (parse x.2 h') as [v h''] eqn:Hparse. injection Hfold as _ <-.
        eapply untouched_trans; [by eapply IHxs |].
        replace h'' with (parse x.2 h').2 by by rewrite Hparse. apply Hx. }
    eapply untouched_trans; [exact Hf |].
    replace h2 with (alloc (plain m) h1).2 by by rewrite Halloc. apply untouched_alloc.
Qed.

Section At.

Variables (u : loc) (o : object).

Abbreviation at_u := (holds_at u o).

Lemma at_assign (l : loc) (k : string) (x : value) :
  l ≠ u → preserves at_u (assign (VObj l) k x).
Proof.
  intros Hne s a s' HI. unfold assign, writing. cbn. intros [= _ <-].
  by apply untouched_set_field.
Qed.

Lemma at_new_loc (o' : object) : preserves at_u (new_loc o').
Proof.
  intros s a s' HI. unfold new_loc, total.
  pose proof (untouched_alloc u o' (heap_of s) o HI) as Hold.
  destruct (alloc o' (heap_of s)). by intros [= _ <-].
Qed.

Lemma at_new_object (o' : object) : preserves at_u (new_object o').
Proof.
  unfold new_object. apply preserves_bind; [apply at_new_loc | intros l; apply preserves_ret].
Qed.

Lemma at_call {A} (f : heap → A * heap) :
  (∀ h, untouched u h (f h).2) → preserves at_u (call f).
Proof.
  intros Hf s a s' HI. unfold call, total.
  pose proof (Hf (heap_of s) o HI) as Hold.
  destruct (f (heap_of s)). by intros [= _ <-].
Qed.

Ltac at_step :=
  lazymatch goal with
  | |- preserves _ (bind _ _) => apply preserves_bind; [| intros ?]
  | |- preserves _ (ret _) => apply preserves_ret
  | |- preserves _ (read _ _) => apply preserves_read
  | |- preserves _ (on_heap _) => apply preserves_on_heap
  | |- preserves _ (reading _) => apply preserves_reading
  | |- preserves _ (assign (VObj _) _ _) => apply at_assign
  | |- preserves _ (new_object _) => apply at_new_object
  | |- preserves _ (new_loc _) => apply at_new_loc
  | |- preserves _ (when _ _) => apply preserves_when
  | |- preserves _ (call _) => apply at_call
  | |- preserves _ (if _ then _ else _) => apply preserves_if
  | |- preserves _ (match ?x with _ => _ end) => destruct x
  end.

Lemma at_setBooleanConfig (config : loc) (configName : string)
    (flagName : option string) (defaultValue : value) :
  config ≠ u → preserves at_u (setBooleanConfig config configName flagName defaultValue).
Proof. intros Hne. unfold setBooleanConfig. repeat at_step; assumption. Qed.

Lemma at_cloneFlags (config : value) : preserves at_u (cloneFlags config).
Proof.
  unfold cloneFlags. repeat at_step.
  intros s v s' HI. unfold JSON_roundtrip.
  destruct (JSON_stringify (heap_of s) a0) as [[j |] | e]; try discriminate.
  pose proof (parse_untouched u j (heap_of s) o HI) as Hold.
  destruct (parse j (heap_of s)) as [v' h']. by intros [= _ <-].
Qed.

Section Steps.

Variables (E : Collaborators) (vc : loc).
Hypothesis HE : leaves u E.
Hypothesis Hvc : vc ≠ u.

Lemma at_assemble (userConfig bootstrapConfig : value) :
  preserves at_u (assemble E userConfig bootstrapConfig).
Proof.
  unfold assemble, resolveLogger, resolveSys, nullish_else_new.
  repeat first [apply at_cloneFlags | at_step]; intros h; apply HE.
Qed.

Lemma at_resolveDevMode : preserves at_u (resolveDevMode (VObj vc)).
Proof. unfold resolveDevMode. repeat at_step; assumption. Qed.

Lemma at_resolveBooleans : preserves at_u (resolveBooleans vc).
Proof.
  unfold resolveBooleans. repeat first [apply at_setBooleanConfig | at_step]; assumption.
Qed.

Lemma at_resolveHashing (ds : list Diagnostic) :
  preserves at_u (resolveHashing (VObj vc) ds).
Proof. unfold resolveHashing. repeat at_step; assumption. Qed.

Lemma at_validateFields (ds : list Diagnostic) :
  preserves at_u (validateFields E (VObj vc) ds).
Proof. unfold validateFields. repeat at_step; try assumption; intros h; apply HE. Qed.

Lemma at_sortBundles : preserves at_u (sortBundles (VObj vc)).
Proof. unfold sortBundles. repeat at_step; assumption. Qed.

Lemma at_validateRemaining (ds : list Diagnostic) :
  preserves at_u (validateRemaining E vc ds).
Proof.
  unfold validateRemaining.
  repeat first [apply at_setBooleanConfig | at_step]; try assumption; intros h; apply HE.
Qed.

Lemma at_normalizeWatchIgnoredRegex :
  preserves at_u (normalizeWatchIgnoredRegex (VObj vc)).
Proof. unfold normalizeWatchIgnoredRegex. repeat at_step; assumption. Qed.

(** The extras are written through the reference the configuration holds:
    as long as that is not a reference to [u], the object at [u] stays. *)
Abbreviation extras_elsewhere := (MoreContracts.extras_elsewhere u o vc).

Lemma at_coerceExtra (x : value) (name : string) :
  x ≠ VObj u → name ≠ "extras" →
  preserves (extras_elsewhere x) (coerceExtra (VObj vc) name).
Proof.
  intros Hx Hname s a s' (Hextras & Halloc & Hu). unfold coerceExtra.
  rewrite !bind_read, Hextras, bind_get.
  destruct x as [| | b | n | str | e]; cbn [get]; unfold assign, writing; cbn;
    try discriminate.
  intros [= _ <-]. unfold MoreContracts.extras_elsewhere. cbn.
  assert (He : e ≠ u) by congruence.
  split; [| split].
  - rewrite field_set_field_ne; [done |]. by right.
  - by apply set_field_allocated.
  - by apply untouched_set_field.
Qed.

Lemma at_forceExtra (x : value) (name : string) :
  x ≠ VObj u → name ≠ "extras" →
  preserves (extras_elsewhere x) (forceExtra (VObj vc) name).
Proof.
  intros Hx Hname s a s' (Hextras & Halloc & Hu). unfold forceExtra.
  rewrite bind_read, Hextras.
  destruct x as [| | b | n | str | e]; unfold assign, writing; cbn; try discriminate.
  intros [= _ <-]. unfold MoreContracts.extras_elsewhere. cbn.
  assert (He : e ≠ u) by congruence.
  split; [| split].
  - rewrite field_set_field_ne; [done |]. by right.
  - by apply set_field_allocated.
  - by apply untouched_set_field.
Qed.

Lemma at_normalizeExtras (s s' : state) :
  at_u s → is_Some (heap_of s !! vc) →
  field (heap_of s) vc "extras" ≠ VObj u →
  normalizeExtras (VObj vc) s = Ok (tt, s') → at_u s'.
Proof.
  intros Hu Halloc Hextras Hrun. unfold normalizeExtras in Hrun.
  rewrite bind_read in Hrun.
  assert (Hrest : ∀ x st,
            x ≠ VObj u → is_Some (heap_of st !! vc) → at_u st →
            bind (assign (VObj vc) "extras" x)
              (λ _, coerceExtra (VObj vc) "appendChildSlotFix" ;;
                    coerceExtra (VObj vc) "cloneNodeFix" ;;
                    coerceExtra (VObj vc) "lifecycleDOMEvents" ;;
                    coerceExtra (VObj vc) "scriptDataOpts" ;;
                    coerceExtra (VObj vc) "slotChildNodesFix" ;;
                    coerceExtra (VObj vc) "initializeNextTick" ;;
                    coerceExtra (VObj vc) "tagNameTransform" ;;
                    coerceExtra (VObj vc) "experimentalSlotFixes" ;;
                    let* extras := read (VObj vc) "extras" in
                    let* experimentalSlotFixes := read extras "experimentalSlotFixes" in
                    when (truthy experimentalSlotFixes)
                         (forceExtra (VObj vc) "appendChildSlotFix" ;;
                          forceExtra (VObj vc) "cloneNodeFix" ;;
                          forceExtra (VObj vc) "slotChildNodesFix" ;;
                          forceExtra (VObj vc) "scopedSlotTextContentFix"))%run st
              = Ok (tt, s') →
            at_u s').
  { intros x st Hx Hvc' Hu' Hrest. rewrite bind_assign in Hrest.
    match type of Hrest with
    | ?m ?st1 = Ok _ =>
        assert (Hk : preserves (extras_elsewhere x) m)
          by (repeat first [apply at_coerceExtra | apply at_forceExtra
                           | apply preserves_bind; [| intros ?]
                           | apply preserves_read | apply preserves_when];
              done);
        apply Hk in Hrest as (_ & _ & Hfinal); [exact Hfinal |]
    end.
    unfold MoreContracts.extras_elsewhere. cbn [heap_of]. split; [| split].
    - apply field_set_field_eq.
    - by apply set_field_allocated.
    - by apply untouched_set_field. }
  destruct (truthy (field (heap_of s) vc "extras")) eqn:Ht.
  - rewrite bind_ret in Hrun. by apply (Hrest _ s Hextras).
  - rewrite bind_new_object in Hrun.
    assert (Hfresh : VObj (alloc (plain ∅) (heap_of s)).1 ≠ VObj u).
    { intros Heq. pose proof (alloc_fresh (plain ∅) (heap_of s)) as Hf.
      assert (Hl : (alloc (plain ∅) (heap_of s)).1 = u) by congruence.
      rewrite Hl in Hf. unfold holds_at in Hu. congruence. }
    apply (Hrest _ _ Hfresh) in Hrun; [exact Hrun | |]; cbn [heap_of].
    + by apply alloc_allocated.
    + by apply untouched_alloc.
Qed.

End Steps.

End At.

(** The quiet collaborators only add objects. *)
Lemma quiet_leaves (u : loc) : leaves u Samples.quietCollaborators.
Proof.
  assert (Hnew : ∀ h, untouched u h (Samples.fresh_object h).2).
  { intros h. unfold Samples.fresh_object.
    pose proof (untouched_alloc u (plain ∅) h) as Hold.
    by destruct (alloc (plain ∅) h). }
  split; cbn [Samples.quietCollaborators createNodeLogger createNodeSys validateHydrated
    validateRollupConfig validatePaths validateNamespace validateOutputTargets
    validatePlugins validateDevServer validateTesting validateWorkers
    validateDistNamespace]; intros; first [apply Hnew | apply untouched_refl].
Qed.

(** The quiet collaborators on the sample of the defaults. *)
Lemma quiet_defaults_well_formed :
  well_formed Samples.quietCollaborators (heap_of MoreSamples.defaultsState) 1 (VObj 2).
Proof.
  split.
  - by eexists.
  - apply SampleFacts.quiet_respects.
  - by left.
  - by left.
  - split; [reflexivity | done].
Qed.

(** The quiet collaborators on the testing sample. *)
Lemma quiet_testing_well_formed :
  well_formed Samples.quietCollaborators (heap_of MoreSamples.testingState) 1 (VObj 2).
Proof.
  split.
  - by eexists.
  - apply SampleFacts.quiet_respects.
  - by left.
  - by left.
  - split; [reflexivity | done].
Qed.

End ValidateExtraFacts.

Module ValidateExtras.

Import ValidateConfig Contracts MoreContracts HeapFacts StepFacts SampleFacts
  ValidateExtraFacts.

(** X10.  A validation that is not answered from the cache returns a new
    object: one that did not exist before the call, hence neither the
    user's configuration nor any object the caller holds.  The cache then
    holds that new object, so passing the same raw configuration again is
    not answered from the cache: it is validated in full again. *)
Theorem X10_validated_config_is_new (E : Collaborators) (u : loc) (bootstrapConfig : value)
    (s s' : state) (c : value) (ds : list Diagnostic) :
  keeps_objects E →
  CACHED_VALIDATED_CONFIG s ≠ VObj u →
  is_Some (heap_of s !! u) →
  validateConfig E (VObj u) bootstrapConfig s = Ok ((c, ds), s') →
  ∃ vc,
    c = VObj vc
    ∧ heap_of s !! vc = None
    ∧ is_Some (heap_of s' !! vc)
    ∧ vc ≠ u
    ∧ CACHED_VALIDATED_CONFIG s' = VObj vc
    ∧ ∀ b2 s2,
        CACHED_VALIDATED_CONFIG s2 = CACHED_VALIDATED_CONFIG s' →
        validateConfig E (VObj u) b2 s2 = validate E (VObj u) b2 [] s2.
Proof.
  intros HE Hmiss Hu Hrun.
  rewrite validateConfig_miss in Hrun by done.
  apply validate_Ok in Hrun
    as (vc & s1 & s2 & s3 & s4 & ds5 & s5 & ds6 & s6 & s7 & s8 & s9
        & H1 & H2 & H3 & H4 & H5 & H6 & H7 & H8 & H9 & -> & ->).
  pose proof (assemble_new E _ _ HE _ _ _ H1) as Hnew.
  apply (assemble_field [] (λ _, False) E HE) in H1 as (_ & _ & Hvc1 & _).
  destruct (validate_frames E [] (λ _, False) vc s1 s2 s3 s4 s5 s6 s7 s8 s9 [] ds5 ds6 ds
              HE H2 H3 H4 H5 H6 H7 H8 H9) as (G2 & G3 & G4 & G5 & G6 & G7 & G8 & G9).
  assert (F19 : frames [] (λ _, False) (heap_of s1) (heap_of s9)).
  { through G2. through G3. through G4. through G5. through G6. through G7.
    eapply frames_trans; [apply G8; lacks |]. apply G9; lacks. }
  assert (Hne : vc ≠ u) by (intros ->; destruct Hu as [o Ho]; congruence).
  exists vc. split; [done |]. split; [exact Hnew |].
  split; [exact (frames_allocated _ _ _ _ _ F19 Hvc1) |].
  split; [exact Hne |]. split; [done |].
  intros b2 s2' Hcache. apply validateConfig_miss. rewrite Hcache. cbn. congruence.
Qed.

Lemma X10_validated_config_is_new_witness :
  ∃ vc ds s',
    validateConfig Samples.quietCollaborators (VObj 1) (VObj 6) Samples.configState
      = Ok ((VObj vc, ds), s')
    ∧ vc ≠ 1%positive
    ∧ validateConfig Samples.quietCollaborators (VObj 1) (VObj 6) s'
      = validate Samples.quietCollaborators (VObj 1) (VObj 6) [] s'.
Proof.
  destruct (validateConfig_returns Samples.quietCollaborators 1%positive (VObj 6)
              Samples.configState quiet_well_formed) as (c & ds & s' & Hrun).
  destruct (X10_validated_config_is_new Samples.quietCollaborators 1%positive (VObj 6)
              Samples.configState s' c ds (quiet_respects _ _))
    as (vc & -> & _ & _ & Hne & _ & Hagain);
    [discriminate | by eexists | exact Hrun |].
  exists vc, ds, s'. split; [exact Hrun |]. split; [exact Hne |]. by apply Hagain.
Defined.

(** X11.  When the user's [extras] is an object, the validation works on
    that very object: the returned configuration's [extras] is the user's
    object, and its flags are rewritten in place.  Seven flags become
    their boolean coercion; a truthy [experimentalSlotFixes] forces
    [appendChildSlotFix], [cloneNodeFix], [slotChildNodesFix] and
    [scopedSlotTextContentFix] to [true]; without it
    [scopedSlotTextContentFix] stays exactly as the user wrote it. *)
Theorem X11_extras_normalized_in_place (E : Collaborators) (u e : loc)
    (bootstrapConfig : value) (s s' : state) (c : value) (ds : list Diagnostic) :
  let h := heap_of s in
  let experimental := truthy (field h e "experimentalSlotFixes") in
  let coerced name := VBool (truthy (field h e name)) in
  let forced name := VBool (experimental || truthy (field h e name)) in
  respects ("extras" :: extras_flags) (λ _, False) E →
  CACHED_VALIDATED_CONFIG s ≠ VObj u →
  field h u "extras" = VObj e →
  is_Some (h !! e) →
  validateConfig E (VObj u) bootstrapConfig s = Ok ((c, ds), s') →
  ∃ vc,
    c = VObj vc
    ∧ field (heap_of s') vc "extras" = VObj e
    ∧ field (heap_of s') e "appendChildSlotFix" = forced "appendChildSlotFix"
    ∧ field (heap_of s') e "cloneNodeFix" = forced "cloneNodeFix"
    ∧ field (heap_of s') e "slotChildNodesFix" = forced "slotChildNodesFix"
    ∧ field (heap_of s') e "lifecycleDOMEvents" = coerced "lifecycleDOMEvents"
    ∧ field (heap_of s') e "scriptDataOpts" = coerced "scriptDataOpts"
    ∧ field (heap_of s') e "initializeNextTick" = coerced "initializeNextTick"
    ∧ field (heap_of s') e "tagNameTransform" = coerced "tagNameTransform"
    ∧ field (heap_of s') e "experimentalSlotFixes" = VBool experimental
    ∧ field (heap_of s') e "scopedSlotTextContentFix"
      = (if experimental then VBool true else field h e "scopedSlotTextContentFix").
Proof.
  intros h experimental coerced forced HE Hmiss Hextras He Hrun.
  rewrite validateConfig_miss in Hrun by done.
  apply validate_Ok in Hrun
    as (vc & s1 & s2 & s3 & s4 & ds5 & s5 & ds6 & s6 & s7 & s8 & s9
        & H1 & H2 & H3 & H4 & H5 & H6 & H7 & H8 & H9 & -> & ->).
  set (P := "extras" :: extras_flags) in *. set (R := λ _ : loc, False) in *.
  pose proof (validate_stages E P R vc s1 s2 s3 s4 s5 s6 s7 s8 s9 [] ds5 ds6 ds
                HE H2 H3 H4 H5 H6 H7 H8 H9) as Hstages.
  destruct (validate_frames E P R vc s1 s2 s3 s4 s5 s6 s7 s8 s9 [] ds5 ds6 ds
              HE H2 H3 H4 H5 H6 H7 H8 H9) as (G2 & _ & G4 & G5 & G6 & G7 & G8 & G9).
  apply (assemble_field P R E HE) in H1 as (F1 & _ & Hvc1 & Hfield1).
  assert (He1 : is_Some (heap_of s1 !! e)) by exact (frames_allocated _ _ _ _ _ F1 He).
  destruct (Hstages vc Hvc1) as (Hvc2 & Hvc3 & _).
  destruct (Hstages e He1) as (He2 & He3 & _).
  assert (F02 : frames P R h (heap_of s2)).
  { eapply frames_trans; [exact F1 |]. apply G2. lacks. }
  assert (F39 : frames P R (heap_of s3) (heap_of s9)).
  { through G4. through G5. through G6. through G7.
    eapply frames_trans; [apply G8; lacks |]. apply G9; lacks. }
  assert (Hextras2 : field (heap_of s2) vc "extras" = VObj e).
  { rewrite (frames_field P R _ _ vc "extras" (G2 ltac:(lacks)) Hvc1) by mem.
    rewrite Hfield1; [done | mem | lacks | done]. }
  assert (Hinit : ∀ k, k ∈ P → field (heap_of s2) e k = field h e k)
    by (intros k Hk; by apply (frames_field P R h (heap_of s2) e k F02)).
  assert (Hfinal : ∀ k, k ∈ P → field (heap_of s9) e k = field (heap_of s3) e k)
    by (intros k Hk; by apply (frames_field P R _ _ e k F39)).
  destruct (normalizeExtras_runs vc e s2 Hextras2)
    as (s3' & H3' & Hx & Ha & Hc & Hs & Hl & Hd & Hi & Ht & Hexp & Hsc & _).
  rewrite H3 in H3'. injection H3' as [= <-].
  cbv zeta in Ha, Hc, Hs, Hl, Hd, Hi, Ht, Hexp, Hsc.
  repeat match goal with
         | H : context [field (heap_of s2) e ?k] |- _ =>
             rewrite (Hinit k) in H by (subst P; mem)
         end.
  exists vc. split; [done |]. cbn [heap_of].
  split; [by rewrite (frames_field P R _ _ vc "extras" F39 Hvc3) by mem |].
  rewrite !Hfinal by (subst P; mem).
  by repeat split.
Qed.

Lemma X11_extras_normalized_in_place_witness :
  ∃ vc ds s',
    validateConfig Samples.quietCollaborators (VObj 1) (VObj 6) Samples.configState
      = Ok ((VObj vc, ds), s')
    ∧ field (heap_of Samples.configState) 1 "extras" = VObj 3
    ∧ field (heap_of Samples.configState) 3 "tagNameTransform" = VStr "yes"
    ∧ field (heap_of s') vc "extras" = VObj 3
    ∧ field (heap_of s') 3 "tagNameTransform" = VBool true
    ∧ field (heap_of s') 3 "cloneNodeFix" = VBool true.
Proof.
  destruct (validateConfig_returns Samples.quietCollaborators 1%positive (VObj 6)
              Samples.configState quiet_well_formed) as (c & ds & s' & Hrun).
  destruct (X11_extras_normalized_in_place Samples.quietCollaborators 1%positive 3%positive
              (VObj 6) Samples.configState s' c ds (quiet_respects _ _))
    as (vc & -> & Hx & _ & Hc & _ & _ & _ & _ & Ht & _);
    [discriminate | reflexivity | by eexists | exact Hrun |].
  exists vc, ds, s'. split; [exact Hrun |]. split; [reflexivity |]. split; [reflexivity |].
  split; [exact Hx |]. split; [exact Ht | exact Hc].
Defined.



(** X13.  Whatever the user wrote, the returned configuration holds values
    of the expected types in the properties the validation resolves
    itself: [devMode], [buildEs5] and [hashFileNames] are booleans,
    [taskQueue] is a string, [hashedFileNameLength] is a number, [extras]
    is an object, [env] is truthy, and [bundles] and [watchIgnoredRegex]
    are arrays. *)
Theorem X13_resolved_fields_have_their_types (E : Collaborators) (u : loc)
    (bootstrapConfig : value) (s s' : state) (c : value) (ds : list Diagnostic) :
  respects ["devMode"; "buildEs5"; "taskQueue"; "hashFileNames"; "hashedFileNameLength";
            "extras"; "env"; "bundles"; "watchIgnoredRegex"] (λ _, False) E →
  CACHED_VALIDATED_CONFIG s ≠ VObj u →
  validateConfig E (VObj u) bootstrapConfig s = Ok ((c, ds), s') →
  ∃ vc,
    c = VObj vc
    ∧ isBoolean (field (heap_of s') vc "devMode") = true
    ∧ isBoolean (field (heap_of s') vc "buildEs5") = true
    ∧ isBoolean (field (heap_of s') vc "hashFileNames") = true
    ∧ isString (field (heap_of s') vc "taskQueue") = true
    ∧ isNumber (field (heap_of s') vc "hashedFileNameLength") = true
    ∧ (∃ e, field (heap_of s') vc "extras" = VObj e)
    ∧ truthy (field (heap_of s') vc "env") = true
    ∧ isArray (heap_of s') (field (heap_of s') vc "bundles") = true
    ∧ isArray (heap_of s') (field (heap_of s') vc "watchIgnoredRegex") = true.
Proof.
  intros HE Hmiss Hrun.
  rewrite validateConfig_miss in Hrun by done.
  apply validate_Ok in Hrun
    as (vc & s1 & s2 & s3 & s4 & ds5 & s5 & ds6 & s6 & s7 & s8 & s9
        & H1 & H2 & H3 & H4 & H5 & H6 & H7 & H8 & H9 & -> & ->).
  set (R := λ _ : loc, False) in *.
  pose proof (validate_stages E _ R vc s1 s2 s3 s4 s5 s6 s7 s8 s9 [] ds5 ds6 ds
                HE H2 H3 H4 H5 H6 H7 H8 H9) as Hstages.
  assert (Tail : ∀ k,
            k ∈ ["devMode"; "buildEs5"; "taskQueue"; "hashFileNames"; "hashedFileNameLength";
                 "extras"; "env"; "bundles"; "watchIgnoredRegex"] →
            (disjoint written_after_2 [k] = true → frames [k] R (heap_of s2) (heap_of s9))
            ∧ (disjoint written_after_3 [k] = true → frames [k] R (heap_of s3) (heap_of s9))
            ∧ (disjoint written_after_4 [k] = true → frames [k] R (heap_of s4) (heap_of s9))
            ∧ (disjoint written_after_5 [k] = true → frames [k] R (heap_of s5) (heap_of s9))
            ∧ (disjoint written_after_7 [k] = true → frames [k] R (heap_of s7) (heap_of s9))).
  { intros k Hk.
    destruct (validate_tail E [k] R vc s1 s2 s3 s4 s5 s6 s7 s8 s9 [] ds5 ds6 ds)
      as (_ & T2 & T3 & T4 & T5 & _ & T7 & _); try assumption; [| done].
    eapply respects_weaken; [| | exact HE]; [| done].
    by intros k' ->%list_elem_of_singleton. }
  apply (assemble_field [] R E) in H1 as (_ & _ & Hvc1 & _).
  2: { eapply respects_weaken; [| | exact HE]; [by intros k ?%elem_of_nil | done]. }
  destruct (Hstages vc Hvc1) as (Hvc2 & Hvc3 & Hvc4 & Hvc5 & Hvc6 & Hvc7 & Hvc8 & Hvc9).
  pose proof (resolveDevMode_boolean vc s1 s2 H2) as HdevMode.
  destruct (normalizeExtras_object vc s2 s3 Hvc2 H3) as (e & Hextras).
  destruct (resolveBooleans_buildEs5 vc s3 s4 Hvc3 H4) as (HbuildEs5 & _).
  destruct (resolveHashing_fields vc [] ds5 s4 s5 Hvc4 H5)
    as (HtaskQueue & HhashFileNames & Hlength & Henv & _ & _).
  destruct (sortBundles_array vc s6 s7 Hvc6 H7) as (a & xs & Hbundles & _ & Ha & _).
  destruct (normalizeWatchIgnoredRegex_runs vc s8 Hvc8) as (w & s9' & H9' & Hwatch & Hw).
  rewrite H9 in H9'. injection H9' as [= <-].
  exists vc. split; [done |]. cbn [heap_of].
  assert (Hkeep : ∀ k l (t : state),
            frames [k] R (heap_of t) (heap_of s9) → is_Some (heap_of t !! l) →
            field (heap_of s9) l k = field (heap_of t) l k).
  { intros k l t F Hl. apply (frames_field [k] R _ _ l k F Hl). mem. }
  repeat split.
  - destruct (Tail "devMode" ltac:(mem)) as (T & _).
    by rewrite (Hkeep _ _ s2 (T eq_refl) Hvc2).
  - destruct (Tail "buildEs5" ltac:(mem)) as (_ & _ & T & _).
    by rewrite (Hkeep _ _ s4 (T eq_refl) Hvc4), HbuildEs5.
  - destruct (Tail "hashFileNames" ltac:(mem)) as (_ & _ & _ & T & _).
    rewrite (Hkeep _ _ s5 (T eq_refl) Hvc5), HhashFileNames.
    by destruct (isBoolean (field (heap_of s4) vc "hashFileNames")) eqn:Hb.
  - destruct (Tail "taskQueue" ltac:(mem)) as (_ & _ & _ & T & _).
    rewrite (Hkeep _ _ s5 (T eq_refl) Hvc5), HtaskQueue.
    by destruct (isString (field (heap_of s4) vc "taskQueue")) eqn:Hb.
  - destruct (Tail "hashedFileNameLength" ltac:(mem)) as (_ & _ & _ & T & _).
    by rewrite (Hkeep _ _ s5 (T eq_refl) Hvc5).
  - destruct (Tail "extras" ltac:(mem)) as (_ & T & _).
    exists e. by rewrite (Hkeep _ _ s3 (T eq_refl) Hvc3).
  - destruct (Tail "env" ltac:(mem)) as (_ & _ & _ & T & _).
    by rewrite (Hkeep _ _ s5 (T eq_refl) Hvc5).
  - destruct (Tail "bundles" ltac:(mem)) as (_ & _ & _ & _ & T).
    rewrite (Hkeep _ _ s7 (T eq_refl) Hvc7), Hbundles.
    unfold isArray, kind_of.
    rewrite (frames_kind _ _ _ _ a (T eq_refl)) by by eexists.
    unfold obj_at. by rewrite Ha.
  - rewrite Hwatch. unfold isArray, kind_of, obj_at. by rewrite Hw.
Qed.

Lemma X13_resolved_fields_have_their_types_witness :
  ∃ vc ds s',
    validateConfig Samples.quietCollaborators (VObj 1) (VObj 2) MoreSamples.defaultsState
      = Ok ((VObj vc, ds), s')
    ∧ field (heap_of MoreSamples.defaultsState) 1 "buildEs5" = VStr "prod"
    ∧ field (heap_of MoreSamples.defaultsState) 1 "taskQueue" = VNum (num_of_Z 5)
    ∧ isBoolean (field (heap_of s') vc "buildEs5") = true
    ∧ isString (field (heap_of s') vc "taskQueue") = true.
Proof.
  destruct (validateConfig_returns Samples.quietCollaborators 1%positive (VObj 2)
              MoreSamples.defaultsState quiet_defaults_well_formed) as (c & ds & s' & Hrun).
  destruct (X13_resolved_fields_have_their_types Samples.quietCollaborators 1%positive
              (VObj 2) MoreSamples.defaultsState s' c ds (quiet_respects _ _))
    as (vc & -> & _ & Hes5 & _ & Htq & _); [discriminate | exact Hrun |].
  exists vc, ds, s'. by repeat split.
Defined.

(** X14.  Two defaults follow the [devMode] the validation resolves, which
    need not be the one the user wrote: the returned [buildEs5] is [true]
    when the user's is [true], or is ['prod'] while the resolved [devMode]
    is off, and [false] otherwise; the returned [hashFileNames] is the
    user's when that is a boolean and the negation of the resolved
    [devMode] otherwise.  The returned [taskQueue] is the user's when that
    is a string and ['async'] otherwise. *)
Theorem X14_defaults_follow_devMode (E : Collaborators) (u : loc)
    (bootstrapConfig : value) (s s' : state) (c : value) (ds : list Diagnostic) :
  let h := heap_of s in
  respects ["devMode"; "buildEs5"; "hashFileNames"; "taskQueue"] (λ _, False) E →
  CACHED_VALIDATED_CONFIG s ≠ VObj u →
  validateConfig E (VObj u) bootstrapConfig s = Ok ((c, ds), s') →
  ∃ vc,
    c = VObj vc
    ∧ field (heap_of s') vc "buildEs5"
      = resolved_buildEs5 (field h u "buildEs5") (field (heap_of s') vc "devMode")
    ∧ field (heap_of s') vc "hashFileNames"
      = (if isBoolean (field h u "hashFileNames") then field h u "hashFileNames"
         else VBool (negb (truthy (field (heap_of s') vc "devMode"))))
    ∧ field (heap_of s') vc "taskQueue"
      = (if isString (field h u "taskQueue") then field h u "taskQueue" else VStr "async").
Proof.
  intros h HE Hmiss Hrun.
  rewrite validateConfig_miss in Hrun by done.
  apply validate_Ok in Hrun
    as (vc & s1 & s2 & s3 & s4 & ds5 & s5 & ds6 & s6 & s7 & s8 & s9
        & H1 & H2 & H3 & H4 & H5 & H6 & H7 & H8 & H9 & -> & ->).
  set (P := ["devMode"; "buildEs5"; "hashFileNames"; "taskQueue"]) in *.
  set (R := λ _ : loc, False) in *.
  pose proof (validate_stages E P R vc s1 s2 s3 s4 s5 s6 s7 s8 s9 [] ds5 ds6 ds
                HE H2 H3 H4 H5 H6 H7 H8 H9) as Hstages.
  destruct (validate_frames E P R vc s1 s2 s3 s4 s5 s6 s7 s8 s9 [] ds5 ds6 ds
              HE H2 H3 H4 H5 H6 H7 H8 H9) as (_ & G3 & _).
  destruct (validate_tail E P R vc s1 s2 s3 s4 s5 s6 s7 s8 s9 [] ds5 ds6 ds
              HE H2 H3 H4 H5 H6 H7 H8 H9) as (_ & _ & _ & _ & T5 & _).
  assert (HE' : respects ["buildEs5"; "hashFileNames"; "taskQueue"] R E).
  { eapply respects_weaken; [| | exact HE]; [| done].
    intros k Hk. subst P. by apply list_elem_of_further. }
  destruct (validate_frames E _ R vc s1 s2 s3 s4 s5 s6 s7 s8 s9 [] ds5 ds6 ds
              HE' H2 H3 H4 H5 H6 H7 H8 H9) as (G2' & _).
  assert (HE5 : respects ["buildEs5"] R E).
  { eapply respects_weaken; [| | exact HE']; [| done].
    intros k ->%list_elem_of_singleton. mem. }
  destruct (validate_frames E _ R vc s1 s2 s3 s4 s5 s6 s7 s8 s9 [] ds5 ds6 ds
              HE5 H2 H3 H4 H5 H6 H7 H8 H9) as (_ & _ & _ & G5' & _).
  assert (HE'' : respects ["hashFileNames"; "taskQueue"] R E).
  { eapply respects_weaken; [| | exact HE']; [| done].
    intros k Hk. by apply list_elem_of_further. }
  destruct (validate_frames E _ R vc s1 s2 s3 s4 s5 s6 s7 s8 s9 [] ds5 ds6 ds
              HE'' H2 H3 H4 H5 H6 H7 H8 H9) as (_ & _ & G4'' & _).
  apply (assemble_field P R E HE) in H1 as (_ & _ & Hvc1 & Hfield1).
  destruct (Hstages vc Hvc1) as (Hvc2 & Hvc3 & Hvc4 & Hvc5 & _).
  specialize (G3 ltac:(lacks)). specialize (T5 eq_refl).
  specialize (G2' ltac:(lacks)). specialize (G5' ltac:(lacks)).
  specialize (G4'' ltac:(lacks)).
  set (D := field (heap_of s2) vc "devMode").
  assert (Huser3 : ∀ k, k ∈ ["buildEs5"; "hashFileNames"; "taskQueue"] →
                        field (heap_of s3) vc k = field h u k).
  { intros k Hk.
    rewrite (frames_field P R _ _ vc k G3 Hvc2) by (subst P; by apply list_elem_of_further).
    rewrite (frames_field _ R _ _ vc k G2' Hvc1 Hk).
    apply Hfield1; [subst P; by apply list_elem_of_further | |].
    - apply absent_spec.
      repeat (apply elem_of_cons in Hk as [-> | Hk]; [reflexivity |]).
      by apply elem_of_nil in Hk.
    - repeat (apply elem_of_cons in Hk as [-> | Hk]; [reflexivity |]).
      by apply elem_of_nil in Hk. }
  assert (HD3 : field (heap_of s3) vc "devMode" = D)
    by (apply (frames_field P R _ _ vc _ G3 Hvc2); subst P; mem).
  destruct (resolveBooleans_buildEs5 vc s3 s4 Hvc3 H4) as (Hes5 & HD4).
  rewrite Huser3, HD3 in Hes5 by mem. rewrite HD3 in HD4.
  assert (Huser4 : ∀ k, k ∈ ["hashFileNames"; "taskQueue"] →
                        field (heap_of s4) vc k = field h u k).
  { intros k Hk. rewrite (frames_field _ R _ _ vc k G4'' Hvc3 Hk).
    apply Huser3. by apply list_elem_of_further. }
  destruct (resolveHashing_fields vc [] ds5 s4 s5 Hvc4 H5)
    as (Htq & Hhfn & _ & _ & _ & HD5).
  rewrite !(Huser4 "taskQueue") in Htq by mem.
  rewrite !(Huser4 "hashFileNames"), HD4 in Hhfn by mem. rewrite HD4 in HD5.
  assert (Hes5' : field (heap_of s5) vc "buildEs5" = resolved_buildEs5 (field h u "buildEs5") D).
  { rewrite <- Hes5. apply (frames_field _ R _ _ vc _ G5' Hvc4). mem. }
  exists vc. split; [done |]. cbn [heap_of].
  rewrite (frames_field P R _ _ vc "devMode" T5 Hvc5) by (subst P; mem).
  rewrite (frames_field P R _ _ vc "buildEs5" T5 Hvc5) by (subst P; mem).
  rewrite (frames_field P R _ _ vc "hashFileNames" T5 Hvc5) by (subst P; mem).
  rewrite (frames_field P R _ _ vc "taskQueue" T5 Hvc5) by (subst P; mem).
  rewrite HD5. by repeat split.
Qed.

Lemma X14_defaults_follow_devMode_witness :
  ∃ vc ds s',
    validateConfig Samples.quietCollaborators (VObj 1) (VObj 2) MoreSamples.defaultsState
      = Ok ((VObj vc, ds), s')
    ∧ field (heap_of MoreSamples.defaultsState) 1 "buildEs5" = VStr "prod"
    ∧ field (heap_of s') vc "buildEs5"
      = resolved_buildEs5 (VStr "prod") (field (heap_of s') vc "devMode")
    ∧ field (heap_of s') vc "taskQueue" = VStr "async".
Proof.
  destruct (validateConfig_returns Samples.quietCollaborators 1%positive (VObj 2)
              MoreSamples.defaultsState quiet_defaults_well_formed) as (c & ds & s' & Hrun).
  destruct (X14_defaults_follow_devMode Samples.quietCollaborators 1%positive
              (VObj 2) MoreSamples.defaultsState s' c ds (quiet_respects _ _))
    as (vc & -> & Hes5 & _ & Htq); [discriminate | exact Hrun |].
  exists vc, ds, s'. by repeat split.
Defined.

(** X15.  The two options of the object literal that are read from the
    user's configuration are defaulted differently:
    [transformAliasedImportPaths] is the user's value only when that is a
    boolean, and [true] otherwise; [validatePrimaryPackageOutputTarget] is
    the user's value whenever that is not [null] or [undefined], boolean or
    not, and [false] otherwise. *)
Theorem X15_literal_defaults (E : Collaborators) (u b : loc)
    (s s' : state) (c : value) (ds : list Diagnostic) :
  let h := heap_of s in
  respects ["transformAliasedImportPaths"; "validatePrimaryPackageOutputTarget"]
    (λ _, False) E →
  CACHED_VALIDATED_CONFIG s ≠ VObj u →
  is_Some (h !! u) → is_Some (h !! b) →
  validateConfig E (VObj u) (VObj b) s = Ok ((c, ds), s') →
  ∃ vc,
    c = VObj vc
    ∧ field (heap_of s') vc "transformAliasedImportPaths"
      = (if isBoolean (field h u "transformAliasedImportPaths")
         then field h u "transformAliasedImportPaths" else VBool true)
    ∧ field (heap_of s') vc "validatePrimaryPackageOutputTarget"
      = nullish_else (field h u "validatePrimaryPackageOutputTarget") (VBool false).
Proof.
  intros h HE Hmiss Hu Hb Hrun.
  rewrite validateConfig_miss in Hrun by done.
  apply validate_Ok in Hrun
    as (vc & s1 & s2 & s3 & s4 & ds5 & s5 & ds6 & s6 & s7 & s8 & s9
        & H1 & H2 & H3 & H4 & H5 & H6 & H7 & H8 & H9 & -> & ->).
  set (P := ["transformAliasedImportPaths"; "validatePrimaryPackageOutputTarget"]) in *.
  set (R := λ _ : loc, False) in *.
  destruct (validate_tail E P R vc s1 s2 s3 s4 s5 s6 s7 s8 s9 [] ds5 ds6 ds
              HE H2 H3 H4 H5 H6 H7 H8 H9) as (T1 & _).
  specialize (T1 eq_refl).
  destruct (assemble_defaults P R E HE u b s s1 vc H1 Hu Hb) as (Hvc1 & _ & _ & Ht & Hv).
  specialize (Ht ltac:(subst P; mem)). specialize (Hv ltac:(subst P; mem)).
  exists vc. split; [done |]. cbn [heap_of].
  rewrite (frames_field P R _ _ vc "transformAliasedImportPaths" T1 Hvc1) by (subst P; mem).
  rewrite (frames_field P R _ _ vc "validatePrimaryPackageOutputTarget" T1 Hvc1)
    by (subst P; mem).
  by split.
Qed.

Lemma X15_literal_defaults_witness :
  ∃ vc ds s',
    validateConfig Samples.quietCollaborators (VObj 1) (VObj 2) MoreSamples.defaultsState
      = Ok ((VObj vc, ds), s')
    ∧ field (heap_of MoreSamples.defaultsState) 1 "transformAliasedImportPaths" = VStr "yes"
    ∧ field (heap_of MoreSamples.defaultsState) 1 "validatePrimaryPackageOutputTarget"
      = VStr "yes"
    ∧ field (heap_of s') vc "transformAliasedImportPaths" = VBool true
    ∧ field (heap_of s') vc "validatePrimaryPackageOutputTarget" = VStr "yes".
Proof.
  destruct (validateConfig_returns Samples.quietCollaborators 1%positive (VObj 2)
              MoreSamples.defaultsState quiet_defaults_well_formed) as (c & ds & s' & Hrun).
  destruct (X15_literal_defaults Samples.quietCollaborators 1%positive 2%positive
              MoreSamples.defaultsState s' c ds (quiet_respects _ _))
    as (vc & -> & Ht & Hv); [discriminate | by eexists | by eexists | exact Hrun |].
  exists vc, ds, s'. by repeat split.
Defined.





(** X19.  The validation does not write to the user's configuration
    object: with collaborators that do not write to it either, and unless
    the user's [extras] is the configuration itself, the object is after
    the call exactly as it was before, property by property.  What the
    validation changes of the user's is the [extras] object it shares. *)
Theorem X19_user_config_is_not_modified (E : Collaborators) (u : loc)
    (bootstrapConfig : value) (s s' : state) (c : value) (ds : list Diagnostic)
    (o : object) :
  leaves u E →
  respects ["extras"] (λ _, False) E →
  CACHED_VALIDATED_CONFIG s ≠ VObj u →
  heap_of s !! u = Some o →
  field (heap_of s) u "extras" ≠ VObj u →
  validateConfig E (VObj u) bootstrapConfig s = Ok ((c, ds), s') →
  heap_of s' !! u = Some o.
Proof.
  intros HL HE Hmiss Hu Hextras Hrun.
  rewrite validateConfig_miss in Hrun by done.
  apply validate_Ok in Hrun
    as (vc & s1 & s2 & s3 & s4 & ds5 & s5 & ds6 & s6 & s7 & s8 & s9
        & H1 & H2 & H3 & H4 & H5 & H6 & H7 & H8 & H9 & -> & ->).
  set (R := λ _ : loc, False) in *.
  assert (HE0 : keeps_objects E).
  { eapply respects_weaken; [| | exact HE]; [by intros k ?%elem_of_nil | done]. }
  assert (Hvc : vc ≠ u).
  { intros ->. pose proof (assemble_new E _ _ HE0 _ _ _ H1). congruence. }
  destruct (validate_frames E ["extras"] R vc s1 s2 s3 s4 s5 s6 s7 s8 s9 [] ds5 ds6 ds
              HE H2 H3 H4 H5 H6 H7 H8 H9) as (G2 & _).
  specialize (G2 ltac:(lacks)).
  pose proof (at_assemble u o E HL (VObj u) bootstrapConfig _ _ _ Hu H1) as Hu1.
  apply (assemble_field ["extras"] R E HE) in H1 as (_ & _ & Hvc1 & Hfield1).
  assert (Hextras2 : field (heap_of s2) vc "extras" = field (heap_of s) u "extras").
  { rewrite (frames_field _ R _ _ vc "extras" G2 Hvc1) by mem.
    apply Hfield1; [mem | lacks | done]. }
  pose proof (at_resolveDevMode u o vc Hvc _ _ _ Hu1 H2) as Hu2.
  assert (Hu3 : holds_at u o s3).
  { apply (at_normalizeExtras u o vc Hvc s2 s3 Hu2); [| by rewrite Hextras2 | exact H3].
    exact (frames_allocated _ _ _ _ _ G2 Hvc1). }
  pose proof (at_resolveBooleans u o vc Hvc _ _ _ Hu3 H4) as Hu4.
  pose proof (at_resolveHashing u o vc Hvc _ _ _ _ Hu4 H5) as Hu5.
  pose proof (at_validateFields u o E vc HL Hvc _ _ _ _ Hu5 H6) as Hu6.
  pose proof (at_sortBundles u o vc Hvc _ _ _ Hu6 H7) as Hu7.
  pose proof (at_validateRemaining u o E vc HL Hvc _ _ _ _ Hu7 H8) as Hu8.
  exact (at_normalizeWatchIgnoredRegex u o vc Hvc _ _ _ Hu8 H9).
Qed.

Lemma X19_user_config_is_not_modified_witness :
  ∃ c ds s',
    validateConfig Samples.quietCollaborators (VObj 1) (VObj 6) Samples.configState
      = Ok ((c, ds), s')
    ∧ heap_of s' !! 1%positive = heap_of Samples.configState !! 1%positive
    ∧ field (heap_of s') 1 "devMode" = VBool true.
Proof.
  destruct (validateConfig_returns Samples.quietCollaborators 1%positive (VObj 6)
              Samples.configState quiet_well_formed) as (c & ds & s' & Hrun).
  pose proof (X19_user_config_is_not_modified Samples.quietCollaborators 1%positive
                (VObj 6) Samples.configState s' c ds _ (quiet_leaves 1)
                (quiet_respects _ _) ltac:(discriminate) eq_refl ltac:(discriminate) Hrun)
    as Hkept.
  exists c, ds, s'. split; [exact Hrun |]. split; [exact Hkept |].
  unfold field, obj_at. by rewrite Hkept.
Defined.

(** X20.  In a testing configuration the validator of the distribution
    namespace is not consulted: when the user's [_isTesting] is truthy and
    the collaborators leave it alone, the validation returns the same
    configuration, the same diagnostics and the same state whatever that
    validator is. *)
Theorem X20_testing_skips_dist_namespace (E : Collaborators) (u : loc)
    (bootstrapConfig : value) (s s' : state) (c : value) (ds : list Diagnostic) :
  respects ["_isTesting"] (λ _, False) E →
  CACHED_VALIDATED_CONFIG s ≠ VObj u →
  truthy (field (heap_of s) u "_isTesting") = true →
  validateConfig E (VObj u) bootstrapConfig s = Ok ((c, ds), s') →
  ∀ f, validateConfig (with_validateDistNamespace f E) (VObj u) bootstrapConfig s
       = Ok ((c, ds), s').
Proof.
  intros HE Hmiss Htesting Hrun f.
  rewrite validateConfig_miss in Hrun |- * by done.
  apply validate_Ok in Hrun
    as (vc & s1 & s2 & s3 & s4 & ds5 & s5 & ds6 & s6 & s7 & s8 & s9
        & H1 & H2 & H3 & H4 & H5 & H6 & H7 & H8 & H9 & -> & ->).
  set (P := ["_isTesting"]) in *. set (R := λ _ : loc, False) in *.
  pose proof (validate_stages E P R vc s1 s2 s3 s4 s5 s6 s7 s8 s9 [] ds5 ds6 ds
                HE H2 H3 H4 H5 H6 H7 H8 H9) as Hstages.
  destruct (validate_frames E P R vc s1 s2 s3 s4 s5 s6 s7 s8 s9 [] ds5 ds6 ds
              HE H2 H3 H4 H5 H6 H7 H8 H9) as (G2 & G3 & G4 & G5 & G6 & G7 & _).
  assert (F17 : frames P R (heap_of s1) (heap_of s7)).
  { through G2. through G3. through G4. through G5. through G6. apply G7. lacks. }
  pose proof H1 as H1'.
  apply (assemble_field P R E HE) in H1' as (_ & _ & Hvc1 & Hfield1).
  destruct (Hstages vc Hvc1) as (_ & _ & _ & _ & _ & Hvc7 & _).
  assert (Ht7 : field (heap_of s7) vc "_isTesting" = field (heap_of s) u "_isTesting").
  { rewrite (frames_field P R _ _ vc _ F17 Hvc1) by mem.
    apply Hfield1; [mem | lacks | done]. }
  assert (H8' : validateRemaining (with_validateDistNamespace f E) vc ds6 s7 = Ok (ds, s8)).
  { unfold validateRemaining in H8 |- *.
    cbn [with_validateDistNamespace validateWorkers validateDistNamespace].
    apply bind_Ok in H8 as ([] & sa & Ha & H8).
    rewrite (bind_run _ _ _ _ _ Ha).
    rewrite bind_read in H8 |- *.
    apply bind_Ok in H8 as ([] & sb & Hb & H8).
    rewrite (bind_run _ _ _ _ _ Hb).
    rewrite bind_read in H8 |- *.
    apply (keeps_call P R) in Ha as [Fa _]; [| intros h; apply HE].
    apply (keeps_setBooleanConfig P R) in Hb as [Fb _]; [| lacks].
    assert (Htb : field (heap_of sb) vc "_isTesting" = field (heap_of s) u "_isTesting").
    { rewrite (frames_field P R _ _ vc _ Fb) by (mem || by eapply frames_allocated).
      by rewrite (frames_field P R _ _ vc _ Fa Hvc7) by mem. }
    rewrite Htb, Htesting in H8 |- *. exact H8. }
  unfold validate.
  change (assemble (with_validateDistNamespace f E)) with (assemble E).
  change (validateFields (with_validateDistNamespace f E)) with (validateFields E).
  rewrite (bind_run _ _ _ _ _ H1), (bind_run _ _ _ _ _ H2), (bind_run _ _ _ _ _ H3),
    (bind_run _ _ _ _ _ H4), (bind_run _ _ _ _ _ H5), (bind_run _ _ _ _ _ H6),
    (bind_run _ _ _ _ _ H7), (bind_run _ _ _ _ _ H8'), (bind_run _ _ _ _ _ H9).
  reflexivity.
Qed.

Lemma X20_testing_skips_dist_namespace_witness :
  ∃ c ds s',
    validateConfig Samples.quietCollaborators (VObj 1) (VObj 2) MoreSamples.testingState
      = Ok ((c, ds), s')
    ∧ ∀ f, validateConfig (with_validateDistNamespace f Samples.quietCollaborators)
             (VObj 1) (VObj 2) MoreSamples.testingState = Ok ((c, ds), s').
Proof.
  destruct (validateConfig_returns Samples.quietCollaborators 1%positive (VObj 2)
              MoreSamples.testingState quiet_testing_well_formed) as (c & ds & s' & Hrun).
  exists c, ds, s'. split; [exact Hrun |].
  apply (X20_testing_skips_dist_namespace Samples.quietCollaborators 1%positive (VObj 2)
           MoreSamples.testingState s' c ds (quiet_respects _ _));
    [discriminate | reflexivity | exact Hrun].
Defined.

(** X21.  A truthy [extras] that is not an object makes the validation
    throw: the first flag is assigned to a property of the primitive, which
    the module's strict mode forbids.  (A falsy [extras] is replaced by a
    new object, and an object is used as it is.) *)
Theorem X21_primitive_extras_throw (E : Collaborators) (u : loc)
    (bootstrapConfig : value) (s : state) :
  let h := heap_of s in
  respects ["extras"] (λ _, False) E →
  CACHED_VALIDATED_CONFIG s ≠ VObj u →
  truthy (field h u "extras") = true →
  primitive (field h u "extras") →
  ∃ e, validateConfig E (VObj u) bootstrapConfig s = Throw e.
Proof.
  intros h HE Hmiss Ht Hprim.
  destruct (validateConfig E (VObj u) bootstrapConfig s) as [[[c ds] s'] | e] eqn:Hrun;
    [| by exists e].
  exfalso. rewrite validateConfig_miss in Hrun by done.
  apply validate_Ok in Hrun
    as (vc & s1 & s2 & s3 & s4 & ds5 & s5 & ds6 & s6 & s7 & s8 & s9
        & H1 & H2 & H3 & H4 & H5 & H6 & H7 & H8 & H9 & -> & ->).
  set (R := λ _ : loc, False) in *.
  destruct (validate_frames E ["extras"] R vc s1 s2 s3 s4 s5 s6 s7 s8 s9 [] ds5 ds6 ds
              HE H2 H3 H4 H5 H6 H7 H8 H9) as (G2 & _).
  specialize (G2 ltac:(lacks)).
  apply (assemble_field ["extras"] R E HE) in H1 as (_ & _ & Hvc1 & Hfield1).
  assert (Hextras2 : field (heap_of s2) vc "extras" = field h u "extras").
  { rewrite (frames_field _ R _ _ vc "extras" G2 Hvc1) by mem.
    apply Hfield1; [mem | lacks | done]. }
  destruct (normalizeExtras_needs_object vc s2 s3 H3) as (e & He).
  - by rewrite Hextras2.
  - rewrite Hextras2 in He. by rewrite He in Hprim.
Qed.

Lemma X21_primitive_extras_throw_witness :
  field (heap_of MoreSamples.primitiveExtrasState) 1 "extras" = VBool true
  ∧ ∃ e, validateConfig Samples.quietCollaborators (VObj 1) (VObj 2)
           MoreSamples.primitiveExtrasState = Throw e.
Proof.
  split; [reflexivity |].
  apply (X21_primitive_extras_throw Samples.quietCollaborators 1%positive (VObj 2)
           MoreSamples.primitiveExtrasState (quiet_respects _ _));
    [discriminate | reflexivity | exact I].
Defined.

End ValidateExtras.
